(** * PWA Converter (Web2PWA, app.js v2.0.1): a shallow embedding

    The program is one JavaScript class, [PWAConverter], whose methods read
    and write three records held by the instance: [this.files],
    [this.config] and [this.generatedFiles].  Each method is embedded as a
    function that takes the parts of these records it reads and returns the
    parts it writes.

    JavaScript strings are embedded as [string]: the sequence of bytes of
    the text (UTF-8).  [toLowerCase], [trim] and the regular-expression
    classes act on the ASCII range, where the byte and the character
    coincide; bytes of non-ASCII characters are carried unchanged. *)

From Stdlib Require Import String Ascii List Bool Arith NArith ZArith Lia.
From Stdlib Require Import DecimalString Permutation.
Import ListNotations.
Open Scope list_scope.
Open Scope string_scope.

(* ====================================================================== *)
(** * Part I: the embedding *)
(* ====================================================================== *)

(** ** JavaScript string primitives *)

Definition dquote : string := String (ascii_of_nat 34) EmptyString.
Definition newline : string := String (ascii_of_nat 10) EmptyString.
Definition LF : ascii := ascii_of_nat 10.

Fixpoint string_forallb (p : ascii -> bool) (s : string) : bool :=
  match s with
  | EmptyString => true
  | String c r => p c && string_forallb p r
  end.

Fixpoint string_map (f : ascii -> ascii) (s : string) : string :=
  match s with
  | EmptyString => EmptyString
  | String c r => String (f c) (string_map f r)
  end.

Fixpoint string_filter (p : ascii -> bool) (s : string) : string :=
  match s with
  | EmptyString => EmptyString
  | String c r => if p c then String c (string_filter p r) else string_filter p r
  end.

Definition inRange (lo hi c : ascii) : bool := Ascii.leb lo c && Ascii.leb c hi.

Definition isUpperAZ (c : ascii) : bool := inRange "A" "Z" c.
Definition isLowerAZ (c : ascii) : bool := inRange "a" "z" c.
Definition isDigit (c : ascii) : bool := inRange "0" "9" c.
Definition isHyphen (c : ascii) : bool := Ascii.eqb c "-".

(** The class [\s] and the characters [trim] strips, on the ASCII range:
    tab, line feed, vertical tab, form feed, carriage return, space. *)
Definition isSpace (c : ascii) : bool :=
  inRange (ascii_of_nat 9) (ascii_of_nat 13) c || Ascii.eqb c " ".

Definition lowerChar (c : ascii) : ascii :=
  if isUpperAZ c then ascii_of_nat (nat_of_ascii c + 32) else c.

(** [s.toLowerCase()] *)
Definition toLowerCase (s : string) : string := string_map lowerChar s.

Fixpoint trimStart (s : string) : string :=
  match s with
  | EmptyString => EmptyString
  | String c r => if isSpace c then trimStart r else s
  end.

Fixpoint trimEnd (s : string) : string :=
  match s with
  | EmptyString => EmptyString
  | String c r =>
      match trimEnd r with
      | EmptyString => if isSpace c then EmptyString else String c EmptyString
      | r' => String c r'
      end
  end.

(** [s.trim()] *)
Definition trim (s : string) : string := trimEnd (trimStart s).

(** [s.startsWith(p)] *)
Fixpoint startsWith (p s : string) : bool :=
  match p, s with
  | EmptyString, _ => true
  | String _ _, EmptyString => false
  | String a p', String c s' => Ascii.eqb a c && startsWith p' s'
  end.

(** [s.includes(n)]: [n] occurs in [s] at some position. *)
Fixpoint includes (n s : string) : bool :=
  startsWith n s ||
  match s with
  | EmptyString => false
  | String _ r => includes n r
  end.

(** [s.endsWith(n)] *)
Fixpoint endsWith (n s : string) : bool :=
  String.eqb s n ||
  match s with
  | EmptyString => false
  | String _ r => endsWith n r
  end.

(** [s.split(sep)] for a one-character separator: never the empty list. *)
Fixpoint split (sep : ascii) (s : string) : list string :=
  match s with
  | EmptyString => [EmptyString]
  | String c r =>
      if Ascii.eqb c sep then EmptyString :: split sep r
      else match split sep r with
           | h :: t => String c h :: t
           | [] => [String c EmptyString]
           end
  end.

(** [parts.join(sep)] *)
Definition join (sep : string) (parts : list string) : string :=
  String.concat sep parts.

(** The lines of a text, and a text from its lines. *)
Definition lines (s : string) : list string := split LF s.
Definition unlines (ls : list string) : string := join newline ls.

(** The decimal numeral of a natural number, as a template literal prints
    it ([`${n}`]). *)
Definition showNat (n : nat) : string := NilZero.string_of_uint (Nat.to_uint n).

(** [s.replace(/p+/g, rep)] for a character class [p]: every maximal run of
    characters of the class becomes one [rep].  [inRun] tells that the
    previous character belonged to the run being replaced. *)
Fixpoint replaceRuns (p : ascii -> bool) (rep : string) (inRun : bool) (s : string) : string :=
  match s with
  | EmptyString => EmptyString
  | String c r =>
      if p c then
        if inRun then replaceRuns p rep true r
        else rep ++ replaceRuns p rep true r
      else String c (replaceRuns p rep false r)
  end.

(** ** sanitizeFolderName (app.js 427-435) *)

(** The class [[a-z0-9-]]; [/[^a-z0-9-]/g] removes every other character. *)
Definition isNameChar (c : ascii) : bool := isLowerAZ c || isDigit c || isHyphen c.

(** [/^-/]: one hyphen at the start. *)
Definition dropLeadingHyphen (s : string) : string :=
  match s with
  | String c r => if isHyphen c then r else s
  | EmptyString => EmptyString
  end.

(** [/-$/]: one hyphen at the end. *)
Fixpoint dropTrailingHyphen (s : string) : string :=
  match s with
  | EmptyString => EmptyString
  | String c EmptyString => if isHyphen c then EmptyString else s
  | String c r => String c (dropTrailingHyphen r)
  end.

(** [.replace(/^-|-$/g, '')]: the scan removes a hyphen at position 0, then
    goes on and removes a hyphen that ends the string. *)
Definition stripEdgeHyphens (s : string) : string :=
  dropTrailingHyphen (dropLeadingHyphen s).

Definition sanitizeFolderName (name : string) : string :=
  stripEdgeHyphens
    (replaceRuns isHyphen "-" false
       (string_filter isNameChar
          (replaceRuns isSpace "-" false
             (trim (toLowerCase name))))).

(** Structural readings of "starts with a hyphen", "ends with a hyphen" and
    "has no two consecutive hyphens", used to carry the invariants of the
    replacement chain. *)
Definition headIsHyphen (s : string) : bool :=
  match s with
  | String c _ => isHyphen c
  | EmptyString => false
  end.

Fixpoint lastIsHyphen (s : string) : bool :=
  match s with
  | EmptyString => false
  | String c EmptyString => isHyphen c
  | String _ r => lastIsHyphen r
  end.

Fixpoint noHyphenPair (s : string) : bool :=
  match s with
  | EmptyString => true
  | String c r => negb (isHyphen c && headIsHyphen r) && noHyphenPair r
  end.

(** ** Uploaded files and the record [this.files] (app.js 19-32) *)

(** A browser [File] of the folder input: the fields the program reads, and
    the text [readTextFile] resolves to for it. *)
Module File.
Record t := mk {
  webkitRelativePath : string;
  name : string;
  type : string;
  size : N;
  content : string
}.
End File.

(** The [fileInfo] objects pushed on [this.files.allFiles]. *)
Module Info.
Record t := mk {
  path : string;
  blob : File.t;
  type : string;
  size : N;
  name : string
}.
End Info.

(** The quick references [this.files.index], [.css] and [.js]. *)
Module Ref.
Record t := mk {
  path : string;
  content : string;
  blob : File.t
}.
End Ref.

(** What [processIcon] resolves to. *)
Module Icon.
Record t := mk {
  dataUrl : string;
  width : N;
  height : N
}.
End Icon.

(** [this.files]; [None] is JavaScript's [null]. *)
Module Files.
Record t := mk {
  folderName : option string;
  sanitizedName : option string;
  allFiles : list Info.t;
  totalSize : N;
  index : option Ref.t;
  css : option Ref.t;
  js : option Ref.t;
  icon : option Icon.t
}.

(** The record the constructor, the [catch] of [handleFolderUpload] and
    [reset] all assign. *)
Definition empty : t :=
  mk None None [] 0%N None None None None.

Definition setAllFiles (st : t) (l : list Info.t) : t :=
  mk (folderName st) (sanitizedName st) l (totalSize st)
     (index st) (css st) (js st) (icon st).
Definition setIndex (st : t) (r : Ref.t) : t :=
  mk (folderName st) (sanitizedName st) (allFiles st) (totalSize st)
     (Some r) (css st) (js st) (icon st).
Definition setCss (st : t) (r : Ref.t) : t :=
  mk (folderName st) (sanitizedName st) (allFiles st) (totalSize st)
     (index st) (Some r) (js st) (icon st).
Definition setJs (st : t) (r : Ref.t) : t :=
  mk (folderName st) (sanitizedName st) (allFiles st) (totalSize st)
     (index st) (css st) (Some r) (icon st).
Definition setFolder (st : t) (raw clean : string) (total : N) : t :=
  mk (Some raw) (Some clean) (allFiles st) total
     (index st) (css st) (js st) (icon st).
End Files.

(** JavaScript's [a || b] on strings: the empty string is falsy. *)
Definition orElse (a b : string) : string :=
  match a with
  | EmptyString => b
  | _ => a
  end.

Definition isSome {A : Type} (o : option A) : bool :=
  match o with
  | Some _ => true
  | None => false
  end.

(** getRelativePath (app.js 255-260): the path without its first segment. *)
Definition getRelativePath (file : File.t) : string :=
  let fullPath := orElse (File.webkitRelativePath file) (File.name file) in
  let parts := split "/" fullPath in
  join "/" (tl parts).

(** guessFileType (app.js 265-290).  The table's own keys; an extension that
    names a property every object inherits (constructor, toString, ...) is
    outside this model. *)
Definition mimeTypes : list (string * string) :=
  [ ("html", "text/html"); ("css", "text/css"); ("js", "application/javascript");
    ("json", "application/json"); ("png", "image/png"); ("jpg", "image/jpeg");
    ("jpeg", "image/jpeg"); ("gif", "image/gif"); ("svg", "image/svg+xml");
    ("webp", "image/webp"); ("mp3", "audio/mpeg"); ("wav", "audio/wav");
    ("ogg", "audio/ogg"); ("mp4", "video/mp4"); ("webm", "video/webm");
    ("woff", "font/woff"); ("woff2", "font/woff2"); ("ttf", "font/ttf");
    ("txt", "text/plain"); ("xml", "application/xml") ].

Fixpoint assoc {A : Type} (key : string) (table : list (string * A)) : option A :=
  match table with
  | [] => None
  | (k, v) :: rest => if String.eqb k key then Some v else assoc key rest
  end.

Definition guessFileType (filename : string) : string :=
  let ext := toLowerCase (last (split "." filename) EmptyString) in
  match assoc ext mimeTypes with
  | Some t => t
  | None => "application/octet-stream"
  end.

(** One turn of the loop of processAllFiles (app.js 211-249). *)
Definition processFile (st : Files.t) (file : File.t) : Files.t :=
  let relativePath := getRelativePath file in
  let fileInfo :=
    Info.mk relativePath file
      (orElse (File.type file) (guessFileType relativePath))
      (File.size file) (File.name file) in
  let st := Files.setAllFiles st (Files.allFiles st ++ [fileInfo]) in
  let ref := Ref.mk relativePath (File.content file) file in
  if String.eqb relativePath "index.html" then
    Files.setIndex st ref
  else if endsWith ".css" relativePath && negb (isSome (Files.css st)) then
    Files.setCss st ref
  else if endsWith ".js" relativePath && negb (isSome (Files.js st)) then
    if negb (includes "node_modules" relativePath) && negb (includes "dist" relativePath)
    then Files.setJs st ref
    else st
  else st.

(** processAllFiles (app.js 208-250): only [allFiles] is emptied first. *)
Definition processAllFiles (st : Files.t) (files : list File.t) : Files.t :=
  fold_left processFile files (Files.setAllFiles st []).

(** validateHTML (app.js 310-313) *)
Definition validateHTML (content : string) : bool :=
  let lower := toLowerCase content in
  includes "<!doctype" lower || includes "<html" lower.

(** The errors handleFolderUpload can catch.  The first three are thrown
    by the handler and by validateFolderStructure and are named for their
    messages: "Folder too large (...). Maximum size is 100MB.",
    "index.html not found in folder root. ..." and
    "index.html appears to be invalid. ...".  The fourth stands for an
    exception of the JavaScript engine raised while the folder tree is
    displayed ([current._files.push is not a function], for instance). *)
Inductive UploadError : Type :=
  | FolderTooLarge
  | IndexNotFound
  | IndexInvalid
  | DisplayFailed.

(** validateFolderStructure (app.js 295-305): [Some e] when it throws. *)
Definition validateFolderStructure (st : Files.t) : option UploadError :=
  match Files.index st with
  | None => Some IndexNotFound
  | Some idx => if validateHTML (Ref.content idx) then None else Some IndexInvalid
  end.

(** What the user sees of the size check: the warning status line and the
    pause [await this.delay(ms)]. *)
Inductive Event : Type :=
  | LargeFolderWarning
  | Delay (ms : N).

Inductive Outcome : Type :=
  | Ignored                     (* no file selected: the handler returns *)
  | Loaded                      (* the success branch ran to its end *)
  | Failed (e : UploadError).   (* the catch branch ran *)

Definition maxSize : N := 100 * 1024 * 1024.
Definition warnSize : N := 50 * 1024 * 1024.

Definition sumSizes (files : list File.t) : N :=
  fold_left (fun sum file => (sum + File.size file)%N) files 0%N.

(** handleFolderUpload (app.js 118-203): the new [this.files], the events
    of the size check, and how the handler ended.

    After validateFolderStructure the [try] block goes on (165-182):
    autoFillConfiguration writes the form (embedded below, on the form),
    the status lines are set, countFolders counts, and displayFolderTree
    shows the folder.  Of these only displayFolderTree can throw:
    buildFileTree (341-363) keeps the files of a directory in an array
    under the key [_files] of a JavaScript object whose other keys are the
    sub-folders, so a sub-folder named [_files] that is met before a file
    of the same directory makes [current._files.push] fail, and
    renderFileTree (368-396) then calls [forEach] on what it finds under
    that key; other path segments meet the properties every object
    inherits.  The exception is caught by the same [catch], which resets
    [this.files].  The embedding takes the answer of that call as its
    first argument: [displayFolderTree files] is [true] when the call
    returns for the uploaded list and [false] when it throws. *)
Definition handleFolderUpload (displayFolderTree : list File.t -> bool)
  (st : Files.t) (files : list File.t)
  : Files.t * list Event * Outcome :=
  match files with
  | [] => (st, [], Ignored)
  | first :: _ =>
      let folderPath := orElse (File.webkitRelativePath first) (File.name first) in
      let folderName := hd EmptyString (split "/" folderPath) in
      let total := sumSizes files in
      let st := Files.setFolder st folderName (sanitizeFolderName folderName) total in
      if (maxSize <? total)%N then (Files.empty, [], Failed FolderTooLarge)
      else
        let events :=
          if (warnSize <? total)%N then [LargeFolderWarning; Delay 1000] else [] in
        let st := processAllFiles st files in
        match validateFolderStructure st with
        | Some e => (Files.empty, events, Failed e)
        | None =>
            if displayFolderTree files then (st, events, Loaded)
            else (Files.empty, events, Failed DisplayFailed)
        end
  end.

(** The reference processFile stores for a file. *)
Definition refOf (file : File.t) : Ref.t :=
  Ref.mk (getRelativePath file) (File.content file) file.

(** The tests of the loop, as predicates on a file of the list. *)
Definition isRootDocument (file : File.t) : bool :=
  String.eqb (getRelativePath file) "index.html".

Definition isStylesheet (file : File.t) : bool :=
  endsWith ".css" (getRelativePath file).

Definition isScript (file : File.t) : bool :=
  let p := getRelativePath file in
  endsWith ".js" p && negb (String.eqb p "index.html") &&
  negb (includes "node_modules" p) && negb (includes "dist" p).

(** ** The record [this.config] (app.js 657-672) *)

Module Config.
Record t := mk {
  name : string;
  shortName : string;
  appId : string;
  folderName : string;
  description : string;
  themeColor : string;
  backgroundColor : string;
  startUrl : string;
  scope : string;
  display : string;
  orientation : string;
  cacheStrategy : string;
  enableOffline : bool;
  enableNotifications : bool
}.
End Config.

(** ** JSON.stringify(value, null, 2) *)

(** The values the program serializes: strings, arrays and objects (an
    object keeps its members in insertion order). *)
#[warnings="-register-all"]
Inductive JSON : Type :=
  | JString (s : string)
  | JArray (items : list JSON)
  | JObject (members : list (string * JSON)).

Definition backslash : string := "\".

Definition hexDigit (n : nat) : string :=
  String.substring n 1 "0123456789abcdef".

(** QuoteJSONString, one character at a time. *)
Definition jsonEscape (c : ascii) : string :=
  let n := nat_of_ascii c in
  if Nat.eqb n 34 then backslash ++ dquote
  else if Nat.eqb n 92 then backslash ++ backslash
  else if Nat.eqb n 8 then backslash ++ "b"
  else if Nat.eqb n 9 then backslash ++ "t"
  else if Nat.eqb n 10 then backslash ++ "n"
  else if Nat.eqb n 12 then backslash ++ "f"
  else if Nat.eqb n 13 then backslash ++ "r"
  else if Nat.ltb n 32 then backslash ++ "u00" ++ hexDigit (n / 16) ++ hexDigit (n mod 16)
  else String c EmptyString.

Fixpoint jsonEscapeAll (s : string) : string :=
  match s with
  | EmptyString => EmptyString
  | String c r => jsonEscape c ++ jsonEscapeAll r
  end.

Definition jsonQuote (s : string) : string :=
  dquote ++ jsonEscapeAll s ++ dquote.

(** SerializeJSONProperty with gap ["  "]; [indent] is the current
    indentation. *)
Fixpoint stringify (indent : string) (v : JSON) : string :=
  let inner := indent ++ "  " in
  let separator := "," ++ newline ++ inner in
  match v with
  | JString s => jsonQuote s
  | JArray [] => "[]"
  | JArray items =>
      "[" ++ newline ++ inner
          ++ join separator (map (stringify inner) items)
          ++ newline ++ indent ++ "]"
  | JObject [] => "{}"
  | JObject members =>
      "{" ++ newline ++ inner
          ++ join separator
               (map (fun kv => jsonQuote (fst kv) ++ ": " ++ stringify inner (snd kv))
                    members)
          ++ newline ++ indent ++ "}"
  end.

(** Property access on an object and on a string-valued member. *)
Definition member (key : string) (v : JSON) : option JSON :=
  match v with
  | JObject members => assoc key members
  | _ => None
  end.

Definition stringMember (key : string) (v : JSON) : option string :=
  match member key v with
  | Some (JString s) => Some s
  | _ => None
  end.

(** ** generateManifest (app.js 729-759) *)

Definition iconSizes : list nat := [72; 96; 128; 144; 152; 192; 384; 512].

Definition iconEntry (size : nat) : JSON :=
  JObject
    [ ("src", JString ("icons/icon-" ++ showNat size ++ "x" ++ showNat size ++ ".png"));
      ("sizes", JString (showNat size ++ "x" ++ showNat size));
      ("type", JString "image/png");
      ("purpose", JString (if Nat.leb 192 size then "any maskable" else "any")) ].

(** The object [manifest] when it is serialized. *)
Definition manifestObject (config : Config.t) : JSON :=
  JObject
    [ ("id", JString (Config.appId config));
      ("name", JString (Config.name config));
      ("short_name", JString (Config.shortName config));
      ("description", JString (Config.description config));
      ("start_url", JString (Config.startUrl config));
      ("scope", JString (Config.scope config));
      ("display", JString (Config.display config));
      ("orientation", JString (Config.orientation config));
      ("theme_color", JString (Config.themeColor config));
      ("background_color", JString (Config.backgroundColor config));
      ("icons", JArray (map iconEntry iconSizes));
      ("categories", JArray [JString "utilities"; JString "productivity"]) ].

Definition generateManifest (config : Config.t) : string :=
  stringify EmptyString (manifestObject config).

(** ** The service worker (app.js 764-1013) *)

(** The template literal of generateCacheFirstStrategy, line by line. *)
Definition cacheFirstTemplate (config : Config.t) : list string :=
  [ "    // Cache First Strategy - Serves cached content immediately";
    "    if (event.request.method !== 'GET') {";
    "        return;";
    "    }";
    "";
    "    event.respondWith(";
    "        caches.match(event.request)";
    "            .then(cachedResponse => {";
    "                if (cachedResponse) {";
    "                    return cachedResponse;";
    "                }";
    "";
    "                return fetch(event.request).then(response => {";
    "                    if (!response || response.status !== 200 || response.type !== 'basic') {";
    "                        return response;";
    "                    }";
    "";
    "                    const responseToCache = response.clone();";
    "                    caches.open(CACHE_NAME).then(cache => {";
    "                        cache.put(event.request, responseToCache);";
    "                    });";
    "";
    "                    return response;";
    "                }).catch(error => {" ] ++
  [ "                    " ++
    (if Config.enableOffline config then
       unlines
         [ "";
           "                    if (isNavigationRequest(event.request)) {";
           "                        return caches.match(OFFLINE_URL);";
           "                    }" ]
     else EmptyString) ] ++
  [ "                    throw error;";
    "                });";
    "            })";
    "    );" ].

(** generateCacheFirstStrategy (app.js 873-906) *)
Definition generateCacheFirstStrategy (config : Config.t) : string :=
  unlines (cacheFirstTemplate config).

(** The template literal of generateNetworkFirstStrategy, line by line. *)
Definition networkFirstTemplate (config : Config.t) : list string :=
  [ "    // Network First Strategy - Always tries network first";
    "    if (event.request.method !== 'GET') {";
    "        return;";
    "    }";
    "";
    "    event.respondWith(";
    "        fetch(event.request)";
    "            .then(response => {";
    "                if (response.status === 200) {";
    "                    const responseToCache = response.clone();";
    "                    caches.open(CACHE_NAME).then(cache => {";
    "                        cache.put(event.request, responseToCache);";
    "                    });";
    "                }";
    "                return response;";
    "            })";
    "            .catch(error => {";
    "                return caches.match(event.request).then(cachedResponse => {";
    "                    if (cachedResponse) {";
    "                        return cachedResponse;";
    "                    }" ] ++
  [ "                    " ++
    (if Config.enableOffline config then
       unlines
         [ "";
           "                    if (isNavigationRequest(event.request)) {";
           "                        return caches.match(OFFLINE_URL);";
           "                    }" ]
     else EmptyString) ] ++
  [ "                    throw error;";
    "                });";
    "            })";
    "    );" ].

(** generateNetworkFirstStrategy (app.js 911-941) *)
Definition generateNetworkFirstStrategy (config : Config.t) : string :=
  unlines (networkFirstTemplate config).

(** The template literal of generateStaleWhileRevalidateStrategy, line by line. *)
Definition staleWhileRevalidateTemplate (config : Config.t) : list string :=
  [ "    // Stale While Revalidate Strategy - Balanced approach";
    "    if (event.request.method !== 'GET') {";
    "        return;";
    "    }";
    "";
    "    event.respondWith(";
    "        caches.match(event.request).then(cachedResponse => {";
    "            const fetchPromise = fetch(event.request).then(response => {";
    "                if (response.status === 200) {";
    "                    const responseToCache = response.clone();";
    "                    caches.open(CACHE_NAME).then(cache => {";
    "                        cache.put(event.request, responseToCache);";
    "                    });";
    "                }";
    "                return response;";
    "            }).catch(error => {" ] ++
  [ "                " ++
    (if Config.enableOffline config then
       unlines
         [ "";
           "                if (isNavigationRequest(event.request)) {";
           "                    return caches.match(OFFLINE_URL);";
           "                }" ]
     else EmptyString) ] ++
  [ "                throw error;";
    "            });";
    "";
    "            return cachedResponse || fetchPromise;";
    "        })";
    "    );" ].

(** generateStaleWhileRevalidateStrategy (app.js 946-973) *)
Definition generateStaleWhileRevalidateStrategy (config : Config.t) : string :=
  unlines (staleWhileRevalidateTemplate config).

(** The template literal of generateNotificationHandlers, line by line. *)
Definition notificationTemplate (config : Config.t) : list string :=
  [ "";
    "// Push notification handler";
    "self.addEventListener('push', event => {";
    "    console.log('[Service Worker] Push received');";
    "    ";
    "    const options = {";
    "        body: event.data ? event.data.text() : 'New notification from " ++ Config.name config ++ "',";
    "        icon: '" ++ Config.startUrl config ++ "icons/icon-192x192.png',";
    "        badge: '" ++ Config.startUrl config ++ "icons/icon-72x72.png',";
    "        vibrate: [200, 100, 200],";
    "        tag: 'notification-tag',";
    "        requireInteraction: false,";
    "        actions: [";
    "            { action: 'open', title: 'Open App' },";
    "            { action: 'close', title: 'Close' }";
    "        ]";
    "    };";
    "";
    "    event.waitUntil(";
    "        self.registration.showNotification('" ++ Config.name config ++ "', options)";
    "    );";
    "});";
    "";
    "// Notification click handler";
    "self.addEventListener('notificationclick', event => {";
    "    console.log('[Service Worker] Notification clicked');";
    "    event.notification.close();";
    "";
    "    if (event.action === 'open' || !event.action) {";
    "        event.waitUntil(";
    "            clients.openWindow('" ++ Config.startUrl config ++ "')";
    "        );";
    "    }";
    "});" ].

(** generateNotificationHandlers (app.js 978-1013) *)
Definition generateNotificationHandlers (config : Config.t) : string :=
  unlines (notificationTemplate config).

(** The table [cacheStrategies] of generateServiceWorker: the three texts
    are all built, whatever the configuration selects. *)
Definition cacheStrategies (config : Config.t) : list (string * string) :=
  [ ("cache-first", generateCacheFirstStrategy config);
    ("network-first", generateNetworkFirstStrategy config);
    ("stale-while-revalidate", generateStaleWhileRevalidateStrategy config) ].

(** [`${table[key]}`]: a key the table does not hold gives [undefined],
    which a template literal prints as such.  (Keys that name a property
    every object inherits are outside this model.) *)
Definition lookupStrategy (key : string) (table : list (string * string)) : string :=
  match assoc key table with
  | Some text => text
  | None => "undefined"
  end.

(** [const cacheName] (app.js 765) *)
Definition cacheNameOf (config : Config.t) : string :=
  Config.folderName config ++ "-v1".

(** [const urlsToCache] when the template reads it (app.js 768-782) *)
Definition urlsToCacheOf (config : Config.t) (allFiles : list Info.t) : list string :=
  let urlsToCache :=
    [ Config.startUrl config;
      Config.startUrl config ++ "index.html";
      Config.startUrl config ++ "manifest.json" ] in
  let urlsToCache :=
    fold_left
      (fun (urls : list string) file =>
         (urls ++ [ (Config.startUrl config ++ Info.path file)%string ])%list)
      allFiles urlsToCache in
  if Config.enableOffline config
  then urlsToCache ++ [Config.startUrl config ++ "offline.html"]
  else urlsToCache.

(** The template literal generateServiceWorker returns (app.js 790-867),
    one entry for each of its 78 lines; an interpolated value may itself
    span several lines of the text. *)
Definition serviceWorkerTemplate (config : Config.t) (allFiles : list Info.t) : list string :=
  let cacheName := cacheNameOf config in
  let urlsToCache := urlsToCacheOf config allFiles in
  let cacheStrategies := cacheStrategies config in
  [ "/**";
    " * Service Worker for " ++ Config.name config;
    " * Generated by PWA Converter v2.0.1";
    " * Cache Strategy: " ++ Config.cacheStrategy config;
    " * Folder: " ++ Config.folderName config;
    " * Total Files Cached: " ++ showNat (length urlsToCache);
    " */";
    "";
    "const CACHE_NAME = '" ++ cacheName ++ "';";
    "const OFFLINE_URL = '" ++ (if Config.enableOffline config then Config.startUrl config ++ "offline.html" else EmptyString) ++ "';";
    "";
    "const urlsToCache = " ++ stringify EmptyString (JArray (map JString urlsToCache)) ++ ";";
    "";
    "// Install event - cache ALL resources";
    "self.addEventListener('install', event => {";
    "    console.log('[Service Worker] Installing for " ++ Config.name config ++ "...');";
    "    console.log('[Service Worker] Caching " ++ showNat (length urlsToCache) ++ " files...');";
    "    event.waitUntil(";
    "        caches.open(CACHE_NAME)";
    "            .then(cache => {";
    "                console.log('[Service Worker] Caching app shell and all files');";
    "                return cache.addAll(urlsToCache);";
    "            })";
    "            .then(() => {";
    "                console.log('[Service Worker] All files cached successfully');";
    "                return self.skipWaiting();";
    "            })";
    "            .catch(error => {";
    "                console.error('[Service Worker] Cache failed:', error);";
    "            })";
    "    );";
    "});";
    "";
    "// Activate event - clean up old caches";
    "self.addEventListener('activate', event => {";
    "    console.log('[Service Worker] Activating...');";
    "    event.waitUntil(";
    "        caches.keys().then(cacheNames => {";
    "            return Promise.all(";
    "                cacheNames";
    "                    .filter(name => name !== CACHE_NAME)";
    "                    .map(name => {";
    "                        console.log('[Service Worker] Deleting old cache:', name);";
    "                        return caches.delete(name);";
    "                    })";
    "            );";
    "        }).then(() => self.clients.claim())";
    "    );";
    "});";
    "";
    "// Fetch event - serve from cache or network";
    "self.addEventListener('fetch', event => {";
    "    " ++ lookupStrategy (Config.cacheStrategy config) cacheStrategies;
    "});";
    "";
    (if Config.enableNotifications config then generateNotificationHandlers config else EmptyString);
    "";
    "// Background sync (if supported)";
    "self.addEventListener('sync', event => {";
    "    if (event.tag === 'sync-data') {";
    "        event.waitUntil(syncData());";
    "    }";
    "});";
    "";
    "async function syncData() {";
    "    console.log('[Service Worker] Background sync triggered');";
    "    // Implement your sync logic here";
    "}";
    "";
    "// Helper function to check if request is navigational";
    "function isNavigationRequest(request) {";
    "    return request.mode === 'navigate' || ";
    "           (request.method === 'GET' && request.headers.get('accept').includes('text/html'));";
    "}";
    "";
    "console.log('[Service Worker] Loaded successfully for " ++ Config.name config ++ "');";
    "console.log('[Service Worker] Scope: " ++ Config.scope config ++ "');";
    "console.log('[Service Worker] Caching " ++ showNat (length urlsToCache) ++ " files including all your assets');" ].

(** generateServiceWorker (app.js 764-868) *)
Definition generateServiceWorker (config : Config.t) (allFiles : list Info.t) : string :=
  unlines (serviceWorkerTemplate config allFiles).

(** The three generators under the keys of [cacheStrategies]. *)
Definition strategyGenerators : list (string * (Config.t -> string)) :=
  [ ("cache-first", generateCacheFirstStrategy);
    ("network-first", generateNetworkFirstStrategy);
    ("stale-while-revalidate", generateStaleWhileRevalidateStrategy) ].

(** Line 52 of the template (app.js 841): the one place where the
    template registers a fetch listener. *)
Definition fetchListenerLine : string := "self.addEventListener('fetch', event => {".

(** ** injectPWACode (app.js 1018-1143) *)

(** The first [n] characters of a string, and the rest. *)
Fixpoint take (n : nat) (s : string) : string :=
  match n, s with
  | S n', String c r => String c (take n' r)
  | _, _ => EmptyString
  end.

Fixpoint drop (n : nat) (s : string) : string :=
  match n, s with
  | S n', String _ r => drop n' r
  | _, _ => s
  end.

(** The first match of [/pat/i] in [s], for a pattern [pat] that is a plain
    lower-case text: the text before the match, the match, the text after
    it. *)
Fixpoint searchCI (pat s : string) : option (string * string * string) :=
  if startsWith pat (toLowerCase s)
  then Some (EmptyString, take (String.length pat) s, drop (String.length pat) s)
  else match s with
       | EmptyString => None
       | String c r =>
           match searchCI pat r with
           | Some (before, matched, after) => Some (String c before, matched, after)
           | None => None
           end
       end.

(** GetSubstitution for a pattern with no capture group: in the replacement
    text [$$] stands for a dollar sign, [$&] for the match, [$`] for the
    text before it and [$'] for the text after it; any other [$] stands
    for itself. *)
Fixpoint getSubstitution (matched before after replacement : string) : string :=
  match replacement with
  | EmptyString => EmptyString
  | String c r =>
      if Ascii.eqb c "$" then
        match r with
        | EmptyString => String c EmptyString
        | String d r' =>
            if Ascii.eqb d "$" then String d (getSubstitution matched before after r')
            else if Ascii.eqb d "&" then matched ++ getSubstitution matched before after r'
            else if Ascii.eqb d "`" then before ++ getSubstitution matched before after r'
            else if Ascii.eqb d "'" then after ++ getSubstitution matched before after r'
            else String c (getSubstitution matched before after r)
        end
      else String c (getSubstitution matched before after r)
  end.

(** [s.replace(/pat/i, replacement)]: the first match only. *)
Definition replace (pat replacement s : string) : string :=
  match searchCI pat s with
  | None => s
  | Some (before, matched, after) =>
      before ++ getSubstitution matched before after replacement ++ after
  end.

(** The texts injectPWACode inserts. *)
Definition viewportTag : string :=
  "<meta name=" ++ dquote ++ "viewport" ++ dquote ++ " content=" ++ dquote
    ++ "width=device-width, initial-scale=1.0" ++ dquote ++ ">".

Definition themeColorTag (config : Config.t) : string :=
  "<meta name=" ++ dquote ++ "theme-color" ++ dquote ++ " content=" ++ dquote
    ++ Config.themeColor config ++ dquote ++ ">".

Definition manifestLink : string :=
  "<link rel=" ++ dquote ++ "manifest" ++ dquote ++ " href=" ++ dquote
    ++ "manifest.json" ++ dquote ++ ">".

Definition appleMeta (config : Config.t) : string :=
  unlines
    [ "    <meta name=" ++ dquote ++ "apple-mobile-web-app-capable" ++ dquote ++ " content=" ++ dquote ++ "yes" ++ dquote ++ ">";
      "    <meta name=" ++ dquote ++ "apple-mobile-web-app-status-bar-style" ++ dquote ++ " content=" ++ dquote ++ "default" ++ dquote ++ ">";
      "    <meta name=" ++ dquote ++ "apple-mobile-web-app-title" ++ dquote ++ " content=" ++ dquote ++ Config.shortName config ++ dquote ++ ">";
      "    <link rel=" ++ dquote ++ "apple-touch-icon" ++ dquote ++ " href=" ++ dquote ++ "icons/icon-192x192.png" ++ dquote ++ ">" ].

(** The template literal [swRegistration] (app.js 1052-1138), line by line. *)
Definition swRegistrationTemplate (config : Config.t) (allFiles : list Info.t) : list string :=
  [ "";
    "    <script>";
    "        // PWA Service Worker Registration";
    "        // Generated by PWA Converter v2.0.1";
    "        if ('serviceWorker' in navigator) {";
    "            window.addEventListener('load', () => {";
    "                // Use RELATIVE path for service worker (works with multi-app setup)";
    "                navigator.serviceWorker.register('sw.js')";
    "                    .then(registration => {";
    "                        console.log('✓ Service Worker registered:', registration.scope);";
    "                        console.log('✓ Service Worker URL:', registration.active ? registration.active.scriptURL : 'installing...');";
    "                        console.log('✓ App: " ++ Config.name config ++ "');";
    "                        console.log('✓ Folder: " ++ Config.folderName config ++ "');";
    "                        console.log('✓ Total files cached: " ++ showNat (length allFiles + 3) ++ "'); // +3 for manifest, sw, offline";
    "                        ";
    "                        // Check for updates periodically";
    "                        setInterval(() => {";
    "                            registration.update();";
    "                        }, 60000); // Check every minute";
    "                    })";
    "                    .catch(error => {";
    "                        console.error('✗ Service Worker registration failed:', error);";
    "                    });";
    "            });";
    "        } else {";
    "            console.warn('⚠ Service Workers not supported in this browser');";
    "        }";
    "";
    "        // PWA Install Prompt";
    "        let deferredPrompt;";
    "        window.addEventListener('beforeinstallprompt', (e) => {";
    "            e.preventDefault();";
    "            deferredPrompt = e;";
    "            console.log('💡 PWA install prompt available');";
    "            // Show custom install UI";
    "            showInstallPromotion();";
    "        });";
    "";
    "        function showInstallPromotion() {";
    "            // You can implement custom install UI here";
    "            console.log('📱 App can be installed - Click browser menu or use custom UI');";
    "        }";
    "";
    "        // Install PWA function (call from your custom install button)";
    "        async function installPWA() {";
    "            if (!deferredPrompt) {";
    "                console.log('❌ Install prompt not available');";
    "                return;";
    "            }";
    "            deferredPrompt.prompt();";
    "            const { outcome } = await deferredPrompt.userChoice;";
    "            console.log(`User response to install prompt: ${outcome}`);";
    "            deferredPrompt = null;";
    "        }";
    "";
    "        // Track installation";
    "        window.addEventListener('appinstalled', () => {";
    "            console.log('✅ PWA installed successfully!');";
    "            console.log('✅ App: " ++ Config.name config ++ "');";
    "            console.log('✅ App ID: " ++ Config.appId config ++ "');";
    "            console.log('✅ Folder: " ++ Config.folderName config ++ "');";
    "            deferredPrompt = null;";
    "        });";
    "";
    "        // Display mode detection";
    "        function getPWADisplayMode() {";
    "            const isStandalone = window.matchMedia('(display-mode: standalone)').matches;";
    "            if (document.referrer.startsWith('android-app://')) {";
    "                return 'twa';";
    "            } else if (navigator.standalone || isStandalone) {";
    "                return 'standalone';";
    "            }";
    "            return 'browser';";
    "        }";
    "";
    "        const displayMode = getPWADisplayMode();";
    "        console.log('🖥️ Display mode:', displayMode);";
    "        ";
    "        // Log PWA configuration";
    "        console.log('⚙️ PWA Configuration:');";
    "        console.log('  - App Name: " ++ Config.name config ++ "');";
    "        console.log('  - App ID: " ++ Config.appId config ++ "');";
    "        console.log('  - Start URL: " ++ Config.startUrl config ++ "');";
    "        console.log('  - Scope: " ++ Config.scope config ++ "');";
    "        console.log('  - Folder: " ++ Config.folderName config ++ "');";
    "        console.log('  - Files included: " ++ showNat (length allFiles) ++ "');";
    "    </script>" ].

Definition swRegistration (config : Config.t) (allFiles : list Info.t) : string :=
  unlines (swRegistrationTemplate config allFiles).

(** The five steps of injectPWACode, in order. *)
Definition ensureViewport (html : string) : string :=
  if negb (includes "viewport" (toLowerCase html))
  then replace "<head>" ("<head>" ++ newline ++ "    " ++ viewportTag) html
  else html.

Definition addThemeColor (config : Config.t) (html : string) : string :=
  if negb (includes "theme-color" (toLowerCase html))
  then replace "</head>" ("    " ++ themeColorTag config ++ newline ++ "</head>") html
  else html.

Definition addManifestLink (html : string) : string :=
  if negb (includes "manifest" (toLowerCase html))
  then replace "</head>" ("    " ++ manifestLink ++ newline ++ "</head>") html
  else html.

Definition addAppleMeta (config : Config.t) (html : string) : string :=
  if negb (includes "apple-mobile-web-app" (toLowerCase html))
  then replace "</head>" (appleMeta config ++ newline ++ "</head>") html
  else html.

Definition addRegistration (config : Config.t) (allFiles : list Info.t) (html : string) : string :=
  replace "</body>" (swRegistration config allFiles ++ newline ++ "</body>") html.

(** injectPWACode, on the content of [this.files.index]. *)
Definition injectPWACode (config : Config.t) (allFiles : list Info.t) (html : string) : string :=
  let html := ensureViewport html in
  let html := addThemeColor config html in
  let html := addManifestLink html in
  let html := addAppleMeta config html in
  addRegistration config allFiles html.

(** ** Predicates on texts, for reasoning about [replace] *)

(** [clash p t]: [p] and [t] differ at a position both have. *)
Fixpoint clash (p t : string) : bool :=
  match p, t with
  | String a p', String c t' => if Ascii.eqb a c then clash p' t' else true
  | _, _ => false
  end.

(** No match of [/p/i] can start inside [u], whatever text follows [u]:
    at every position of [u] the pattern and the lower-cased text differ
    before [u] ends. *)
Fixpoint startFreeb (p u : string) : bool :=
  match u with
  | EmptyString => true
  | String _ r => clash p (toLowerCase u) && startFreeb p r
  end.

(** An occurrence of [n] cannot share a character with a match of [pat]. *)
Fixpoint clashSuffixes (p t : string) : bool :=
  match t with
  | EmptyString => true
  | String _ r => clash p t && clashSuffixes p r
  end.

Fixpoint suffixesClash (t p : string) : bool :=
  match t with
  | EmptyString => true
  | String _ r => clash t p && suffixesClash r p
  end.

Definition noOverlap (n pat : string) : bool :=
  clashSuffixes n pat && suffixesClash n pat.

(** getSubstitution copies [u] as it stands, whatever text follows [u]:
    every dollar sign of [u] is followed, inside [u], by a character other
    than the four that make a replacement pattern. *)
Fixpoint substSafeb (u : string) : bool :=
  match u with
  | EmptyString => true
  | String c r =>
      if Ascii.eqb c "$" then
        match r with
        | EmptyString => false
        | String d _ =>
            negb (Ascii.eqb d "$" || Ascii.eqb d "&" || Ascii.eqb d "`" || Ascii.eqb d "'")
            && substSafeb r
        end
      else substSafeb r
  end.

(** No match of [/p/i] starts inside [u] when the text goes on with [y];
    and the same whatever the text goes on with. *)
Definition matchFree (p u y : string) : Prop :=
  forall u1 u2, u = u1 ++ u2 -> u2 <> EmptyString ->
                startsWith p (toLowerCase (u2 ++ y)) = false.

Definition startFree (p u : string) : Prop := forall y, matchFree p u y.

(** getSubstitution copies [u], whatever copied text follows it. *)
Definition substSafe (u : string) : Prop :=
  forall m b a y,
    getSubstitution m b a y = y -> getSubstitution m b a (u ++ y) = u ++ y.

(** The shape of the four guarded steps of injectPWACode. *)
Definition guarded (needle pat replacement html : string) : string :=
  if negb (includes needle (toLowerCase html))
  then replace pat replacement html
  else html.

(** A guarded step has nothing to do on [html]: the guard text is there,
    or the tag it would replace is not. *)
Definition settled (needle pat html : string) : Prop :=
  includes needle (toLowerCase html) = true \/ includes pat (toLowerCase html) = false.

(** [text] starts with a character that does not occur in [pat]. *)
Definition firstCharNotIn (pat text : string) : bool :=
  match text with
  | EmptyString => false
  | String c _ => string_forallb (fun x => negb (Ascii.eqb x (lowerChar c))) pat
  end.

(** A form value with no dollar sign and no opening angle bracket. *)
Definition plain (v : string) : bool :=
  string_forallb (fun c => negb (Ascii.eqb c "$") && negb (Ascii.eqb c "<")) v.

(** The values injectPWACode interpolates are plain. *)
Definition plainConfig (config : Config.t) : bool :=
  plain (Config.name config) && plain (Config.shortName config)
  && plain (Config.appId config) && plain (Config.folderName config)
  && plain (Config.themeColor config) && plain (Config.startUrl config)
  && plain (Config.scope config).

(** ** Counting the matches of a pattern *)

(** The number of places of [s] where [/p/i] matches, for a pattern [p]
    that is a plain lower-case text (matches may overlap). *)
Fixpoint occurrences (p s : string) : nat :=
  match s with
  | EmptyString => 0
  | String _ r => (if startsWith p (toLowerCase s) then 1 else 0) + occurrences p r
  end.

(** No proper end of the pattern [String _ p'] is a start of [y]: a match
    cannot begin before [y] and end inside it. *)
Definition noStraddle (p' y : string) : Prop :=
  forall p1 p2, p' = p1 ++ p2 -> p2 <> EmptyString ->
                startsWith p2 (toLowerCase y) = false.

(** The conditions under which replacing the first match of [/pat/i] by
    [X] leaves the number of matches of [String p0 p'] as it is. *)
Definition keepsCount (p0 : ascii) (p' pat X : string) : Prop :=
  substSafe X /\ startFree (String p0 p') X /\
  suffixesClash p' (toLowerCase X) = true /\
  startFreeb (String p0 p') pat = true /\ suffixesClash p' pat = true.

Definition CR : ascii := ascii_of_nat 13.

(** A text without a single quote; and a form value that stays inside the
    single-quoted string or the block comment the template puts it in: no
    single quote, no backslash, no asterisk, no line break. *)
Definition noQuote (v : string) : bool :=
  string_forallb (fun c => negb (Ascii.eqb c "'")) v.

Definition quiet (v : string) : bool :=
  string_forallb
    (fun c => negb (Ascii.eqb c "'") && negb (Ascii.eqb c "\") && negb (Ascii.eqb c "*")
              && negb (Ascii.eqb c LF) && negb (Ascii.eqb c CR)) v.

(** The places of a lower-cased text where [p] starts; [occurrences p s] is
    this number for the lower-cased [s]. *)
Fixpoint countMatches (p t : string) : nat :=
  match t with
  | EmptyString => 0
  | String _ r => (if startsWith p t then 1 else 0) + countMatches p r
  end.

(** [u] is a start of [q] and stops before [q] ends. *)
Fixpoint properPrefix (u q : string) : bool :=
  match u, q with
  | EmptyString, String _ _ => true
  | String a u', String b q' => Ascii.eqb a b && properPrefix u' q'
  | _, _ => false
  end.

(** No end of [l] is a start of [q] that holds a quote and stops before
    [q] ends. *)
Fixpoint endsQuoteFree (q l : string) : bool :=
  match l with
  | EmptyString => true
  | String _ r => (if properPrefix l q then noQuote l else true) && endsQuoteFree q r
  end.

(** Every end of the pattern that is a start of [l] comes after a quote of
    the pattern; [seen] tells whether the part of the pattern before [p]
    holds one. *)
Fixpoint tailsNeedQuote (seen : bool) (p l : string) : bool :=
  match p with
  | EmptyString => true
  | String a p' =>
      (if startsWith p l then seen else true)
      && tailsNeedQuote (seen || Ascii.eqb a "'") p' l
  end.

Definition startsAfterQuote (q l : string) : bool :=
  match q with
  | EmptyString => true
  | String a q' => tailsNeedQuote (Ascii.eqb a "'") q' l
  end.

(** The start of the statement that registers a listener for [event], in
    lower case ([occurrences] compares without regard to case). *)
Definition listenerStart (event : string) : string :=
  toLowerCase ("addEventListener('" ++ event ++ "'").

(** The start of each tag injectPWACode inserts in the head, and of a
    script element. *)
Definition viewportTagStart : string := "<meta name=" ++ dquote ++ "viewport" ++ dquote.
Definition themeColorTagStart : string := "<meta name=" ++ dquote ++ "theme-color" ++ dquote.
Definition manifestLinkStart : string := "<link rel=" ++ dquote ++ "manifest" ++ dquote.
Definition appleMetaStart : string := "<meta name=" ++ dquote ++ "apple-mobile-web-app-".
Definition scriptTagStart : string := "<script".

Definition afterFirst (s : string) : string :=
  match s with
  | EmptyString => EmptyString
  | String _ r => r
  end.

(** ** Reading a generated text line by line *)

(** A string with no line feed: one line of text. *)
Definition singleLine (s : string) : bool :=
  string_forallb (fun c => negb (Ascii.eqb c LF)) s.

(** How many entries of [ls] are exactly [l], and how many lines of [text]. *)
Definition countIn (l : string) (ls : list string) : nat :=
  length (filter (String.eqb l) ls).

Definition countLines (l text : string) : nat := countIn l (lines text).

(** Line 7 of each strategy's template: a statement no other strategy and
    no other part of the service worker has. *)
Definition strategyMarkers : list (string * string) :=
  [ ("cache-first", "        caches.match(event.request)");
    ("network-first", "        fetch(event.request)");
    ("stale-while-revalidate",
     "        caches.match(event.request).then(cachedResponse => {") ].

(** The lines JSON.stringify(urls, null, 2) prints between the brackets. *)
Fixpoint jsonItemLines (urls : list string) : list string :=
  match urls with
  | [] => []
  | [u] => ["  " ++ jsonQuote u]
  | u :: rest => ("  " ++ jsonQuote u ++ ",") :: jsonItemLines rest
  end.


(** The lines of the manifest, for comparison with what generateManifest
    returns: a member of an object on one line, the five lines of an entry
    of [icons] up to its closing brace, the lines before [icons] and the
    lines from [icons] on. *)
Definition memberLine (indent key value : string) : string :=
  indent ++ jsonQuote key ++ ": " ++ jsonQuote value.

Definition iconBlock (size : nat) (purpose : string) : list string :=
  [ "    {";
    memberLine "      " "src"
      ("icons/icon-" ++ showNat size ++ "x" ++ showNat size ++ ".png") ++ ",";
    memberLine "      " "sizes" (showNat size ++ "x" ++ showNat size) ++ ",";
    memberLine "      " "type" "image/png" ++ ",";
    memberLine "      " "purpose" purpose ].

Definition manifestHead (config : Config.t) : list string :=
  [ "{";
    memberLine "  " "id" (Config.appId config) ++ ",";
    memberLine "  " "name" (Config.name config) ++ ",";
    memberLine "  " "short_name" (Config.shortName config) ++ ",";
    memberLine "  " "description" (Config.description config) ++ ",";
    memberLine "  " "start_url" (Config.startUrl config) ++ ",";
    memberLine "  " "scope" (Config.scope config) ++ ",";
    memberLine "  " "display" (Config.display config) ++ ",";
    memberLine "  " "orientation" (Config.orientation config) ++ ",";
    memberLine "  " "theme_color" (Config.themeColor config) ++ ",";
    memberLine "  " "background_color" (Config.backgroundColor config) ++ "," ].

Definition manifestTail : list string :=
  ["  " ++ jsonQuote "icons" ++ ": ["]
  ++ iconBlock 72 "any" ++ ["    },"]
  ++ iconBlock 96 "any" ++ ["    },"]
  ++ iconBlock 128 "any" ++ ["    },"]
  ++ iconBlock 144 "any" ++ ["    },"]
  ++ iconBlock 152 "any" ++ ["    },"]
  ++ iconBlock 192 "any maskable" ++ ["    },"]
  ++ iconBlock 384 "any maskable" ++ ["    },"]
  ++ iconBlock 512 "any maskable" ++ ["    }"]
  ++ [ "  ],";
       "  " ++ jsonQuote "categories" ++ ": [";
       "    " ++ jsonQuote "utilities" ++ ",";
       "    " ++ jsonQuote "productivity";
       "  ]";
       "}" ].

(** ** The form fields derived from the folder name (app.js 440-481) *)

(** The inputs [folder-name], [app-id], [start-url] and [scope] of the
    configuration form, with the [dataset.userModified] marks that focusing
    [start-url] and [scope] sets. *)
Module Form.
Record t := mk {
  folderName : string;
  appId : string;
  startUrl : string;
  scope : string;
  startUrlModified : bool;
  scopeModified : bool
}.

Definition setFolderName (form : t) (v : string) : t :=
  mk v (appId form) (startUrl form) (scope form)
     (startUrlModified form) (scopeModified form).
Definition setAppId (form : t) (v : string) : t :=
  mk (folderName form) v (startUrl form) (scope form)
     (startUrlModified form) (scopeModified form).
Definition setStartUrl (form : t) (v : string) : t :=
  mk (folderName form) (appId form) v (scope form)
     (startUrlModified form) (scopeModified form).
Definition setScope (form : t) (v : string) : t :=
  mk (folderName form) (appId form) (startUrl form) v
     (startUrlModified form) (scopeModified form).
End Form.

(** updateUrlFields (app.js 467-481) *)
Definition updateUrlFields (folderName : string) (form : Form.t) : Form.t :=
  match folderName with
  | EmptyString => form
  | _ =>
      let form :=
        if negb (Form.startUrlModified form)
        then Form.setStartUrl form ("/" ++ folderName ++ "/")
        else form in
      if negb (Form.scopeModified form)
      then Form.setScope form ("/" ++ folderName ++ "/")
      else form
  end.

(** autoFillConfiguration (app.js 440-462), on these four fields;
    [extractMetadata] writes the name, short name, description and theme
    colour only. *)
Definition autoFillConfiguration (sanitizedName : string) (form : Form.t) : Form.t :=
  let form := Form.setFolderName form sanitizedName in
  let form := Form.setAppId form (sanitizedName ++ "-id") in
  updateUrlFields sanitizedName form.

(** ** downloadAll (app.js 1569-1636) *)

(** [this.generatedFiles]: the constructor and [reset] leave it empty, and
    generatePWA sets its properties; [None] is a property that is not set.
    [icons] maps a file name to the bytes of a PNG blob, in the order of
    [Object.entries]. *)
Module Generated.
Record t := mk {
  manifest : option string;
  serviceWorker : option string;
  html : option string;
  js : option string;
  offline : option string;
  icons : option (list (string * string))
}.
End Generated.

(** What downloadAll hands to [zip.file] as data. *)
Inductive Data : Type :=
| Text (s : string)
| UserBlob (f : File.t)
| IconBlob (bytes : string)
| Undefined.

Definition dataOf (property : option string) : Data :=
  match property with
  | Some s => Text s
  | None => Undefined
  end.

(** JavaScript's truth test on a property that holds a string when set. *)
Definition truthy (property : option string) : bool :=
  match property with
  | Some EmptyString => false
  | Some _ => true
  | None => false
  end.

(** The files of a JSZip instance, by name.  [zip.file(name, data)] adds the
    file or, when the name is taken, replaces its data.  The entries JSZip
    keeps for the folders of a name hold no data and are left out. *)
Definition Archive : Type := list (string * Data).

Fixpoint zipFile (name : string) (data : Data) (zip : Archive) : Archive :=
  match zip with
  | [] => [(name, data)]
  | (n, d) :: rest =>
      if String.eqb n name then (n, data) :: rest else (n, d) :: zipFile name data rest
  end.

Definition zipGet (name : string) (zip : Archive) : option Data := assoc name zip.

(** The body of the loop over [this.files.allFiles]. *)
Definition addUserFile (st : Files.t) (gen : Generated.t) (zip : Archive) (file : Info.t)
  : Archive :=
  if String.eqb (Info.path file) "index.html"
  then zipFile "index.html" (dataOf (Generated.html gen)) zip
  else if match Files.js st with
          | Some js => String.eqb (Info.path file) (Ref.path js)
          | None => false
          end
  then zipFile (Info.path file) (dataOf (Generated.js gen)) zip
  else zipFile (Info.path file) (UserBlob (Info.blob file)) zip.

(** The loop over the entries of [this.generatedFiles.icons], on the folder
    [zip.folder('icons')]. *)
Definition addIcon (zip : Archive) (entry : string * string) : Archive :=
  zipFile ("icons/" ++ fst entry) (IconBlob (snd entry)) zip.

(** downloadAll, up to the call of [generateAsync]: the files of the archive
    and the name it is downloaded under.  [readme] is the text
    [generateReadme] returns (it prints the current date). *)
Definition downloadAll (config : Config.t) (st : Files.t) (gen : Generated.t)
    (readme : string) : Archive * string :=
  let zip := fold_left (addUserFile st gen) (Files.allFiles st) [] in
  let zip := zipFile "manifest.json" (dataOf (Generated.manifest gen)) zip in
  let zip := zipFile "sw.js" (dataOf (Generated.serviceWorker gen)) zip in
  let zip := if truthy (Generated.offline gen)
             then zipFile "offline.html" (dataOf (Generated.offline gen)) zip
             else zip in
  let zip := match Generated.icons gen with
             | Some icons => fold_left addIcon icons zip
             | None => zip
             end in
  let zip := zipFile "README.md" (Text readme) zip in
  (zip, Config.folderName config ++ "-pwa.zip").

(** What the loop writes for an uploaded file. *)
Definition userData (st : Files.t) (gen : Generated.t) (file : Info.t) : Data :=
  if String.eqb (Info.path file) "index.html" then dataOf (Generated.html gen)
  else if match Files.js st with
          | Some js => String.eqb (Info.path file) (Ref.path js)
          | None => false
          end
  then dataOf (Generated.js gen)
  else UserBlob (Info.blob file).

(** The names downloadAll writes after the uploaded files. *)
Definition iconEntries (gen : Generated.t) : list (string * string) :=
  match Generated.icons gen with
  | Some icons => icons
  | None => []
  end.

Definition generatedPaths (gen : Generated.t) : list string :=
  ["manifest.json"; "sw.js"]
    ++ (if truthy (Generated.offline gen) then ["offline.html"] else [])
    ++ map (fun entry : string * string => ("icons/" ++ fst entry)%string) (iconEntries gen)
    ++ ["README.md"].

(** The files of the archive downloadAll assembles. *)
Definition archiveOf (config : Config.t) (st : Files.t) (gen : Generated.t)
    (readme : string) : Archive :=
  fst (downloadAll config st gen readme).

(** ** Predicates used in the statements about names and paths *)

(** A lowercase ASCII letter or a digit. *)
Definition isAlnum (c : ascii) : bool := isLowerAZ c || isDigit c.

(** A byte of the ASCII range (code below 128). *)
Definition isAscii (c : ascii) : bool := Nat.ltb (nat_of_ascii c) 128.

(** ** enhanceJavaScript (app.js 1148-1295) *)

(** The template literal [pwaHelpers], line by line. *)
Definition pwaHelpersTemplate (config : Config.t) (allFiles : list Info.t) : list string :=
  [ "";
    "// ============================================================================";
    "// PWA Helper Functions (Auto-generated by PWA Converter v2.0.1)";
    "// App: " ++ Config.name config;
    "// Folder: " ++ Config.folderName config;
    "// Files: " ++ showNat (length allFiles);
    "// ============================================================================";
    "";
    "/**";
    " * Check if app is running as PWA";
    " */";
    "function isPWA() {";
    "    return window.matchMedia('(display-mode: standalone)').matches ||";
    "           window.navigator.standalone === true;";
    "}";
    "";
    "/**";
    " * Request persistent storage";
    " */";
    "async function requestPersistentStorage() {";
    "    if (navigator.storage && navigator.storage.persist) {";
    "        const isPersisted = await navigator.storage.persist();";
    "        console.log(`Persistent storage granted: ${isPersisted}`);";
    "        return isPersisted;";
    "    }";
    "    return false;";
    "}";
    "";
    "/**";
    " * Check storage quota";
    " */";
    "async function checkStorageQuota() {";
    "    if (navigator.storage && navigator.storage.estimate) {";
    "        const estimate = await navigator.storage.estimate();";
    "        const percentUsed = (estimate.usage / estimate.quota * 100).toFixed(2);";
    "        console.log(`Storage used: ${percentUsed}% (${estimate.usage} / ${estimate.quota} bytes)`);";
    "        return estimate;";
    "    }";
    "    return null;";
    "}";
    "";
    "/**";
    " * Update online status";
    " */";
    "function updateOnlineStatus() {";
    "    const isOnline = navigator.onLine;";
    "    const statusClass = isOnline ? 'online' : 'offline';";
    "    document.body.classList.remove('online', 'offline');";
    "    document.body.classList.add(statusClass);";
    "    console.log(`App is ${statusClass}`);";
    "    ";
    "    // Dispatch custom event";
    "    window.dispatchEvent(new CustomEvent('connectionchange', { ";
    "        detail: { online: isOnline } ";
    "    }));";
    "}";
    "";
    "// Listen for online/offline events";
    "window.addEventListener('online', updateOnlineStatus);";
    "window.addEventListener('offline', updateOnlineStatus);";
    "";
    "/**";
    " * Share content using Web Share API";
    " */";
    "async function shareContent(title, text, url) {";
    "    if (navigator.share) {";
    "        try {";
    "            await navigator.share({ title, text, url });";
    "            console.log('Content shared successfully');";
    "            return true;";
    "        } catch (error) {";
    "            console.error('Error sharing:', error);";
    "            return false;";
    "        }";
    "    } else {";
    "        console.log('Web Share API not supported');";
    "        return false;";
    "    }";
    "}";
    "";
    "/**";
    " * Request notification permission";
    " */";
    "async function requestNotificationPermission() {";
    "    if (!('Notification' in window)) {";
    "        console.log('Notifications not supported');";
    "        return false;";
    "    }";
    "";
    "    const permission = await Notification.requestPermission();";
    "    console.log(`Notification permission: ${permission}`);";
    "    return permission === 'granted';";
    "}";
    "";
    "/**";
    " * Show local notification";
    " */";
    "function showNotification(title, options = {}) {";
    "    if ('Notification' in window && Notification.permission === 'granted') {";
    "        const notification = new Notification(title, {";
    "            icon: '" ++ Config.startUrl config ++ "icons/icon-192x192.png',";
    "            badge: '" ++ Config.startUrl config ++ "icons/icon-72x72.png',";
    "            ...options";
    "        });";
    "        return notification;";
    "    }";
    "    return null;";
    "}";
    "";
    "/**";
    " * Register background sync";
    " */";
    "async function registerBackgroundSync(tag) {";
    "    if ('serviceWorker' in navigator && 'sync' in ServiceWorkerRegistration.prototype) {";
    "        try {";
    "            const registration = await navigator.serviceWorker.ready;";
    "            await registration.sync.register(tag);";
    "            console.log(`Background sync registered: ${tag}`);";
    "            return true;";
    "        } catch (error) {";
    "            console.error('Background sync registration failed:', error);";
    "            return false;";
    "        }";
    "    }";
    "    return false;";
    "}";
    "";
    "// Initialize PWA features on load";
    "document.addEventListener('DOMContentLoaded', () => {";
    "    updateOnlineStatus();";
    "    requestPersistentStorage();";
    "    checkStorageQuota();";
    "    ";
    "    console.log('🚀 PWA features initialized for " ++ Config.name config ++ "');";
    "    console.log('📱 Running as PWA:', isPWA());";
    "    console.log('📂 App folder: " ++ Config.folderName config ++ "');";
    "    console.log('📦 Total files: " ++ showNat (length allFiles) ++ "');";
    "});";
    "";
    "// ============================================================================";
    "// Original Application Code";
    "// ============================================================================";
    "";
    "" ].

Definition pwaHelpers (config : Config.t) (allFiles : list Info.t) : string :=
  unlines (pwaHelpersTemplate config allFiles).

Definition enhanceJavaScript (config : Config.t) (st : Files.t) : string :=
  pwaHelpers config (Files.allFiles st)
    ++ match Files.js st with
       | Some js => Ref.content js
       | None => EmptyString
       end.

(** ** generateOfflinePage (app.js 1300-1435) *)

Definition offlinePageTemplate (config : Config.t) : list string :=
  [ "<!DOCTYPE html>";
    "<html lang=" ++ dquote ++ "en" ++ dquote ++ ">";
    "<head>";
    "    <meta charset=" ++ dquote ++ "UTF-8" ++ dquote ++ ">";
    "    <meta name=" ++ dquote ++ "viewport" ++ dquote ++ " content=" ++ dquote ++ "width=device-width, initial-scale=1.0" ++ dquote ++ ">";
    "    <title>Offline - " ++ Config.name config ++ "</title>";
    "    <style>";
    "        * {";
    "            margin: 0;";
    "            padding: 0;";
    "            box-sizing: border-box;";
    "        }";
    "";
    "        body {";
    "            font-family: -apple-system, BlinkMacSystemFont, 'Segoe UI', Roboto, Oxygen, Ubuntu, Cantarell, sans-serif;";
    "            background: linear-gradient(135deg, " ++ Config.backgroundColor config ++ " 0%, " ++ Config.themeColor config ++ " 100%);";
    "            color: #333;";
    "            min-height: 100vh;";
    "            display: flex;";
    "            align-items: center;";
    "            justify-content: center;";
    "            padding: 2rem;";
    "        }";
    "";
    "        .offline-container {";
    "            text-align: center;";
    "            max-width: 500px;";
    "            background: white;";
    "            padding: 3rem 2rem;";
    "            border-radius: 16px;";
    "            box-shadow: 0 8px 32px rgba(0,0,0,0.1);";
    "        }";
    "";
    "        .offline-icon {";
    "            font-size: 5rem;";
    "            margin-bottom: 1.5rem;";
    "            animation: pulse 2s infinite;";
    "        }";
    "";
    "        @keyframes pulse {";
    "            0%, 100% { transform: scale(1); opacity: 1; }";
    "            50% { transform: scale(1.1); opacity: 0.8; }";
    "        }";
    "";
    "        h1 {";
    "            font-size: 2rem;";
    "            margin-bottom: 1rem;";
    "            color: #212121;";
    "        }";
    "";
    "        p {";
    "            color: #757575;";
    "            margin-bottom: 2rem;";
    "            line-height: 1.6;";
    "        }";
    "";
    "        .retry-btn {";
    "            display: inline-block;";
    "            padding: 1rem 2rem;";
    "            background: " ++ Config.themeColor config ++ ";";
    "            color: white;";
    "            text-decoration: none;";
    "            border-radius: 8px;";
    "            font-weight: 600;";
    "            transition: transform 0.2s, box-shadow 0.2s;";
    "            border: none;";
    "            cursor: pointer;";
    "            font-size: 1rem;";
    "        }";
    "";
    "        .retry-btn:hover {";
    "            transform: translateY(-2px);";
    "            box-shadow: 0 4px 12px rgba(0,0,0,0.2);";
    "        }";
    "";
    "        .connection-status {";
    "            margin-top: 1.5rem;";
    "            padding: 1rem;";
    "            background: #f5f5f5;";
    "            border-radius: 8px;";
    "            font-size: 0.875rem;";
    "            color: #757575;";
    "        }";
    "";
    "        .online {";
    "            display: none;";
    "        }";
    "";
    "        body.online .offline {";
    "            display: none;";
    "        }";
    "";
    "        body.online .online {";
    "            display: block;";
    "        }";
    "    </style>";
    "</head>";
    "<body class=" ++ dquote ++ "offline" ++ dquote ++ ">";
    "    <div class=" ++ dquote ++ "offline-container" ++ dquote ++ ">";
    "        <div class=" ++ dquote ++ "offline-icon" ++ dquote ++ ">📡</div>";
    "        <div class=" ++ dquote ++ "offline" ++ dquote ++ ">";
    "            <h1>You're Offline</h1>";
    "            <p>It looks like you've lost your internet connection. Don't worry, " ++ Config.name config ++ " will work again once you're back online.</p>";
    "            <button class=" ++ dquote ++ "retry-btn" ++ dquote ++ " onclick=" ++ dquote ++ "window.location.reload()" ++ dquote ++ ">Try Again</button>";
    "        </div>";
    "        <div class=" ++ dquote ++ "online" ++ dquote ++ ">";
    "            <h1>You're Back Online!</h1>";
    "            <p>Your connection has been restored.</p>";
    "            <a href=" ++ dquote ++ Config.startUrl config ++ dquote ++ " class=" ++ dquote ++ "retry-btn" ++ dquote ++ ">Return to App</a>";
    "        </div>";
    "        <div class=" ++ dquote ++ "connection-status" ++ dquote ++ ">";
    "            Connection status: <strong id=" ++ dquote ++ "status" ++ dquote ++ ">Checking...</strong>";
    "        </div>";
    "    </div>";
    "";
    "    <script>";
    "        function updateStatus() {";
    "            const status = document.getElementById('status');";
    "            const isOnline = navigator.onLine;";
    "            ";
    "            document.body.classList.toggle('online', isOnline);";
    "            status.textContent = isOnline ? 'Connected' : 'Disconnected';";
    "            status.style.color = isOnline ? '#4CAF50' : '#f44336';";
    "        }";
    "";
    "        window.addEventListener('online', updateStatus);";
    "        window.addEventListener('offline', updateStatus);";
    "        updateStatus();";
    "        ";
    "        console.log('Offline page loaded for " ++ Config.name config ++ "');";
    "        console.log('Folder: " ++ Config.folderName config ++ "');";
    "    </script>";
    "</body>";
    "</html>" ].

Definition generateOfflinePage (config : Config.t) : string :=
  unlines (offlinePageTemplate config).

(** ** generateIcons and generateDefaultIcons (app.js 1440-1487) *)

(** The key of an icon in [this.generatedFiles.icons]. *)
Definition iconName (size : nat) : string :=
  "icon-" ++ showNat size ++ "x" ++ showNat size ++ ".png".

(** Both functions start from an empty object and store one PNG blob per
    size, in the order of the sizes; [png size] is the blob the canvas gives
    for that size (the resized upload, or the default square). *)
Definition generateIcons (png : nat -> string) : list (string * string) :=
  map (fun size => (iconName size, png size)) iconSizes.

(** ** generatePWA (app.js 650-724) *)

(** [this.generatedFiles] as the constructor and [reset] leave it. *)
Definition noGeneratedFiles : Generated.t :=
  Generated.mk None None None None None None.

(** generatePWA for the form values [config]: the new [this.generatedFiles]
    and whether the run reached its end.  Reading the content of a root
    document that is not there throws, and the catch branch keeps what was
    assigned before: the manifest and the service worker. *)
Definition generatePWA (config : Config.t) (st : Files.t) (png : nat -> string)
    (gen : Generated.t) : Generated.t * bool :=
  let manifest := generateManifest config in
  let serviceWorker := generateServiceWorker config (Files.allFiles st) in
  match Files.index st with
  | None =>
      (Generated.mk (Some manifest) (Some serviceWorker) (Generated.html gen)
                    (Generated.js gen) (Generated.offline gen) (Generated.icons gen),
       false)
  | Some index =>
      let html := injectPWACode config (Files.allFiles st) (Ref.content index) in
      let js := if isSome (Files.js st)
                then Some (enhanceJavaScript config st)
                else Generated.js gen in
      let offline := if Config.enableOffline config
                     then Some (generateOfflinePage config)
                     else Generated.offline gen in
      (Generated.mk (Some manifest) (Some serviceWorker) (Some html) js offline
                    (Some (generateIcons png)),
       true)
  end.

(** ** showDownloadSection (app.js 1532-1550) and the folder counts *)

(** [new Set()] with [add]: the distinct strings, in the order they were
    first added. *)
Definition setAdd (x : string) (set : list string) : list string :=
  if existsb (String.eqb x) set then set else (set ++ [x])%list.

(** The inner loop of both counts: for [i] from 0 below
    [parts.length - 1], add [parts.slice(0, i + k).join('/')]. *)
Definition addPrefixes (k : nat) (parts : list string) (folders : list string)
  : list string :=
  fold_left (fun (folders : list string) (i : nat) =>
               setAdd (join "/" (firstn (i + k) parts)) folders)
            (seq 0 (length parts - 1)) folders.

(** countFolders (app.js 318-328) *)
Definition countFolders (files : list File.t) : nat :=
  length
    (fold_left (fun (folders : list string) (file : File.t) =>
                  let path := orElse (File.webkitRelativePath file) (File.name file) in
                  addPrefixes 2 (split "/" path) folders)
               files []).

(** countUniqueFolders (app.js 1555-1564) *)
Definition countUniqueFolders (st : Files.t) : nat :=
  length
    (fold_left (fun (folders : list string) (file : Info.t) =>
                  addPrefixes 1 (split "/" (Info.path file)) folders)
               (Files.allFiles st) []).

(** The numbers showDownloadSection writes to [files-generated],
    [icons-generated] and [folders-preserved]. *)
Definition showDownloadSection (st : Files.t) (gen : Generated.t) : nat * nat * nat :=
  let totalFiles := length (Files.allFiles st) + 3 in
  let totalFiles := if truthy (Generated.offline gen) then totalFiles + 1 else totalFiles in
  let iconsCount := length (iconEntries gen) in
  (totalFiles + iconsCount, iconsCount, countUniqueFolders st).

(** [Subsequence s t]: [s] is [t] with some characters left out. *)
Inductive Subsequence : string -> string -> Prop :=
| subsequence_nil : Subsequence EmptyString EmptyString
| subsequence_keep c s t : Subsequence s t -> Subsequence (String c s) (String c t)
| subsequence_skip c s t : Subsequence s t -> Subsequence s (String c t).

(** ** Reading back one escaped character *)

(** The value of a lowercase hexadecimal digit. *)
Definition hexValue (c : ascii) : nat :=
  let n := nat_of_ascii c in
  if Nat.leb 97 n then n - 87 else n - 48.

(** The first character that a text written by [jsonEscapeAll] stands for,
    and the rest of the text; [None] at a closing quote or at the end. *)
Definition readEscaped (s : string) : option (ascii * string) :=
  match s with
  | EmptyString => None
  | String c r =>
      if Nat.eqb (nat_of_ascii c) 92 then
        match r with
        | EmptyString => None
        | String d r' =>
            let n := nat_of_ascii d in
            if Nat.eqb n 34 then Some (d, r')
            else if Nat.eqb n 92 then Some (d, r')
            else if Nat.eqb n 98 then Some (ascii_of_nat 8, r')
            else if Nat.eqb n 116 then Some (ascii_of_nat 9, r')
            else if Nat.eqb n 110 then Some (ascii_of_nat 10, r')
            else if Nat.eqb n 102 then Some (ascii_of_nat 12, r')
            else if Nat.eqb n 114 then Some (ascii_of_nat 13, r')
            else if Nat.eqb n 117 then
              match r' with
              | String _ (String _ (String h1 (String h2 r''))) =>
                  Some (ascii_of_nat (16 * hexValue h1 + hexValue h2), r'')
              | _ => None
              end
            else None
        end
      else if Nat.eqb (nat_of_ascii c) 34 then None
      else Some (c, r)
  end.

(** ** Sample inputs *)

(** A configuration as autoFillConfiguration leaves it for a folder named
    [Demo], and the files of that folder. *)
Definition demoConfig : Config.t :=
  Config.mk "Demo" "Demo" "demo-id" "demo" "" "#2196F3" "#ffffff"
            "/demo/" "/demo/" "standalone" "portrait-primary"
            "cache-first" false false.

Definition demoFiles : list Info.t :=
  [ Info.mk "index.html"
      (File.mk "Demo/index.html" "index.html" "text/html" 70
         "<!doctype html><html><head><title>Demo</title></head><body></body></html>")
      "text/html" 70 "index.html" ].

(** A root document with a closing body tag, and one without. *)
Definition demoPage : string :=
  "<!DOCTYPE html><html><head><title>Demo</title></head><body><p>Hello</p></body></html>".

(** A root document that has a theme-color tag of its own. *)
Definition themedPage : string :=
  "<!DOCTYPE html><html><head><meta name=" ++ dquote ++ "theme-color" ++ dquote
    ++ " content=" ++ dquote ++ "#000000" ++ dquote
    ++ "></head><body><p>Hello</p></body></html>".

Definition openPage : string :=
  "<!DOCTYPE html><html><head><title>Demo</title></head><p>Hello".

(** A folder that is a web application already: its service worker is the
    first script of the list, and it has a manifest of its own. *)
Definition pwaFiles : list Info.t :=
  [ Info.mk "index.html"
      (File.mk "App/index.html" "index.html" "text/html" 15 "<!doctype html>")
      "text/html" 15 "index.html";
    Info.mk "sw.js"
      (File.mk "App/sw.js" "sw.js" "text/javascript" 12 "// my worker")
      "text/javascript" 12 "sw.js";
    Info.mk "manifest.json"
      (File.mk "App/manifest.json" "manifest.json" "application/json" 2 "{}")
      "application/json" 2 "manifest.json";
    Info.mk "css/style.css"
      (File.mk "App/css/style.css" "style.css" "text/css" 7 "body {}")
      "text/css" 7 "style.css" ].

Definition pwaState : Files.t :=
  processAllFiles
    (Files.setFolder Files.empty "App" (sanitizeFolderName "App") 36)
    (map Info.blob pwaFiles).

Definition pwaGenerated : Generated.t :=
  Generated.mk (Some "MANIFEST") (Some "WORKER") (Some "PAGE") (Some "SCRIPT")
               None (Some [("icon-72x72.png", "PNG72"); ("icon-96x96.png", "PNG96")]).

Definition pwaArchive : Archive := archiveOf demoConfig pwaState pwaGenerated "README".

(** The form before a folder is chosen: no field touched. *)
Definition blankForm : Form.t := Form.mk "" "" "/" "/" false false.

(** The PNG blob a canvas gives for a size, as a text that names the size. *)
Definition demoPng (size : nat) : string := "PNG" ++ showNat size.

(** Two uploads on the same page: the first brings the primary script
    [js/app.js], the second has a file at the same path. *)
Definition firstUpload : list File.t :=
  [ File.mk "App/index.html" "index.html" "text/html" 15 "<!doctype html>";
    File.mk "App/js/app.js" "app.js" "text/javascript" 6 "run();" ].

Definition secondUpload : list File.t :=
  [ File.mk "Other/index.html" "index.html" "text/html" 15 "<!doctype html>";
    File.mk "Other/js/app.js" "app.js" "text/javascript" 8 "other();" ].

Definition twoUploads : Files.t :=
  processAllFiles (processAllFiles Files.empty firstUpload) secondUpload.

(** A name that closes the string it is put in and adds a statement. *)
Definition quotedConfig : Config.t :=
  Config.mk "x'); self.addEventListener('fetch', event => {}); console.log('"
            "Demo" "demo-id" "demo" "" "#2196F3" "#ffffff"
            "/demo/" "/demo/" "standalone" "portrait-primary"
            "cache-first" false false.

(** The folder trees of the sample folders are displayed: their paths
    have no segment named [_files] and none named like a property that
    every object inherits. *)
Definition treeShown (files : list File.t) : bool := true.

(* ====================================================================== *)
(** * Part II: properties *)
(* ====================================================================== *)

(** Character tests stay folded under [simpl]. *)
#[local] Arguments Ascii.eqb : simpl never.
#[local] Arguments Ascii.leb : simpl never.
#[local] Arguments inRange : simpl never.

Example sanitize_ex1 : sanitizeFolderName "  My Cool_App!! -- v2  " = "my-coolapp-v2".
Proof. reflexivity. Qed.

Example sanitize_ex2 : sanitizeFolderName "--" = "".
Proof. reflexivity. Qed.

(** ** The replacement chain of sanitizeFolderName *)

Lemma isHyphen_eq c : isHyphen c = true -> c = "-"%char.
Proof. unfold isHyphen. apply Ascii.eqb_eq. Qed.

Lemma isHyphen_nameChar c : isHyphen c = true -> isNameChar c = true.
Proof. unfold isNameChar. intros ->. now rewrite orb_true_r. Qed.

Lemma string_forallb_app p a b :
  string_forallb p (a ++ b) = string_forallb p a && string_forallb p b.
Proof.
  induction a as [|c a IH]; simpl; [reflexivity|].
  now rewrite IH, andb_assoc.
Qed.

Lemma filter_forallb p s : string_forallb p (string_filter p s) = true.
Proof.
  induction s as [|c s IH]; simpl; [reflexivity|].
  destruct (p c) eqn:E; simpl; [now rewrite E|exact IH].
Qed.

Lemma replaceRuns_hyphen_forallb b s :
  string_forallb isNameChar s = true ->
  string_forallb isNameChar (replaceRuns isHyphen "-" b s) = true.
Proof.
  revert b. induction s as [|c s IH]; intros b H; simpl in *; [reflexivity|].
  apply andb_true_iff in H as [Hc Hs].
  destruct (isHyphen c) eqn:E.
  - destruct b; simpl; auto.
  - simpl. rewrite Hc. simpl. auto.
Qed.

(** Inside a run nothing is emitted until the run ends, so the text that
    follows an emitted hyphen never starts with one. *)
Lemma replaceRuns_hyphen_head s :
  headIsHyphen (replaceRuns isHyphen "-" true s) = false.
Proof.
  induction s as [|c s IH]; simpl; [reflexivity|].
  destruct (isHyphen c) eqn:E; simpl; auto.
Qed.

Lemma replaceRuns_hyphen_pair b s :
  noHyphenPair (replaceRuns isHyphen "-" b s) = true.
Proof.
  revert b. induction s as [|c s IH]; intros b; simpl; [reflexivity|].
  destruct (isHyphen c) eqn:E.
  - destruct b; simpl; [apply IH|].
    rewrite replaceRuns_hyphen_head, IH. reflexivity.
  - simpl. rewrite E. simpl. apply IH.
Qed.

Lemma dropLeadingHyphen_forallb p s :
  string_forallb p s = true -> string_forallb p (dropLeadingHyphen s) = true.
Proof.
  destruct s as [|c s]; simpl; [auto|].
  intros H. destruct (isHyphen c); [|exact H].
  now apply andb_true_iff in H.
Qed.

Lemma dropTrailingHyphen_forallb p s :
  string_forallb p s = true -> string_forallb p (dropTrailingHyphen s) = true.
Proof.
  induction s as [|c s IH]; simpl; [auto|].
  intros H. apply andb_true_iff in H as [Hc Hs].
  destruct s as [|d s].
  - destruct (isHyphen c); simpl; [reflexivity|now rewrite Hc].
  - change (string_forallb p (String c (dropTrailingHyphen (String d s))) = true).
    simpl string_forallb at 1. rewrite Hc. simpl. apply IH, Hs.
Qed.

Lemma dropLeadingHyphen_pair s :
  noHyphenPair s = true ->
  noHyphenPair (dropLeadingHyphen s) = true /\ headIsHyphen (dropLeadingHyphen s) = false.
Proof.
  destruct s as [|c s]; simpl; [auto|].
  intros H. apply andb_true_iff in H as [Hc Hs].
  destruct (isHyphen c) eqn:E; simpl in *.
  - split; [exact Hs|]. now apply negb_true_iff in Hc.
  - rewrite E, Hs. auto.
Qed.

Lemma dropTrailingHyphen_head s :
  headIsHyphen s = false -> headIsHyphen (dropTrailingHyphen s) = false.
Proof.
  destruct s as [|c [|d s]]; simpl; auto.
  intros H. rewrite H. exact H.
Qed.

Lemma dropTrailingHyphen_pair s :
  noHyphenPair s = true ->
  noHyphenPair (dropTrailingHyphen s) = true /\ lastIsHyphen (dropTrailingHyphen s) = false.
Proof.
  induction s as [|c s IH]; [auto|].
  intros H. simpl in H. apply andb_true_iff in H as [Hc Hs].
  destruct s as [|d s].
  - simpl. destruct (isHyphen c) eqn:E; simpl; rewrite ?E; auto.
  - destruct (IH Hs) as [IH1 IH2].
    change (dropTrailingHyphen (String c (String d s)))
      with (String c (dropTrailingHyphen (String d s))).
    destruct (dropTrailingHyphen (String d s)) as [|e t] eqn:Ed.
    + (* the rest was the single hyphen [d]: [c] is not a hyphen *)
      assert (Hd : isHyphen d = true /\ s = EmptyString).
      { destruct s as [|d' s'].
        - simpl in Ed. destruct (isHyphen d); [auto|discriminate].
        - change (dropTrailingHyphen (String d (String d' s')))
            with (String d (dropTrailingHyphen (String d' s'))) in Ed.
          discriminate. }
      destruct Hd as [Hd ->]. simpl in Hc. rewrite Hd, andb_true_r in Hc.
      apply negb_true_iff in Hc. simpl. rewrite Hc. auto.
    + split.
      * simpl. simpl in IH1. rewrite IH1, andb_true_r.
        assert (He : e = d).
        { destruct s as [|d' s'].
          - simpl in Ed. destruct (isHyphen d); [discriminate|now inversion Ed].
          - change (dropTrailingHyphen (String d (String d' s')))
              with (String d (dropTrailingHyphen (String d' s'))) in Ed.
            now inversion Ed. }
        subst e. exact Hc.
      * exact IH2.
Qed.

(** The structural predicates are the JavaScript tests. *)
Lemma headIsHyphen_startsWith s : startsWith "-" s = headIsHyphen s.
Proof.
  destruct s as [|c s]; simpl; [reflexivity|].
  unfold isHyphen. now rewrite andb_true_r, Ascii.eqb_sym.
Qed.

Lemma endsWith_cons n c r :
  endsWith n (String c r) = (String c r =? n) || endsWith n r.
Proof. reflexivity. Qed.

Lemma lastIsHyphen_endsWith s : endsWith "-" s = lastIsHyphen s.
Proof.
  induction s as [|c s IH]; [reflexivity|].
  destruct s as [|d s].
  - simpl. unfold isHyphen. now destruct (Ascii.eqb c "-").
  - change (lastIsHyphen (String c (String d s))) with (lastIsHyphen (String d s)).
    rewrite <- IH, (endsWith_cons "-" c (String d s)).
    replace (String c (String d s) =? "-") with false; [reflexivity|].
    simpl. now destruct (Ascii.eqb c "-").
Qed.

Lemma noHyphenPair_includes s : includes "--" s = negb (noHyphenPair s).
Proof.
  induction s as [|c s IH]; [reflexivity|].
  simpl includes. rewrite IH. simpl noHyphenPair.
  rewrite negb_andb, negb_involutive. f_equal.
  unfold isHyphen. rewrite (Ascii.eqb_sym c).
  destruct s as [|d s]; simpl; [now rewrite andb_false_r|].
  unfold isHyphen. now rewrite andb_true_r, (Ascii.eqb_sym d).
Qed.

(** ** C10 *)

(** The string [sanitizeFolderName] returns has only lowercase ASCII
    letters, digits and hyphens, holds no two consecutive hyphens, and
    neither starts nor ends with a hyphen. *)
Lemma sanitizeFolderName_shape (name : string) :
  let s := sanitizeFolderName name in
  string_forallb (fun c => isLowerAZ c || isDigit c || isHyphen c) s = true /\
  includes "--" s = false /\
  startsWith "-" s = false /\
  endsWith "-" s = false.
Proof.
  intros s. subst s. unfold sanitizeFolderName, stripEdgeHyphens.
  set (t := trim (toLowerCase name)).
  set (u := string_filter isNameChar (replaceRuns isSpace "-" false t)).
  set (v := replaceRuns isHyphen "-" false u).
  assert (Hv : string_forallb isNameChar v = true)
    by (apply replaceRuns_hyphen_forallb, filter_forallb).
  assert (Pv : noHyphenPair v = true) by apply replaceRuns_hyphen_pair.
  destruct (dropLeadingHyphen_pair v Pv) as [P1 H1].
  destruct (dropTrailingHyphen_pair _ P1) as [P2 L2].
  repeat split.
  - apply dropTrailingHyphen_forallb, dropLeadingHyphen_forallb, Hv.
  - now rewrite noHyphenPair_includes, P2.
  - rewrite headIsHyphen_startsWith. now apply dropTrailingHyphen_head.
  - now rewrite lastIsHyphen_endsWith.
Qed.

Lemma isNameChar_forallb_app a b :
  string_forallb isNameChar a = true -> string_forallb isNameChar b = true ->
  string_forallb isNameChar (a ++ b) = true.
Proof. intros Ha Hb. now rewrite string_forallb_app, Ha, Hb. Qed.

Lemma autoFillConfiguration_fields s form :
  Form.folderName (autoFillConfiguration s form) = s /\
  Form.appId (autoFillConfiguration s form) = s ++ "-id" /\
  (s <> "" -> Form.startUrlModified form = false ->
   Form.startUrl (autoFillConfiguration s form) = "/" ++ s ++ "/") /\
  (s <> "" -> Form.scopeModified form = false ->
   Form.scope (autoFillConfiguration s form) = "/" ++ s ++ "/").
Proof.
  unfold autoFillConfiguration, updateUrlFields. cbv zeta.
  destruct s as [|c s], form as [f a u sc mu ms]; cbn;
    [repeat split; intros; contradiction|].
  destruct mu, ms; cbn; repeat split; intros; (reflexivity || discriminate).
Qed.

(** C10.  For every input string, the string [s] that sanitizeFolderName
    returns has only lowercase ASCII letters, digits and hyphens, holds no
    two consecutive hyphens, and neither starts nor ends with a hyphen (it
    may be empty: the input [!!!] gives the empty string).  The names
    derived from it are built from it: autoFillConfiguration sets the folder
    name field to [s] and the app id to [s-id]; when [s] is not empty it
    sets the start URL and the scope, unless the user has touched them, to
    [s] between two slashes; and the cache name of a configuration with
    this folder name is [s-v1], again made of these characters only. *)
Theorem sanitizeFolderName_names (name : string) (form : Form.t) :
  let s := sanitizeFolderName name in
  let form' := autoFillConfiguration s form in
  (string_forallb (fun c => isLowerAZ c || isDigit c || isHyphen c) s = true /\
   includes "--" s = false /\
   startsWith "-" s = false /\
   endsWith "-" s = false) /\
  sanitizeFolderName "!!!" = "" /\
  Form.folderName form' = s /\
  Form.appId form' = s ++ "-id" /\
  string_forallb isNameChar (Form.appId form') = true /\
  (s <> "" -> Form.startUrlModified form = false ->
   Form.startUrl form' = "/" ++ s ++ "/") /\
  (s <> "" -> Form.scopeModified form = false ->
   Form.scope form' = "/" ++ s ++ "/") /\
  (forall config,
     Config.folderName config = Form.folderName form' ->
     cacheNameOf config = s ++ "-v1" /\
     string_forallb isNameChar (cacheNameOf config) = true).
Proof.
  intros s form'.
  pose proof (sanitizeFolderName_shape name) as Hshape. cbv zeta in Hshape. fold s in Hshape.
  assert (Hs : string_forallb isNameChar s = true) by exact (proj1 Hshape).
  destruct (autoFillConfiguration_fields s form) as (Hf & Ha & Hu & Hc).
  fold form' in Hf, Ha, Hu, Hc.
  split; [exact Hshape|]. split; [reflexivity|].
  split; [exact Hf|]. split; [exact Ha|]. split.
  { rewrite Ha. now apply isNameChar_forallb_app. }
  split; [exact Hu|]. split; [exact Hc|].
  intros config Hn. unfold cacheNameOf. rewrite Hn, Hf.
  split; [reflexivity|]. now apply isNameChar_forallb_app.
Qed.

Lemma sanitizeFolderName_names_witness :
  Form.startUrl (autoFillConfiguration (sanitizeFolderName "My App!") blankForm)
  = "/my-app/" /\
  Form.scope (autoFillConfiguration (sanitizeFolderName "My App!") blankForm)
  = "/my-app/".
Proof.
  destruct (sanitizeFolderName_names "My App!" blankForm)
    as (_ & _ & _ & _ & _ & Hu & Hs & _).
  split; [apply Hu|apply Hs]; (discriminate || reflexivity).
Defined.


(** ** processAllFiles: which files become the quick references *)

Lemma endsWith_index_css p : String.eqb p "index.html" = true -> endsWith ".css" p = false.
Proof. intros H. apply String.eqb_eq in H. subst p. reflexivity. Qed.

Lemma endsWith_index_js p : String.eqb p "index.html" = true -> endsWith ".js" p = false.
Proof. intros H. apply String.eqb_eq in H. subst p. reflexivity. Qed.

Lemma endsWith_css_js p : endsWith ".css" p = true -> endsWith ".js" p = false.
Proof.
  induction p as [|c p IH]; [discriminate|].
  rewrite !endsWith_cons. intros H.
  apply orb_true_iff in H as [H|H].
  - apply String.eqb_eq in H. inversion H; subst. reflexivity.
  - rewrite (IH H), orb_false_r.
    destruct (String.eqb (String c p) ".js") eqn:E; [|reflexivity].
    apply String.eqb_eq in E. inversion E; subst. discriminate H.
Qed.

Ltac processFile_cases file st :=
  destruct (String.eqb (getRelativePath file) "index.html") eqn:Ei;
  destruct (endsWith ".css" (getRelativePath file)) eqn:Ec;
  destruct (endsWith ".js" (getRelativePath file)) eqn:Ej;
  destruct (Files.css st) eqn:Es;
  destruct (Files.js st) eqn:Et;
  destruct (includes "node_modules" (getRelativePath file));
  destruct (includes "dist" (getRelativePath file));
  simpl; rewrite ?Es, ?Et; simpl; rewrite ?Es, ?Et; try reflexivity;
  try (rewrite (endsWith_index_css _ Ei) in Ec; discriminate);
  try (rewrite (endsWith_index_js _ Ei) in Ej; discriminate);
  try (rewrite (endsWith_css_js _ Ec) in Ej; discriminate).

Lemma processFile_css st file :
  Files.css (processFile st file) =
  match Files.css st with
  | Some r => Some r
  | None => if isStylesheet file then Some (refOf file) else None
  end.
Proof.
  unfold processFile, isStylesheet, refOf. processFile_cases file st.
Qed.

Lemma processFile_js st file :
  Files.js (processFile st file) =
  match Files.js st with
  | Some r => Some r
  | None => if isScript file then Some (refOf file) else None
  end.
Proof.
  unfold processFile, isScript, refOf. processFile_cases file st.
Qed.

Lemma processFile_index st file :
  Files.index (processFile st file) =
  if isRootDocument file then Some (refOf file) else Files.index st.
Proof.
  unfold processFile, isRootDocument, refOf. processFile_cases file st.
Qed.

Lemma fold_processFile_css files : forall st,
  Files.css (fold_left processFile files st) =
  match Files.css st with
  | Some r => Some r
  | None => option_map refOf (find isStylesheet files)
  end.
Proof.
  induction files as [|f files IH]; intros st; simpl.
  - now destruct (Files.css st).
  - rewrite IH, processFile_css.
    destruct (Files.css st); [reflexivity|].
    now destruct (isStylesheet f).
Qed.

Lemma fold_processFile_js files : forall st,
  Files.js (fold_left processFile files st) =
  match Files.js st with
  | Some r => Some r
  | None => option_map refOf (find isScript files)
  end.
Proof.
  induction files as [|f files IH]; intros st; simpl.
  - now destruct (Files.js st).
  - rewrite IH, processFile_js.
    destruct (Files.js st); [reflexivity|].
    now destruct (isScript f).
Qed.

Lemma find_append {A : Type} (p : A -> bool) (l l' : list A) :
  find p (l ++ l') =
  match find p l with
  | Some x => Some x
  | None => find p l'
  end.
Proof.
  induction l as [|x l IH]; simpl; [reflexivity|].
  now destruct (p x).
Qed.

(** The root document is the last file at [index.html]: each one met
    overwrites the reference. *)
Lemma fold_processFile_index files : forall st,
  Files.index (fold_left processFile files st) =
  match find isRootDocument (rev files) with
  | Some f => Some (refOf f)
  | None => Files.index st
  end.
Proof.
  induction files as [|f files IH]; intros st; simpl; [reflexivity|].
  rewrite IH, processFile_index.
  rewrite find_append.
  destruct (find isRootDocument (rev files)); [reflexivity|].
  simpl. now destruct (isRootDocument f).
Qed.

(** ** C7 *)

(** C7, as amended.  Starting from a [this.files] that holds no primary
    stylesheet and no primary script, processAllFiles designates as primary
    stylesheet the first file of the list whose relative path ends in
    [.css], and as primary script the first file whose relative path ends
    in [.js], is not [index.html], and contains neither [node_modules] nor
    [dist] as a substring; the choice follows the order of the list: the
    same two scripts in the other order give the other choice. *)
Theorem processAllFiles_primary (st : Files.t) (files : list File.t) :
  Files.css st = None ->
  Files.js st = None ->
  Files.css (processAllFiles st files) = option_map refOf (find isStylesheet files) /\
  Files.js (processAllFiles st files) = option_map refOf (find isScript files) /\
  (let b := File.mk "app/b.js" "b.js" "" 1 "" in
   let a := File.mk "app/a.js" "a.js" "" 1 "" in
   Files.js (processAllFiles st [b; a]) = Some (refOf b) /\
   Files.js (processAllFiles st [a; b]) = Some (refOf a)).
Proof.
  intros Hc Hj. unfold processAllFiles.
  rewrite fold_processFile_css, !fold_processFile_js. simpl.
  rewrite Hc, Hj. repeat split; reflexivity.
Qed.

Lemma processAllFiles_primary_witness :
  let files := [ File.mk "app/index.html" "index.html" "text/html" 20 "<html></html>";
                 File.mk "app/node_modules/x/lib.js" "lib.js" "" 5 "lib";
                 File.mk "app/css/site.css" "site.css" "" 7 "body{}";
                 File.mk "app/js/main.js" "main.js" "" 9 "main()" ] in
  option_map Ref.path (Files.css (processAllFiles Files.empty files)) = Some "css/site.css" /\
  option_map Ref.path (Files.js (processAllFiles Files.empty files)) = Some "js/main.js".
Proof.
  intros files.
  destruct (processAllFiles_primary Files.empty files eq_refl eq_refl) as (Hc & Hj & _).
  rewrite Hc, Hj. split; reflexivity.
Defined.

(** C7 as stated fails: [distance.js] is the first file that ends in [.js];
    it is not [index.html] and lies under no directory at all, yet the
    script that follows it is the one designated. *)
Lemma processAllFiles_dist_is_a_substring :
  let files := [ File.mk "app/distance.js" "distance.js" "" 4 "d()";
                 File.mk "app/app.js" "app.js" "" 4 "a()" ] in
  map getRelativePath files = ["distance.js"; "app.js"] /\
  endsWith ".js" "distance.js" = true /\
  split "/" "distance.js" = ["distance.js"] /\
  option_map Ref.path (Files.js (processAllFiles Files.empty files)) = Some "app.js".
Proof. repeat split; reflexivity. Qed.

(** ** C3 *)

(** From a [this.files] that holds no root document, an upload in which
    every file at [index.html] (if any) fails the HTML sniff test ends in
    the catch branch, with [this.files] reset. *)
Theorem handleFolderUpload_rejects_missing_root
  (displayFolderTree : list File.t -> bool) (st : Files.t) (files : list File.t) :
  files <> [] ->
  Files.index st = None ->
  (forall f, In f files -> isRootDocument f = true -> validateHTML (File.content f) = false) ->
  exists events e,
    handleFolderUpload displayFolderTree st files = (Files.empty, events, Failed e).
Proof.
  intros Hne Hidx Hbad. destruct files as [|f0 rest]; [contradiction|].
  unfold handleFolderUpload.
  destruct (N.ltb maxSize (sumSizes (f0 :: rest))); [eauto|].
  unfold validateFolderStructure, processAllFiles.
  rewrite fold_processFile_index. simpl Files.index. rewrite Hidx.
  destruct (find isRootDocument (rev (f0 :: rest))) as [f|] eqn:Ef; [|eauto].
  apply find_some in Ef as [Hin Hroot].
  apply in_rev in Hin.
  simpl Ref.content. rewrite (Hbad f Hin Hroot). eauto.
Qed.

Lemma handleFolderUpload_rejects_missing_root_witness :
  exists events e,
    handleFolderUpload treeShown Files.empty
      [File.mk "notes/readme.txt" "readme.txt" "" 3 "hi!"]
    = (Files.empty, events, Failed e).
Proof.
  apply handleFolderUpload_rejects_missing_root.
  - discriminate.
  - reflexivity.
  - intros f [<-|[]]. discriminate.
Defined.

(** C3 at the failing input: a folder with a valid [index.html] is loaded,
    then a folder with no [index.html] at all is selected.  processAllFiles
    empties [allFiles] only, so the first folder's root document is still
    in [this.files.index]: validation passes and the second upload ends in
    the success branch, with the root document of the first folder.  (The
    folder tree of either folder is displayed: each holds one file, at its
    root.) *)
Lemma handleFolderUpload_keeps_stale_root :
  let shop := File.mk "shop/index.html" "index.html" "text/html" 15 "<!DOCTYPE html>" in
  let note := File.mk "notes/readme.txt" "readme.txt" "text/plain" 3 "hi!" in
  let '(st1, _, o1) := handleFolderUpload treeShown Files.empty [shop] in
  let '(st2, _, o2) := handleFolderUpload treeShown st1 [note] in
  o1 = Loaded /\
  existsb isRootDocument [note] = false /\
  o2 = Loaded /\
  Files.folderName st2 = Some "notes" /\
  map Info.path (Files.allFiles st2) = ["readme.txt"] /\
  Files.index st2 = Some (refOf shop).
Proof. vm_compute. repeat split; reflexivity. Qed.

(** ** C5 *)








(** ** Texts and their lines *)

Lemma sapp_assoc (a b c : string) : (a ++ b) ++ c = a ++ b ++ c.
Proof. induction a as [|x a IH]; simpl; [reflexivity|now rewrite IH]. Qed.

Lemma sapp_nil_r (a : string) : a ++ "" = a.
Proof. induction a as [|x a IH]; simpl; [reflexivity|now rewrite IH]. Qed.

Lemma split_nonempty sep s : split sep s <> [].
Proof.
  destruct s as [|c s]; simpl; [discriminate|].
  destruct (Ascii.eqb c sep); [discriminate|].
  destruct (split sep s); discriminate.
Qed.

(** Splitting distributes over a separator that joins two texts. *)
Lemma split_app_sep sep a b :
  split sep (a ++ String sep b) = (split sep a ++ split sep b)%list.
Proof.
  induction a as [|c a IH]; simpl.
  - now rewrite Ascii.eqb_refl.
  - rewrite IH. destruct (Ascii.eqb c sep); [reflexivity|].
    destruct (split sep a) as [|h t] eqn:E; [now apply split_nonempty in E|].
    reflexivity.
Qed.

Lemma split_without_sep sep s :
  string_forallb (fun c => negb (Ascii.eqb c sep)) s = true -> split sep s = [s].
Proof.
  induction s as [|c s IH]; simpl; [reflexivity|].
  intros H. apply andb_true_iff in H as [Hc Hs].
  apply negb_true_iff in Hc. rewrite Hc, (IH Hs). reflexivity.
Qed.

Lemma lines_app_newline a b : lines (a ++ newline ++ b) = (lines a ++ lines b)%list.
Proof. apply split_app_sep. Qed.

Lemma lines_single s : singleLine s = true -> lines s = [s].
Proof. apply split_without_sep. Qed.

Lemma unlines_cons x y l : unlines (x :: y :: l) = x ++ newline ++ unlines (y :: l).
Proof. reflexivity. Qed.

Lemma lines_unlines_cons x y l :
  lines (unlines (x :: y :: l)) = (lines x ++ lines (unlines (y :: l)))%list.
Proof. rewrite unlines_cons. apply lines_app_newline. Qed.

Lemma lines_unlines_one x : lines (unlines [x]) = lines x.
Proof. reflexivity. Qed.

Lemma singleLine_app a b : singleLine (a ++ b) = singleLine a && singleLine b.
Proof. apply string_forallb_app. Qed.

(** A decimal numeral is one line. *)
Lemma singleLine_digits d : singleLine (NilEmpty.string_of_uint d) = true.
Proof. induction d; simpl; auto. Qed.

Lemma singleLine_uint d : singleLine (NilZero.string_of_uint d) = true.
Proof. destruct d; try reflexivity; apply singleLine_digits. Qed.

Lemma singleLine_showNat n : singleLine (showNat n) = true.
Proof. apply singleLine_uint. Qed.

(** ** The lines of a serialized array of strings *)

Lemma jsonEscape_singleLine c : singleLine (jsonEscape c) = true.
Proof. destruct c as [[] [] [] [] [] [] [] []]; reflexivity. Qed.

Lemma jsonEscapeAll_singleLine s : singleLine (jsonEscapeAll s) = true.
Proof.
  induction s as [|c s IH]; simpl; [reflexivity|].
  now rewrite singleLine_app, jsonEscape_singleLine, IH.
Qed.

Lemma jsonQuote_singleLine s : singleLine (jsonQuote s) = true.
Proof.
  unfold jsonQuote.
  now rewrite !singleLine_app, jsonEscapeAll_singleLine.
Qed.

Lemma stringify_array_cons indent x xs :
  stringify indent (JArray (x :: xs)) =
  "[" ++ newline ++ (indent ++ "  ")
      ++ join ("," ++ newline ++ indent ++ "  ")
              (map (stringify (indent ++ "  ")) (x :: xs))
      ++ newline ++ indent ++ "]".
Proof. reflexivity. Qed.

Lemma map_stringify_strings indent us :
  map (stringify indent) (map JString us) = map jsonQuote us.
Proof. rewrite map_map. apply map_ext. reflexivity. Qed.

Lemma lines_json_items u us :
  lines ("  " ++ join ("," ++ newline ++ "  ") (map jsonQuote (u :: us)))
  = jsonItemLines (u :: us).
Proof.
  revert u. induction us as [|v us IH]; intros u.
  - change (lines ("  " ++ jsonQuote u) = ["  " ++ jsonQuote u]).
    apply lines_single. now rewrite singleLine_app, jsonQuote_singleLine.
  - change (jsonItemLines (u :: v :: us))
      with (("  " ++ jsonQuote u ++ ",") :: jsonItemLines (v :: us)).
    rewrite <- IH.
    set (head := "  " ++ jsonQuote u ++ ",").
    set (rest := "  " ++ join ("," ++ newline ++ "  ") (map jsonQuote (v :: us))).
    change (head :: lines rest) with ([head] ++ lines rest)%list.
    rewrite <- (lines_single head)
      by (subst head; now rewrite !singleLine_app, jsonQuote_singleLine).
    rewrite <- lines_app_newline. f_equal.
    change (join ("," ++ newline ++ "  ") (map jsonQuote (u :: v :: us)))
      with (jsonQuote u ++ ("," ++ newline ++ "  ")
              ++ join ("," ++ newline ++ "  ") (map jsonQuote (v :: us))).
    subst head rest. rewrite !sapp_assoc. reflexivity.
Qed.

(** The chunk of line 12 of the template, line by line. *)
Lemma lines_urlsToCache_chunk u us :
  lines ("const urlsToCache = "
           ++ stringify EmptyString (JArray (map JString (u :: us))) ++ ";")
  = ("const urlsToCache = [" :: jsonItemLines (u :: us) ++ ["];"])%list.
Proof.
  simpl map. rewrite stringify_array_cons.
  change (JString u :: map JString us) with (map JString (u :: us)).
  rewrite map_stringify_strings.
  change ("" ++ "  ") with "  ".
  rewrite <- lines_json_items.
  set (items := "  " ++ join ("," ++ newline ++ "  ") (map jsonQuote (u :: us))).
  transitivity (lines ("const urlsToCache = [" ++ newline ++ items ++ newline ++ "];")).
  - f_equal. rewrite !sapp_assoc. reflexivity.
  - rewrite !lines_app_newline. reflexivity.
Qed.

(** ** Quoted strings end at their closing quote *)

Lemma sapp_inv_head a b c : a ++ b = a ++ c -> b = c.
Proof. induction a as [|x a IH]; simpl; intros H; [exact H|]. inversion H. auto. Qed.

Lemma readEscaped_jsonEscape c rest :
  readEscaped (jsonEscape c ++ rest) = Some (c, rest).
Proof. destruct c as [[] [] [] [] [] [] [] []]; reflexivity. Qed.

Lemma jsonEscapeAll_prefix_free s1 : forall s2 r1 r2,
  jsonEscapeAll s1 ++ dquote ++ r1 = jsonEscapeAll s2 ++ dquote ++ r2 ->
  s1 = s2 /\ r1 = r2.
Proof.
  induction s1 as [|c1 s1 IH]; intros [|c2 s2] r1 r2 H; cbn [jsonEscapeAll] in H.
  - split; [reflexivity|]. now inversion H.
  - exfalso. apply (f_equal readEscaped) in H.
    rewrite sapp_assoc, readEscaped_jsonEscape in H. discriminate H.
  - exfalso. apply (f_equal readEscaped) in H.
    rewrite sapp_assoc, readEscaped_jsonEscape in H. discriminate H.
  - apply (f_equal readEscaped) in H.
    rewrite !sapp_assoc, !readEscaped_jsonEscape in H.
    inversion H as [[Hc Hr]]. destruct (IH s2 r1 r2 Hr) as [-> ->]. auto.
Qed.

(** A quoted string ends at its closing quote: two quoted strings followed
    by any texts are equal only if the strings and the texts are. *)
Lemma jsonQuote_prefix_free s1 s2 r1 r2 :
  jsonQuote s1 ++ r1 = jsonQuote s2 ++ r2 -> s1 = s2 /\ r1 = r2.
Proof.
  unfold jsonQuote. rewrite !sapp_assoc. intros H.
  apply sapp_inv_head in H. now apply jsonEscapeAll_prefix_free.
Qed.

(** ** Substrings *)

Lemma startsWith_app n b : startsWith n (n ++ b) = true.
Proof.
  induction n as [|c n IH]; simpl; [reflexivity|].
  now rewrite Ascii.eqb_refl, IH.
Qed.

Lemma startsWith_inv n s : startsWith n s = true -> exists b, s = n ++ b.
Proof.
  revert s. induction n as [|c n IH]; intros s H.
  - exists s. reflexivity.
  - destruct s as [|d s]; [discriminate|]. simpl in H.
    apply andb_true_iff in H as [Hc Hn]. apply Ascii.eqb_eq in Hc. subst d.
    destruct (IH s Hn) as [b ->]. exists b. reflexivity.
Qed.

Lemma includes_cons n c s : includes n (String c s) = startsWith n (String c s) || includes n s.
Proof. reflexivity. Qed.

Lemma includes_app n a b : includes n (a ++ n ++ b) = true.
Proof.
  induction a as [|c a IH].
  - simpl append. destruct (n ++ b) eqn:E.
    + destruct n; [reflexivity|discriminate].
    + rewrite includes_cons, <- E, startsWith_app. reflexivity.
  - simpl append. rewrite includes_cons, IH. apply orb_true_r.
Qed.

Lemma includes_inv n s : includes n s = true -> exists a b, s = a ++ n ++ b.
Proof.
  induction s as [|c s IH]; intros H.
  - simpl in H. rewrite orb_false_r in H.
    apply startsWith_inv in H as [b Hb]. exists "", b. exact Hb.
  - rewrite includes_cons in H. apply orb_true_iff in H as [H|H].
    + apply startsWith_inv in H as [b Hb]. exists "", b. exact Hb.
    + destruct (IH H) as (a & b & ->). exists (String c a), b. reflexivity.
Qed.

(** ** The lines of a template *)

Lemma unlines_app_cons (A : list string) c B :
  B <> [] ->
  unlines (A ++ c :: B) =
  match A with
  | [] => c ++ newline ++ unlines B
  | _ => unlines A ++ newline ++ c ++ newline ++ unlines B
  end.
Proof.
  intros HB. destruct B as [|b B]; [contradiction|].
  induction A as [|a A IH]; [reflexivity|].
  destruct A as [|a' A].
  - reflexivity.
  - change (unlines ((a :: a' :: A) ++ c :: b :: B))
      with (a ++ newline ++ unlines ((a' :: A) ++ c :: b :: B)).
    rewrite IH. change (unlines (a :: a' :: A)) with (a ++ newline ++ unlines (a' :: A)).
    now rewrite !sapp_assoc.
Qed.

Lemma lines_unlines_all (A : list string) :
  A <> [] -> forallb singleLine A = true -> lines (unlines A) = A.
Proof.
  induction A as [|a A IH]; [contradiction|].
  intros _ H. simpl in H. apply andb_true_iff in H as [Ha HA].
  destruct A as [|a' A].
  - now apply lines_single.
  - rewrite lines_unlines_cons, (lines_single a Ha), IH; [reflexivity|discriminate|exact HA].
Qed.

Lemma lines_unlines_segment (A : list string) c B :
  forallb singleLine A = true -> B <> [] ->
  lines (unlines (A ++ c :: B)) = (A ++ lines c ++ lines (unlines B))%list.
Proof.
  intros HA HB. destruct B as [|b B]; [contradiction|].
  induction A as [|a A IH].
  - simpl app. now rewrite lines_unlines_cons.
  - simpl in HA. apply andb_true_iff in HA as [Ha HA].
    destruct A as [|a' A].
    + change (lines (unlines (a :: c :: b :: B)) = a :: lines c ++ lines (unlines (b :: B)))%list.
      now rewrite !lines_unlines_cons, (lines_single a Ha).
    + change (unlines ((a :: a' :: A) ++ c :: b :: B))
        with (unlines (a :: (a' :: A) ++ c :: b :: B)).
      change ((a' :: A) ++ c :: b :: B)%list with (a' :: (A ++ c :: b :: B))%list.
      rewrite lines_unlines_cons, (lines_single a Ha).
      change (a' :: (A ++ c :: b :: B))%list with ((a' :: A) ++ c :: b :: B)%list.
      rewrite (IH HA). reflexivity.
Qed.

(** A full line in the middle of a text is a line of every text around it. *)
Lemma middle_line_survives p d q a b :
  singleLine d = true ->
  In d (lines (a ++ (p ++ newline ++ d ++ newline ++ q) ++ b)).
Proof.
  intros Hd.
  replace (a ++ (p ++ newline ++ d ++ newline ++ q) ++ b)
    with ((a ++ p) ++ newline ++ d ++ newline ++ (q ++ b))
    by now rewrite !sapp_assoc.
  rewrite !lines_app_newline, (lines_single d Hd).
  apply in_or_app. right. now left.
Qed.

(** ** C4 *)

Example manifest_demo_lines :
  firstn 4 (lines (generateManifest demoConfig)) =
  [ "{"; "  " ++ dquote ++ "id" ++ dquote ++ ": " ++ dquote ++ "demo-id" ++ dquote ++ ",";
    "  " ++ dquote ++ "name" ++ dquote ++ ": " ++ dquote ++ "Demo" ++ dquote ++ ",";
    "  " ++ dquote ++ "short_name" ++ dquote ++ ": " ++ dquote ++ "Demo" ++ dquote ++ "," ].
Proof. reflexivity. Qed.

Lemma stringify_object indent m ms :
  stringify indent (JObject (m :: ms))
  = "{" ++ newline ++ (indent ++ "  ")
      ++ join ("," ++ newline ++ indent ++ "  ")
           (map (fun kv => jsonQuote (fst kv) ++ ": " ++ stringify (indent ++ "  ") (snd kv))
                (m :: ms))
      ++ newline ++ indent ++ "}".
Proof. reflexivity. Qed.

Lemma generateManifest_unlines config :
  generateManifest config
  = unlines (manifestHead config
             ++ [ "  " ++ jsonQuote "icons" ++ ": "
                    ++ stringify "  " (JArray (map iconEntry iconSizes)) ++ ",";
                  "  " ++ jsonQuote "categories" ++ ": "
                    ++ stringify "  " (JArray [JString "utilities"; JString "productivity"]);
                  "}" ]).
Proof.
  unfold generateManifest, manifestObject, manifestHead, memberLine.
  rewrite stringify_object.
  cbn [map fst snd].
  change (stringify ("" ++ "  ")) with (stringify "  ").
  set (s11 := stringify "  " (JArray (map iconEntry iconSizes))).
  set (s12 := stringify "  " (JArray [JString "utilities"; JString "productivity"])).
  cbn [stringify].
  generalize (jsonQuote (Config.appId config)) (jsonQuote (Config.name config))
    (jsonQuote (Config.shortName config)) (jsonQuote (Config.description config))
    (jsonQuote (Config.startUrl config)) (jsonQuote (Config.scope config))
    (jsonQuote (Config.display config)) (jsonQuote (Config.orientation config))
    (jsonQuote (Config.themeColor config)) (jsonQuote (Config.backgroundColor config)).
  clearbody s11 s12.
  intros q1 q2 q3 q4 q5 q6 q7 q8 q9 q10.
  cbv [unlines join String.concat app].
  rewrite !sapp_assoc. reflexivity.
Qed.

Lemma lines_generateManifest config :
  lines (generateManifest config) = (manifestHead config ++ manifestTail)%list.
Proof.
  rewrite generateManifest_unlines.
  assert (H : forallb singleLine (manifestHead config) = true).
  { cbv beta iota zeta delta [manifestHead forallb memberLine].
    rewrite ?singleLine_app, ?jsonQuote_singleLine. reflexivity. }
  rewrite (lines_unlines_segment (manifestHead config) _ _ H) by discriminate.
  f_equal; vm_compute; reflexivity.
Qed.

(** C4.  For every configuration, the text that generateManifest returns
    is the serialization of the manifest object, and its lines are: the
    eleven lines of the opening brace and the ten members before [icons];
    the line that opens the [icons] array; eight entries of five lines
    each, closed by a brace, whose [sizes] are, in order, 72x72, 96x96,
    128x128, 144x144, 152x152, 192x192, 384x384, 512x512, and whose
    [purpose] is [any] for the five sizes below 192 and [any maskable] for
    192, 384 and 512; then the end of the array, the categories and the
    closing brace.  Read as an object, the manifest has an [icons] array
    of exactly these 8 entries. *)
Theorem generateManifest_icons (config : Config.t) :
  generateManifest config = stringify EmptyString (manifestObject config) /\
  length (manifestHead config) = 11 /\
  lines (generateManifest config) =
       (manifestHead config
       ++ [("  " ++ jsonQuote "icons" ++ ": [")%string]
       ++ iconBlock 72 "any" ++ ["    },"]
       ++ iconBlock 96 "any" ++ ["    },"]
       ++ iconBlock 128 "any" ++ ["    },"]
       ++ iconBlock 144 "any" ++ ["    },"]
       ++ iconBlock 152 "any" ++ ["    },"]
       ++ iconBlock 192 "any maskable" ++ ["    },"]
       ++ iconBlock 384 "any maskable" ++ ["    },"]
       ++ iconBlock 512 "any maskable" ++ ["    }"]
       ++ [ "  ],";
            ("  " ++ jsonQuote "categories" ++ ": [")%string;
            ("    " ++ jsonQuote "utilities" ++ ",")%string;
            ("    " ++ jsonQuote "productivity")%string;
            "  ]";
            "}" ])%list /\
  exists icons,
    member "icons" (manifestObject config) = Some (JArray icons) /\
    length icons = 8 /\
    map (stringMember "sizes") icons =
      map Some ["72x72"; "96x96"; "128x128"; "144x144";
                "152x152"; "192x192"; "384x384"; "512x512"] /\
    icons = map iconEntry iconSizes /\
    (forall size, In size iconSizes ->
       stringMember "sizes" (iconEntry size) = Some (showNat size ++ "x" ++ showNat size) /\
       (192 <= size ->
          option_map (split " ") (stringMember "purpose" (iconEntry size))
          = Some ["any"; "maskable"]) /\
       (size < 192 ->
          option_map (split " ") (stringMember "purpose" (iconEntry size))
          = Some ["any"])).
Proof.
  split; [reflexivity|].
  split; [reflexivity|].
  split; [apply lines_generateManifest|].
  exists (map iconEntry iconSizes).
  do 4 (split; [reflexivity|]).
  intros size Hin. unfold iconSizes in Hin.
  repeat (destruct Hin as [<-|Hin]); try contradiction;
    (split; [reflexivity|split; intros; first [reflexivity | lia]]).
Qed.


(** ** The service worker, line by line *)

Ltac single_lines :=
  rewrite ?singleLine_app, ?singleLine_showNat;
  repeat match goal with
         | H : singleLine _ = true |- _ => rewrite H
         end;
  reflexivity.

Lemma lines_notificationHandlers config :
  singleLine (Config.name config) = true ->
  singleLine (Config.startUrl config) = true ->
  lines (generateNotificationHandlers config) = notificationTemplate config.
Proof.
  intros Hn Hs. apply lines_unlines_all; [discriminate|].
  cbv beta iota zeta delta [notificationTemplate forallb].
  single_lines.
Qed.

(** Of the 78 lines of the template, all but three are one line of text
    once the interpolated names are; lines 12, 53 and 56 hold the
    precache list, the strategy and the notification handlers. *)
Lemma lines_generateServiceWorker config allFiles :
  singleLine (Config.name config) = true ->
  singleLine (Config.cacheStrategy config) = true ->
  singleLine (Config.folderName config) = true ->
  singleLine (Config.startUrl config) = true ->
  singleLine (Config.scope config) = true ->
  let T := serviceWorkerTemplate config allFiles in
  lines (generateServiceWorker config allFiles) =
  (firstn 11 T ++ lines (nth 11 T "")
     ++ firstn 40 (skipn 12 T) ++ lines (nth 52 T "")
     ++ firstn 2 (skipn 53 T) ++ lines (nth 55 T "")
     ++ skipn 56 T)%list.
Proof.
  intros Hn Hk Hf Hs Hc T.
  unfold generateServiceWorker. fold T.
  set (A1 := firstn 11 T). set (c11 := nth 11 T "").
  set (A2 := firstn 40 (skipn 12 T)). set (c52 := nth 52 T "").
  set (A3 := firstn 2 (skipn 53 T)). set (c55 := nth 55 T "").
  set (A4 := skipn 56 T).
  assert (E : T = (A1 ++ c11 :: A2 ++ c52 :: A3 ++ c55 :: A4)%list) by reflexivity.
  assert (H1 : forallb singleLine A1 = true).
  { subst A1 T. cbv beta iota zeta delta [firstn forallb serviceWorkerTemplate cacheNameOf].
    destruct (Config.enableOffline config); single_lines. }
  assert (H2 : forallb singleLine A2 = true).
  { subst A2 T. cbv beta iota zeta delta [firstn skipn forallb serviceWorkerTemplate].
    single_lines. }
  assert (H3 : forallb singleLine A3 = true) by reflexivity.
  assert (H4 : forallb singleLine A4 = true).
  { subst A4 T. cbv beta iota zeta delta [skipn forallb serviceWorkerTemplate].
    single_lines. }
  rewrite E.
  rewrite (lines_unlines_segment A1 c11 _ H1) by (symmetry; apply app_cons_not_nil).
  rewrite (lines_unlines_segment A2 c52 _ H2) by (symmetry; apply app_cons_not_nil).
  rewrite (lines_unlines_segment A3 c55 _ H3) by (subst A4 T; discriminate).
  rewrite (lines_unlines_all A4 ltac:(subst A4 T; discriminate) H4).
  reflexivity.
Qed.

Lemma countIn_app l a b : countIn l (a ++ b) = countIn l a + countIn l b.
Proof. unfold countIn. now rewrite filter_app, length_app. Qed.

Lemma countIn_present l ls : In l ls -> countIn l ls <> 0.
Proof.
  intros H. unfold countIn.
  assert (Hin : In l (filter (String.eqb l) ls))
    by (apply filter_In; split; [exact H|apply String.eqb_refl]).
  destruct (filter (String.eqb l) ls); [contradiction|discriminate].
Qed.

(** The lines of the precache list all start with two spaces and a quote. *)
Lemma jsonItemLines_start us :
  Forall (fun x => startsWith ("  " ++ dquote) x = true) (jsonItemLines us).
Proof.
  induction us as [|u us IH]; [constructor|].
  destruct us as [|v us].
  - constructor; [|constructor]. unfold jsonQuote.
    rewrite <- sapp_assoc. apply startsWith_app.
  - change (jsonItemLines (u :: v :: us))
      with (("  " ++ jsonQuote u ++ ",") :: jsonItemLines (v :: us)).
    constructor; [|exact IH]. unfold jsonQuote.
    rewrite sapp_assoc, <- (sapp_assoc "  " dquote). apply startsWith_app.
Qed.

Lemma countIn_jsonItemLines l us :
  startsWith ("  " ++ dquote) l = false -> countIn l (jsonItemLines us) = 0.
Proof.
  intros Hl. unfold countIn.
  induction (jsonItemLines_start us) as [|x xs Hx _ IH]; [reflexivity|].
  simpl. destruct (String.eqb l x) eqn:E; [|exact IH].
  apply String.eqb_eq in E. subst x. congruence.
Qed.

Lemma urlsToCacheOf_push (f : Info.t -> string) files : forall init,
  fold_left (fun (urls : list string) file => (urls ++ [f file])%list) files init
  = (init ++ map f files)%list.
Proof.
  induction files as [|x files IH]; intros init; simpl.
  - now rewrite app_nil_r.
  - now rewrite IH, <- app_assoc.
Qed.

Lemma urlsToCacheOf_eq config allFiles :
  urlsToCacheOf config allFiles =
  (Config.startUrl config
     :: (Config.startUrl config ++ "index.html")%string
     :: (Config.startUrl config ++ "manifest.json")%string
     :: map (fun file => (Config.startUrl config ++ Info.path file)%string) allFiles
     ++ (if Config.enableOffline config
         then [ (Config.startUrl config ++ "offline.html")%string ] else []))%list.
Proof.
  unfold urlsToCacheOf. rewrite urlsToCacheOf_push.
  destruct (Config.enableOffline config).
  - reflexivity.
  - now rewrite app_nil_r.
Qed.

(** Counting a line that is no entry of the precache list. *)
Lemma countLines_serviceWorker m config allFiles :
  singleLine (Config.name config) = true ->
  singleLine (Config.cacheStrategy config) = true ->
  singleLine (Config.folderName config) = true ->
  singleLine (Config.startUrl config) = true ->
  singleLine (Config.scope config) = true ->
  startsWith ("  " ++ dquote) m = false ->
  let T := serviceWorkerTemplate config allFiles in
  countLines m (generateServiceWorker config allFiles) =
  countIn m (firstn 11 T) + (countIn m ["const urlsToCache = ["; "];"]
  + (countIn m (firstn 40 (skipn 12 T)) + (countIn m (lines (nth 52 T ""))
  + (countIn m (firstn 2 (skipn 53 T))
  + (countIn m (if Config.enableNotifications config
                then notificationTemplate config else [""])
  + countIn m (skipn 56 T)))))).
Proof.
  intros Hn Hk Hf Hs Hc Hm T. unfold countLines.
  rewrite (lines_generateServiceWorker config allFiles Hn Hk Hf Hs Hc). fold T.
  replace (lines (nth 55 T ""))
    with (if Config.enableNotifications config
          then notificationTemplate config else [""]).
  2:{ change (nth 55 T "")
        with (if Config.enableNotifications config
              then generateNotificationHandlers config else EmptyString).
      destruct (Config.enableNotifications config); [|reflexivity].
      symmetry. now apply lines_notificationHandlers. }
  rewrite !countIn_app. f_equal.
  change (nth 11 T "")
    with ("const urlsToCache = "
            ++ stringify EmptyString (JArray (map JString (urlsToCacheOf config allFiles)))
            ++ ";").
  rewrite urlsToCacheOf_eq, lines_urlsToCache_chunk.
  match goal with |- countIn m (_ :: ?items ++ _) + _ = _ =>
    change (countIn m ("const urlsToCache = [" :: items ++ ["];"]) )
      with (countIn m (["const urlsToCache = ["] ++ items ++ ["];"])) end.
  rewrite !countIn_app, (countIn_jsonItemLines m _ Hm).
  change ["const urlsToCache = ["; "];"]
    with (["const urlsToCache = ["] ++ ["];"])%list.
  rewrite countIn_app. lia.
Qed.

(** ** The strategy in the service worker *)

Lemma strategy_marker_line key generator marker config :
  In (key, generator) strategyGenerators ->
  assoc key strategyMarkers = Some marker ->
  singleLine marker = true /\
  exists p q, generator config = p ++ newline ++ marker ++ newline ++ q.
Proof.
  intros Hin Hm. simpl in Hin.
  destruct Hin as [H|[H|[H|[]]]]; inversion H; subst key generator;
    inversion Hm; subst marker; (split; [reflexivity|]).
  - exists (unlines (firstn 6 (cacheFirstTemplate config))),
           (unlines (skipn 7 (cacheFirstTemplate config))).
    vm_compute. reflexivity.
  - exists (unlines (firstn 6 (networkFirstTemplate config))),
           (unlines (skipn 7 (networkFirstTemplate config))).
    vm_compute. reflexivity.
  - exists (unlines (firstn 6 (staleWhileRevalidateTemplate config))),
           (unlines (skipn 7 (staleWhileRevalidateTemplate config))).
    vm_compute. reflexivity.
Qed.

Lemma strategy_slot config allFiles :
  exists a b,
    generateServiceWorker config allFiles =
    a ++ lookupStrategy (Config.cacheStrategy config) (cacheStrategies config) ++ b.
Proof.
  set (T := serviceWorkerTemplate config allFiles).
  exists (unlines (firstn 52 T) ++ newline ++ "    "), (newline ++ unlines (skipn 53 T)).
  unfold generateServiceWorker. fold T.
  assert (E : T = (firstn 52 T ++ nth 52 T "" :: skipn 53 T)%list) by reflexivity.
  rewrite E at 1. rewrite unlines_app_cons by discriminate.
  change (nth 52 T "")
    with ("    " ++ lookupStrategy (Config.cacheStrategy config) (cacheStrategies config)).
  destruct (firstn 52 T) eqn:F; [discriminate F|].
  now rewrite !sapp_assoc.
Qed.

Lemma strategyMarkers_inv key marker :
  assoc key strategyMarkers = Some marker ->
  (key = "cache-first" /\ marker = "        caches.match(event.request)") \/
  (key = "network-first" /\ marker = "        fetch(event.request)") \/
  (key = "stale-while-revalidate" /\
   marker = "        caches.match(event.request).then(cachedResponse => {").
Proof.
  unfold strategyMarkers. cbn [assoc].
  destruct (String.eqb "cache-first" key) eqn:E1;
    [apply String.eqb_eq in E1; intros H; inversion H; auto|].
  destruct (String.eqb "network-first" key) eqn:E2;
    [apply String.eqb_eq in E2; intros H; inversion H; auto|].
  destruct (String.eqb "stale-while-revalidate" key) eqn:E3;
    [apply String.eqb_eq in E3; intros H; inversion H; auto 6|].
  discriminate.
Qed.

Lemma countLines_strategy_lines key generator config allFiles :
  In (key, generator) strategyGenerators ->
  Config.cacheStrategy config = key ->
  singleLine (Config.name config) = true ->
  singleLine (Config.folderName config) = true ->
  singleLine (Config.startUrl config) = true ->
  singleLine (Config.scope config) = true ->
  countLines fetchListenerLine (generateServiceWorker config allFiles) = 1 /\
  (forall key' marker', assoc key' strategyMarkers = Some marker' ->
     countLines marker' (generateServiceWorker config allFiles)
     = if String.eqb key' key then 1 else 0).
Proof.
  intros Hin Hkey Hn Hf Hs Hc.
  assert (Hk : singleLine (Config.cacheStrategy config) = true).
  { rewrite Hkey. simpl in Hin.
    destruct Hin as [H|[H|[H|[]]]]; inversion H; reflexivity. }
  destruct config as [name shortName appId folderName description themeColor
                        backgroundColor startUrl scope display orientation
                        cacheStrategy enableOffline enableNotifications].
  cbn [Config.name Config.cacheStrategy Config.folderName Config.startUrl Config.scope] in *.
  subst cacheStrategy.
  split.
  - rewrite countLines_serviceWorker by (assumption || reflexivity).
    simpl in Hin.
    destruct Hin as [H|[H|[H|[]]]]; inversion H; subst key generator;
      destruct enableOffline, enableNotifications; vm_compute; reflexivity.
  - intros key' marker' Hm.
    apply strategyMarkers_inv in Hm.
    simpl in Hin.
    destruct Hin as [H|[H|[H|[]]]]; inversion H; subst key generator;
      destruct Hm as [[-> ->]|[[-> ->]|[-> ->]]];
      (rewrite countLines_serviceWorker by (assumption || reflexivity));
      destruct enableOffline, enableNotifications; vm_compute; reflexivity.
Qed.

Lemma strategyGenerators_marker key generator :
  In (key, generator) strategyGenerators ->
  exists marker, assoc key strategyMarkers = Some marker.
Proof.
  simpl. intros [H|[H|[H|[]]]]; inversion H; eexists; reflexivity.
Qed.

Lemma strategyGenerators_lookup key generator config :
  In (key, generator) strategyGenerators ->
  lookupStrategy key (cacheStrategies config) = generator config.
Proof.
  simpl. intros [H|[H|[H|[]]]]; inversion H; reflexivity.
Qed.


(** ** C2 *)

(** The text of an array of strings tells the strings. *)
Lemma join_quoted_inj us : forall vs r1 r2,
  join ("," ++ newline ++ "  ") (map jsonQuote us) ++ newline ++ r1
  = join ("," ++ newline ++ "  ") (map jsonQuote vs) ++ newline ++ r2 ->
  us <> [] -> vs <> [] -> us = vs.
Proof.
  induction us as [|u us IH]; intros vs r1 r2 H Hu Hv; [contradiction|].
  destruct vs as [|v vs]; [contradiction|].
  destruct us as [|u' us]; destruct vs as [|v' vs].
  - change (jsonQuote u ++ newline ++ r1 = jsonQuote v ++ newline ++ r2) in H.
    apply jsonQuote_prefix_free in H as [-> _]. reflexivity.
  - exfalso.
    change (jsonQuote u ++ newline ++ r1
            = (jsonQuote v ++ ("," ++ newline ++ "  ")
                 ++ join ("," ++ newline ++ "  ") (map jsonQuote (v' :: vs)))
                ++ newline ++ r2) in H.
    rewrite !sapp_assoc in H.
    apply jsonQuote_prefix_free in H as [_ H]. discriminate H.
  - exfalso.
    change ((jsonQuote u ++ ("," ++ newline ++ "  ")
               ++ join ("," ++ newline ++ "  ") (map jsonQuote (u' :: us)))
              ++ newline ++ r1
            = jsonQuote v ++ newline ++ r2) in H.
    rewrite !sapp_assoc in H.
    apply jsonQuote_prefix_free in H as [_ H]. discriminate H.
  - change ((jsonQuote u ++ ("," ++ newline ++ "  ")
               ++ join ("," ++ newline ++ "  ") (map jsonQuote (u' :: us)))
              ++ newline ++ r1
            = (jsonQuote v ++ ("," ++ newline ++ "  ")
                 ++ join ("," ++ newline ++ "  ") (map jsonQuote (v' :: vs)))
                ++ newline ++ r2) in H.
    rewrite !sapp_assoc in H.
    apply jsonQuote_prefix_free in H as [-> H].
    apply (sapp_inv_head ("," ++ newline ++ "  ")) in H.
    f_equal. apply (IH (v' :: vs) r1 r2 H); discriminate.
Qed.

Lemma stringify_strings_inj us vs :
  stringify "" (JArray (map JString us)) = stringify "" (JArray (map JString vs)) ->
  us = vs.
Proof.
  destruct us as [|u us]; destruct vs as [|v vs]; intros H;
    [reflexivity|discriminate H|discriminate H|].
  cbn [map] in H. rewrite !stringify_array_cons in H.
  change (JString u :: map JString us) with (map JString (u :: us)) in H.
  change (JString v :: map JString vs) with (map JString (v :: vs)) in H.
  rewrite !map_stringify_strings in H.
  apply (sapp_inv_head "[") in H. apply (sapp_inv_head newline) in H.
  apply (sapp_inv_head ("" ++ "  ")) in H.
  apply (join_quoted_inj _ _ _ _ H); discriminate.
Qed.

Lemma length_jsonItemLines us : length (jsonItemLines us) = length us.
Proof.
  induction us as [|u us IH]; [reflexivity|].
  destruct us as [|v us]; [reflexivity|].
  change (jsonItemLines (u :: v :: us))
    with (("  " ++ jsonQuote u ++ ",") :: jsonItemLines (v :: us)).
  cbn [length]. now rewrite IH.
Qed.

Lemma lookupStrategy_cases key config :
  lookupStrategy key (cacheStrategies config) = generateCacheFirstStrategy config \/
  lookupStrategy key (cacheStrategies config) = generateNetworkFirstStrategy config \/
  lookupStrategy key (cacheStrategies config)
  = generateStaleWhileRevalidateStrategy config \/
  lookupStrategy key (cacheStrategies config) = "undefined".
Proof.
  unfold lookupStrategy, cacheStrategies. cbn [assoc].
  destruct (String.eqb "cache-first" key); [auto|].
  destruct (String.eqb "network-first" key); [auto|].
  destruct (String.eqb "stale-while-revalidate" key); auto.
Qed.

(** C2.  For every configuration and file list, the precache list is the
    start URL, then start URL + [index.html], then start URL +
    [manifest.json], then start URL + path for every file in input order,
    then start URL + [offline.html] exactly when enableOffline is set.
    The text that generateServiceWorker returns holds, on lines of its
    own, the declaration [const urlsToCache = ...;] with the JSON text of
    exactly this list: no other list has the same JSON text.  When the
    name, the strategy key, the folder name, the start URL and the scope
    are single-line form values, the declaration starts at line 12 of the
    service worker, one quoted entry on each line, and the service worker
    has no other line that opens it.  For a folder whose only file is
    [index.html] (offline support off) the list has four entries, the root
    document twice. *)
Theorem generateServiceWorker_precache_list (config : Config.t) (allFiles : list Info.t) :
  let s := Config.startUrl config in
  let urls := urlsToCacheOf config allFiles in
  let sw := generateServiceWorker config allFiles in
  let declaration :=
    "const urlsToCache = " ++ stringify EmptyString (JArray (map JString urls)) ++ ";" in
  urls = ([ s; (s ++ "index.html")%string; (s ++ "manifest.json")%string ]
            ++ map (fun file => (s ++ Info.path file)%string) allFiles
            ++ (if Config.enableOffline config
                then [ (s ++ "offline.html")%string ] else []))%list /\
  nth_error (serviceWorkerTemplate config allFiles) 11 = Some declaration /\
  (exists before after, sw = before ++ newline ++ declaration ++ newline ++ after) /\
  (forall other,
     stringify EmptyString (JArray (map JString other))
     = stringify EmptyString (JArray (map JString urls)) -> other = urls) /\
  lines declaration = ("const urlsToCache = [" :: jsonItemLines urls ++ ["];"])%list /\
  (singleLine (Config.name config) = true ->
   singleLine (Config.cacheStrategy config) = true ->
   singleLine (Config.folderName config) = true ->
   singleLine (Config.startUrl config) = true ->
   singleLine (Config.scope config) = true ->
   firstn (length urls + 2) (skipn 11 (lines sw))
   = ("const urlsToCache = [" :: jsonItemLines urls ++ ["];"])%list /\
   countLines "const urlsToCache = [" sw = 1) /\
  (forall file,
     allFiles = [file] -> Info.path file = "index.html" ->
     Config.enableOffline config = false ->
     urls = [ s; s ++ "index.html"; s ++ "manifest.json"; s ++ "index.html" ]).
Proof.
  intros s urls sw declaration. subst s.
  assert (Hlines : lines declaration
                   = ("const urlsToCache = [" :: jsonItemLines urls ++ ["];"])%list).
  { subst declaration urls. rewrite urlsToCacheOf_eq. apply lines_urlsToCache_chunk. }
  split; [apply urlsToCacheOf_eq|].
  split; [reflexivity|].
  split.
  { subst sw. unfold generateServiceWorker.
    set (T := serviceWorkerTemplate config allFiles).
    exists (unlines (firstn 11 T)), (unlines (skipn 12 T)).
    assert (E : T = (firstn 11 T ++ declaration :: skipn 12 T)%list) by reflexivity.
    rewrite E at 1.
    rewrite unlines_app_cons by discriminate.
    destruct (firstn 11 T) eqn:F; [discriminate F|].
    rewrite ?sapp_assoc. reflexivity. }
  split; [intros other; apply stringify_strings_inj|].
  split; [exact Hlines|].
  split.
  { intros Hn Hk Hf Hs Hc. split.
    - subst sw. rewrite (lines_generateServiceWorker config allFiles Hn Hk Hf Hs Hc).
      cbv zeta.
      set (T := serviceWorkerTemplate config allFiles).
      change (nth 11 T "") with declaration. rewrite Hlines.
      set (rest := (firstn 40 (skipn 12 T) ++ lines (nth 52 T "")
                      ++ firstn 2 (skipn 53 T) ++ lines (nth 55 T "") ++ skipn 56 T)%list).
      set (chunk := ("const urlsToCache = [" :: jsonItemLines urls ++ ["];"])%list).
      assert (L11 : length (firstn 11 T) = 11) by reflexivity.
      assert (Lc : length chunk = length urls + 2).
      { subst chunk. cbn [length]. rewrite length_app, length_jsonItemLines.
        cbn [length]. lia. }
      rewrite skipn_app, L11, Nat.sub_diag.
      rewrite (skipn_all2 (firstn 11 T)) by (rewrite L11; apply le_n).
      change ([] ++ skipn 0 (chunk ++ rest))%list with (chunk ++ rest)%list.
      rewrite firstn_app, Lc, Nat.sub_diag.
      change (firstn 0 rest) with (@nil string).
      rewrite app_nil_r, <- Lc. apply firstn_all.
    - subst sw. rewrite countLines_serviceWorker by (assumption || reflexivity).
      cbv zeta.
      change (nth 52 (serviceWorkerTemplate config allFiles) "")
        with ("    " ++ lookupStrategy (Config.cacheStrategy config) (cacheStrategies config)).
      destruct (lookupStrategy_cases (Config.cacheStrategy config) config)
        as [E|[E|[E|E]]]; rewrite E; clear;
        destruct config as [name shortName appId folderName description themeColor
                              backgroundColor startUrl scope display orientation
                              cacheStrategy enableOffline enableNotifications];
        destruct enableOffline, enableNotifications; vm_compute; reflexivity. }
  intros file -> Hpath Hoff. subst urls. rewrite urlsToCacheOf_eq, Hoff. simpl.
  now rewrite Hpath.
Qed.

Example precache_demo_lines :
  firstn 6 (skipn 11 (lines (generateServiceWorker demoConfig demoFiles))) =
  [ "const urlsToCache = [";
    "  " ++ dquote ++ "/demo/" ++ dquote ++ ",";
    "  " ++ dquote ++ "/demo/index.html" ++ dquote ++ ",";
    "  " ++ dquote ++ "/demo/manifest.json" ++ dquote ++ ",";
    "  " ++ dquote ++ "/demo/index.html" ++ dquote;
    "];" ].
Proof. reflexivity. Qed.

(** ** C9 *)

(** C9.  For every configuration, line 9 of the template is
    [const CACHE_NAME = '<folder name>-v1';]: the cache name is the
    configuration's (sanitized) folder name followed by [-v1], so two runs
    with the same folder name give the same line; and when the name, the
    strategy key and the folder name are single-line form values it is
    line 9 of the service-worker text. *)
Theorem generateServiceWorker_cache_name (config : Config.t) (allFiles : list Info.t) :
  cacheNameOf config = Config.folderName config ++ "-v1" /\
  nth_error (serviceWorkerTemplate config allFiles) 8
  = Some ("const CACHE_NAME = '" ++ Config.folderName config ++ "-v1" ++ "';") /\
  (forall config' allFiles',
     Config.folderName config' = Config.folderName config ->
     nth_error (serviceWorkerTemplate config' allFiles') 8
     = nth_error (serviceWorkerTemplate config allFiles) 8) /\
  (forall folder,
     Config.folderName config = sanitizeFolderName folder ->
     cacheNameOf config = sanitizeFolderName folder ++ "-v1") /\
  (singleLine (Config.name config) = true ->
   singleLine (Config.cacheStrategy config) = true ->
   singleLine (Config.folderName config) = true ->
   nth_error (lines (generateServiceWorker config allFiles)) 8
   = Some ("const CACHE_NAME = '" ++ Config.folderName config ++ "-v1" ++ "';")).
Proof.
  split; [reflexivity|].
  split; [unfold serviceWorkerTemplate, cacheNameOf; simpl; now rewrite sapp_assoc|].
  split.
  { intros config' allFiles' H.
    unfold serviceWorkerTemplate, cacheNameOf. simpl. now rewrite H. }
  split; [intros folder H; unfold cacheNameOf; now rewrite H|].
  intros Hn Hk Hf.
  unfold generateServiceWorker.
  set (T := serviceWorkerTemplate config allFiles).
  assert (E : T = (firstn 9 T ++ nth 9 T "" :: skipn 10 T)%list) by reflexivity.
  rewrite E.
  rewrite lines_unlines_segment; [| |discriminate].
  - subst T. unfold serviceWorkerTemplate, cacheNameOf. simpl.
    now rewrite sapp_assoc.
  - subst T. cbv beta iota zeta delta [firstn forallb serviceWorkerTemplate cacheNameOf].
    single_lines.
Qed.

(** ** The first match of a pattern *)

Lemma toLowerCase_app a b : toLowerCase (a ++ b) = toLowerCase a ++ toLowerCase b.
Proof.
  unfold toLowerCase.
  induction a as [|c a IH]; simpl; [reflexivity|now rewrite IH].
Qed.

Lemma toLowerCase_cons c s : toLowerCase (String c s) = String (lowerChar c) (toLowerCase s).
Proof. reflexivity. Qed.

Lemma take_drop n s : take n s ++ drop n s = s.
Proof.
  revert s. induction n as [|n IH]; intros [|c s]; simpl; try reflexivity.
  now rewrite IH.
Qed.

Lemma toLowerCase_take n s : toLowerCase (take n s) = take n (toLowerCase s).
Proof.
  unfold toLowerCase.
  revert s. induction n as [|n IH]; intros [|c s]; simpl; try reflexivity.
  now rewrite IH.
Qed.

Lemma startsWith_take p t : startsWith p t = true -> take (String.length p) t = p.
Proof.
  revert t. induction p as [|a p IH]; intros [|c t] H; simpl in *; try reflexivity;
    try discriminate.
  apply andb_true_iff in H as [Hc Hp]. apply Ascii.eqb_eq in Hc. subst c.
  now rewrite (IH t Hp).
Qed.

Lemma sapp_eq_app (x1 x2 y1 y2 : string) :
  x1 ++ x2 = y1 ++ y2 ->
  exists l, (x1 = y1 ++ l /\ y2 = l ++ x2) \/ (y1 = x1 ++ l /\ x2 = l ++ y2).
Proof.
  revert y1. induction x1 as [|c x1 IH]; intros y1 H.
  - exists y1. right. split; [reflexivity|exact H].
  - destruct y1 as [|d y1].
    + exists (String c x1). left. split; [reflexivity|symmetry; exact H].
    + simpl in H. inversion H; subst d.
      destruct (IH y1 H2) as [l [[-> ->]|[-> ->]]]; exists l; [left|right]; auto.
Qed.

(** A prefix of a concatenation lies in the first part, or covers it. *)
Lemma startsWith_app_inv p x y :
  startsWith p (x ++ y) = true ->
  startsWith p x = true \/
  exists p2, p = x ++ p2 /\ p2 <> "" /\ startsWith p2 y = true.
Proof.
  revert x. induction p as [|a p IH]; intros x H; [left; reflexivity|].
  destruct x as [|c x].
  - right. exists (String a p). repeat split; [discriminate|exact H].
  - simpl in H. apply andb_true_iff in H as [Hc Hp].
    apply Ascii.eqb_eq in Hc. subst c.
    destruct (IH x Hp) as [Hx|(p2 & -> & Hne & Hy)].
    + left. simpl. now rewrite Ascii.eqb_refl.
    + right. exists p2. auto.
Qed.

Lemma startsWith_app_l p x y : startsWith p x = true -> startsWith p (x ++ y) = true.
Proof.
  revert x. induction p as [|a p IH]; intros [|c x] H; simpl in *; try reflexivity;
    try discriminate.
  apply andb_true_iff in H as [Hc Hp]. now rewrite Hc, (IH x Hp).
Qed.

Lemma clash_startsWith p t y : clash p t = true -> startsWith p (t ++ y) = false.
Proof.
  revert t. induction p as [|a p IH]; intros [|c t] H; simpl in *; try discriminate.
  destruct (Ascii.eqb a c); [|reflexivity]. simpl. auto.
Qed.

Lemma searchCI_cons pat c r :
  searchCI pat (String c r) =
  if startsWith pat (toLowerCase (String c r))
  then Some (EmptyString, take (String.length pat) (String c r),
             drop (String.length pat) (String c r))
  else match searchCI pat r with
       | Some (before, matched, after) => Some (String c before, matched, after)
       | None => None
       end.
Proof. reflexivity. Qed.

Lemma searchCI_here pat s :
  startsWith pat (toLowerCase s) = true ->
  searchCI pat s = Some (EmptyString, take (String.length pat) s, drop (String.length pat) s).
Proof. intros H. destruct s; simpl; now rewrite H. Qed.

Lemma searchCI_sound pat s b m a :
  searchCI pat s = Some (b, m, a) -> s = b ++ m ++ a /\ toLowerCase m = pat.
Proof.
  revert b. induction s as [|c s IH]; intros b H.
  - destruct pat; simpl in H; [inversion H; subst; auto|discriminate].
  - rewrite searchCI_cons in H.
    destruct (startsWith pat (toLowerCase (String c s))) eqn:E.
    + inversion H; subst. split; [symmetry; apply take_drop|].
      rewrite toLowerCase_take. now apply startsWith_take.
    + destruct (searchCI pat s) as [[[b' m'] a']|]; [|discriminate].
      inversion H; subst. destruct (IH b' eq_refl) as [-> Hm]. auto.
Qed.

Lemma searchCI_includes pat s :
  pat <> "" -> isSome (searchCI pat s) = includes pat (toLowerCase s).
Proof.
  intros Hp. induction s as [|c s IH].
  - simpl. destruct pat; [contradiction|reflexivity].
  - rewrite searchCI_cons.
    change (toLowerCase (String c s)) with (String (lowerChar c) (toLowerCase s)).
    rewrite includes_cons, <- IH.
    destruct (startsWith pat (String (lowerChar c) (toLowerCase s))); [reflexivity|].
    now destruct (searchCI pat s) as [[[? ?] ?]|].
Qed.

Lemma matchFree_nil p y : matchFree p "" y.
Proof.
  intros u1 u2 E Hne. destruct u1; [|discriminate].
  simpl in E. congruence.
Qed.

Lemma matchFree_cons p c u y :
  matchFree p (String c u) y <->
  startsWith p (toLowerCase (String c u ++ y)) = false /\ matchFree p u y.
Proof.
  split.
  - intros H. split.
    + apply (H "" (String c u)); [reflexivity|discriminate].
    + intros u1 u2 E Hne. apply (H (String c u1) u2); [now rewrite E|exact Hne].
  - intros [H0 H] u1 u2 E Hne. destruct u1 as [|d u1].
    + simpl in E. now subst u2.
    + simpl in E. inversion E; subst. now apply (H u1 u2).
Qed.

Lemma matchFree_app p u v y :
  matchFree p u (v ++ y) -> matchFree p v y -> matchFree p (u ++ v) y.
Proof.
  induction u as [|c u IH]; intros Hu Hv; [exact Hv|].
  apply matchFree_cons in Hu as [H0 Hu].
  change (String c u ++ v) with (String c (u ++ v)).
  apply matchFree_cons. split; [|now apply IH].
  change (String c (u ++ v) ++ y) with (String c ((u ++ v) ++ y)).
  rewrite sapp_assoc. exact H0.
Qed.

Lemma matchFree_app_inv p u v y :
  matchFree p (u ++ v) y -> matchFree p u (v ++ y) /\ matchFree p v y.
Proof.
  induction u as [|c u IH]; intros H.
  - split; [apply matchFree_nil|exact H].
  - change (String c u ++ v) with (String c (u ++ v)) in H.
    apply matchFree_cons in H as [H0 H]. destruct (IH H) as [Hu Hv].
    split; [|exact Hv]. apply matchFree_cons. split; [|exact Hu].
    change (String c (u ++ v) ++ y) with (String c ((u ++ v) ++ y)) in H0.
    rewrite sapp_assoc in H0. exact H0.
Qed.

Lemma searchCI_skip p u y :
  matchFree p u y ->
  searchCI p (u ++ y) =
  match searchCI p y with
  | Some (b, m, a) => Some (u ++ b, m, a)
  | None => None
  end.
Proof.
  induction u as [|c u IH]; intros H.
  - simpl. now destruct (searchCI p y) as [[[? ?] ?]|].
  - apply matchFree_cons in H as [H0 H].
    change (String c u ++ y) with (String c (u ++ y)) in *.
    rewrite searchCI_cons, H0, (IH H).
    now destruct (searchCI p y) as [[[? ?] ?]|].
Qed.

Lemma searchCI_first p s b m a :
  searchCI p s = Some (b, m, a) -> matchFree p b (m ++ a).
Proof.
  revert b. induction s as [|c s IH]; intros b H.
  - destruct p; simpl in H; [inversion H; apply matchFree_nil|discriminate].
  - rewrite searchCI_cons in H.
    destruct (startsWith p (toLowerCase (String c s))) eqn:E.
    + inversion H. apply matchFree_nil.
    + destruct (searchCI p s) as [[[b' m'] a']|] eqn:Es; [|discriminate].
      inversion H; subst. apply matchFree_cons. split; [|now apply IH].
      apply searchCI_sound in Es as [-> _]. exact E.
Qed.

Lemma includes_false_matchFree p s :
  p <> "" -> (includes p (toLowerCase s) = false <-> matchFree p s "").
Proof.
  intros Hp. induction s as [|c s IH].
  - split; [intros _; apply matchFree_nil|].
    intros _. destruct p; [contradiction|reflexivity].
  - rewrite toLowerCase_cons, includes_cons, matchFree_cons, orb_false_iff, IH.
    now rewrite sapp_nil_r, toLowerCase_cons.
Qed.

Lemma startFreeb_ok p u : startFreeb p u = true -> startFree p u.
Proof.
  induction u as [|c u IH]; intros H y; [apply matchFree_nil|].
  simpl in H. apply andb_true_iff in H as [Hc Hu].
  apply matchFree_cons. split; [|now apply IH].
  rewrite toLowerCase_app. now apply clash_startsWith.
Qed.

Lemma startFree_app p u v : startFree p u -> startFree p v -> startFree p (u ++ v).
Proof. intros Hu Hv y. apply matchFree_app; [apply Hu|apply Hv]. Qed.

Lemma lowerChar_not_lt c :
  Ascii.eqb c "<" = false -> Ascii.eqb "<" (lowerChar c) = false.
Proof. destruct c as [[] [] [] [] [] [] [] []]; intros H; try reflexivity; discriminate H. Qed.

Lemma plain_cons c v :
  plain (String c v) = true ->
  Ascii.eqb c "$" = false /\ Ascii.eqb c "<" = false /\ plain v = true.
Proof.
  unfold plain. simpl. intros H.
  apply andb_true_iff in H as [H1 H2]. apply andb_true_iff in H1 as [Hd Hl].
  apply negb_true_iff in Hd, Hl. auto.
Qed.

Lemma startFree_plain p' v : plain v = true -> startFree (String "<" p') v.
Proof.
  induction v as [|c v IH]; intros H y; [apply matchFree_nil|].
  apply plain_cons in H as (_ & Hl & Hv).
  apply matchFree_cons. split; [|now apply IH].
  simpl. now rewrite (lowerChar_not_lt c Hl).
Qed.

(** If the text after [b] changes to one that starts with a character the
    pattern does not have, matches still cannot start inside [b]. *)
Lemma matchFree_retail p b y c r :
  matchFree p b y ->
  string_forallb (fun a => negb (Ascii.eqb a (lowerChar c))) p = true ->
  matchFree p b (String c r).
Proof.
  intros Hb Hc u1 u2 E Hne.
  destruct (startsWith p (toLowerCase (u2 ++ String c r))) eqn:S; [exfalso|reflexivity].
  rewrite toLowerCase_app in S.
  apply startsWith_app_inv in S as [S|(p2 & Hp & Hp2 & S2)].
  - specialize (Hb u1 u2 E Hne). rewrite toLowerCase_app in Hb.
    now rewrite (startsWith_app_l _ _ _ S) in Hb.
  - destruct p2 as [|a p2]; [contradiction|].
    rewrite toLowerCase_cons in S2. simpl in S2.
    apply andb_true_iff in S2 as [Ha _]. subst p.
    rewrite string_forallb_app in Hc. apply andb_true_iff in Hc as [_ Hc].
    simpl in Hc. rewrite Ha in Hc. discriminate.
Qed.

(** ** Replacement texts that are copied as they stand *)

Lemma getSubstitution_cons m b a c r :
  getSubstitution m b a (String c r) =
  if Ascii.eqb c "$" then
    match r with
    | EmptyString => String c EmptyString
    | String d r' =>
        if Ascii.eqb d "$" then String d (getSubstitution m b a r')
        else if Ascii.eqb d "&" then m ++ getSubstitution m b a r'
        else if Ascii.eqb d "`" then b ++ getSubstitution m b a r'
        else if Ascii.eqb d "'" then a ++ getSubstitution m b a r'
        else String c (getSubstitution m b a r)
    end
  else String c (getSubstitution m b a r).
Proof. reflexivity. Qed.

Lemma substSafeb_ok u : substSafeb u = true -> substSafe u.
Proof.
  induction u as [|c u IH]; intros H m b a y Hy; [exact Hy|].
  change (String c u ++ y) with (String c (u ++ y)).
  rewrite getSubstitution_cons. simpl in H.
  destruct (Ascii.eqb c "$").
  - destruct u as [|d u]; [discriminate|].
    apply andb_true_iff in H as [Hd Hu].
    apply negb_true_iff in Hd.
    apply orb_false_iff in Hd as [Hd H4]. apply orb_false_iff in Hd as [Hd H3].
    apply orb_false_iff in Hd as [H1 H2].
    change (String d u ++ y) with (String d (u ++ y)).
    cbv iota. rewrite H1, H2, H3, H4.
    change (String d (u ++ y)) with (String d u ++ y).
    now rewrite (IH Hu m b a y Hy).
  - now rewrite (IH H m b a y Hy).
Qed.

Lemma substSafe_app u v : substSafe u -> substSafe v -> substSafe (u ++ v).
Proof.
  intros Hu Hv m b a y Hy. rewrite sapp_assoc.
  apply Hu. now apply Hv.
Qed.

Lemma plain_substSafeb v : plain v = true -> substSafeb v = true.
Proof.
  induction v as [|c v IH]; intros H; [reflexivity|].
  apply plain_cons in H as (Hd & _ & Hv). simpl. rewrite Hd. auto.
Qed.

Lemma substSafe_plain v : plain v = true -> substSafe v.
Proof. intros H. now apply substSafeb_ok, plain_substSafeb. Qed.

Lemma substSafe_id u m b a : substSafe u -> getSubstitution m b a u = u.
Proof.
  intros H. specialize (H m b a "" eq_refl). now rewrite sapp_nil_r in H.
Qed.

(** ** What an insertion keeps and what it cannot create *)

Lemma clash_neq s t y z : clash s t = true -> s ++ y = t ++ z -> False.
Proof.
  revert t. induction s as [|a s IH]; intros [|c t] H E; simpl in *; try discriminate.
  inversion E; subst c. rewrite Ascii.eqb_refl in H. eauto.
Qed.

Lemma clashSuffixes_at n pat l l2 :
  clashSuffixes n pat = true -> pat = l ++ l2 -> l2 <> "" -> clash n l2 = true.
Proof.
  revert pat. induction l as [|c l IH]; intros pat H E Hne.
  - simpl in E. subst pat. destruct l2; [contradiction|].
    simpl in H. now apply andb_true_iff in H.
  - subst pat. simpl in H. apply andb_true_iff in H as [_ H]. eauto.
Qed.

Lemma suffixesClash_at n pat l l2 :
  suffixesClash n pat = true -> n = l ++ l2 -> l2 <> "" -> clash l2 pat = true.
Proof.
  revert n. induction l as [|c l IH]; intros n H E Hne.
  - simpl in E. subst n. destruct l2; [contradiction|].
    simpl in H. now apply andb_true_iff in H.
  - subst n. simpl in H. apply andb_true_iff in H as [_ H]. eauto.
Qed.

Lemma includes_mid n x y z : includes n (x ++ y) = true -> includes n (x ++ y ++ z) = true.
Proof.
  intros H. apply includes_inv in H as (a & b & E).
  rewrite <- sapp_assoc, E, !sapp_assoc. apply includes_app.
Qed.

Lemma includes_right n x y : includes n y = true -> includes n (x ++ y) = true.
Proof.
  intros H. apply includes_inv in H as (a & b & ->).
  rewrite <- sapp_assoc. apply includes_app.
Qed.

Lemma includes_left n x y : includes n x = true -> includes n (x ++ y) = true.
Proof.
  intros H. apply includes_inv in H as (a & b & ->).
  rewrite !sapp_assoc. apply includes_app.
Qed.

(** An occurrence of [n] that cannot touch the replaced match [pat] is
    still there when [pat] gives way to any text [X]. *)
Lemma includes_keep n lb pat la X :
  noOverlap n pat = true ->
  includes n (lb ++ pat ++ la) = true ->
  includes n (lb ++ X ++ la) = true.
Proof.
  intros Hno H. unfold noOverlap in Hno. apply andb_true_iff in Hno as [Hcs Hsc].
  apply includes_inv in H as (x & y & E).
  apply sapp_eq_app in E as [l [[Hlb Hn]|[Hx Hp]]].
  - (* the occurrence starts inside [lb] *)
    symmetry in Hn. apply sapp_eq_app in Hn as [l2 [[Hl Hy]|[Hn Hp]]].
    + subst lb l. rewrite !sapp_assoc. apply includes_app.
    + destruct l2 as [|c l2].
      * rewrite sapp_nil_r in Hn. subst lb n. apply includes_left.
        rewrite <- (sapp_nil_r l) at 2. apply includes_app.
      * exfalso. apply (clash_neq (String c l2) pat y la); [|symmetry; exact Hp].
        apply (suffixesClash_at n pat l); [exact Hsc|exact Hn|discriminate].
  - (* the occurrence starts at or after the match *)
    apply sapp_eq_app in Hp as [l2 [[Hpat Hn]|[Hl Hla]]].
    + destruct l2 as [|c l2].
      * simpl in Hn. subst la.
        replace (lb ++ X ++ n ++ y) with ((lb ++ X) ++ n ++ y)
          by now rewrite !sapp_assoc.
        apply includes_app.
      * exfalso. apply (clash_neq n (String c l2) y la); [|exact Hn].
        apply (clashSuffixes_at n pat l); [exact Hcs|exact Hpat|discriminate].
    + subst la.
      replace (lb ++ X ++ l2 ++ n ++ y) with ((lb ++ X ++ l2) ++ n ++ y)
        by now rewrite !sapp_assoc.
      apply includes_app.
Qed.

(** A pattern absent from the document is absent after an insertion whose
    text it cannot start in and whose first character it does not have. *)
Lemma includes_nocreate p b m a c X :
  p <> "" ->
  includes p (toLowerCase (b ++ m ++ a)) = false ->
  startFree p (String c X) ->
  string_forallb (fun x => negb (Ascii.eqb x (lowerChar c))) p = true ->
  includes p (toLowerCase (b ++ String c X ++ a)) = false.
Proof.
  intros Hp H HX Hc.
  apply (includes_false_matchFree p _ Hp) in H.
  apply matchFree_app_inv in H as [Hb Hma].
  apply matchFree_app_inv in Hma as [_ Ha].
  apply (includes_false_matchFree p _ Hp).
  apply matchFree_app.
  - rewrite sapp_assoc. change (String c X ++ a ++ "") with (String c (X ++ a ++ "")).
    now apply (matchFree_retail p b _ c _ Hb).
  - apply matchFree_app; [apply HX|exact Ha].
Qed.

(** ** The steps of injectPWACode *)

Lemma replace_none pat X html :
  pat <> "" -> includes pat (toLowerCase html) = false -> replace pat X html = html.
Proof.
  intros Hp H. unfold replace. rewrite <- (searchCI_includes pat html Hp) in H.
  now destruct (searchCI pat html) as [[[? ?] ?]|].
Qed.

Lemma replace_some pat X html b m a :
  searchCI pat html = Some (b, m, a) -> substSafe X -> replace pat X html = b ++ X ++ a.
Proof.
  intros H HX. unfold replace. rewrite H. now rewrite (substSafe_id X m b a HX).
Qed.

Lemma includes_some pat html :
  pat <> "" -> includes pat (toLowerCase html) = true ->
  exists b m a, searchCI pat html = Some (b, m, a).
Proof.
  intros Hp H. rewrite <- (searchCI_includes pat html Hp) in H.
  destruct (searchCI pat html) as [[[b m] a]|]; [eauto|discriminate].
Qed.

(** Any replacement keeps an occurrence that cannot touch the match. *)
Lemma replace_keeps n pat X html :
  noOverlap n pat = true ->
  includes n (toLowerCase html) = true ->
  includes n (toLowerCase (replace pat X html)) = true.
Proof.
  intros Hno H. unfold replace.
  destruct (searchCI pat html) as [[[b m] a]|] eqn:E; [|exact H].
  apply searchCI_sound in E as [-> Hm].
  rewrite !toLowerCase_app in *. rewrite Hm in H.
  now apply (includes_keep n _ pat).
Qed.

Lemma guarded_keeps n needle pat X html :
  noOverlap n pat = true ->
  includes n (toLowerCase html) = true ->
  includes n (toLowerCase (guarded needle pat X html)) = true.
Proof.
  intros Hno H. unfold guarded.
  destruct (negb (includes needle (toLowerCase html))); [|exact H].
  now apply replace_keeps.
Qed.

Lemma settled_fix needle pat X html :
  pat <> "" -> settled needle pat html -> guarded needle pat X html = html.
Proof.
  intros Hp [H|H]; unfold guarded.
  - now rewrite H.
  - destruct (negb (includes needle (toLowerCase html))); [|reflexivity].
    now apply replace_none.
Qed.

Lemma guarded_settles needle pat X html :
  pat <> "" -> substSafe X -> includes needle (toLowerCase X) = true ->
  settled needle pat (guarded needle pat X html).
Proof.
  intros Hp HX Hn. unfold guarded.
  destruct (includes needle (toLowerCase html)) eqn:G; simpl; [now left|].
  destruct (includes pat (toLowerCase html)) eqn:P.
  - destruct (includes_some pat html Hp P) as (b & m & a & E).
    rewrite (replace_some pat X html b m a E HX). left.
    rewrite !toLowerCase_app. now apply includes_right, includes_left.
  - rewrite (replace_none pat X html Hp P). now right.
Qed.

(** A settled step stays settled when another tag is replaced. *)
Lemma settled_replace needle pat q Y html :
  pat <> "" -> q <> "" ->
  settled needle pat html ->
  noOverlap needle q = true ->
  pat = q \/ (startFree pat Y /\ firstCharNotIn pat Y = true) ->
  substSafe Y ->
  settled needle pat (replace q Y html).
Proof.
  intros Hp Hq Hs Hno Hpq HY.
  destruct (searchCI q html) as [[[b m] a]|] eqn:E.
  2:{ unfold replace. now rewrite E. }
  rewrite (replace_some q Y html b m a E HY).
  destruct Hs as [H|H].
  - left. apply searchCI_sound in E as [-> Hm].
    rewrite !toLowerCase_app in *. rewrite Hm in H.
    now apply (includes_keep needle _ q).
  - right. destruct Hpq as [->|[HF HC]].
    + exfalso. apply searchCI_sound in E as [-> Hm].
      rewrite !toLowerCase_app, Hm, includes_app in H. discriminate.
    + apply searchCI_sound in E as [-> Hm].
      destruct Y as [|c Y]; [discriminate HC|].
      now apply (includes_nocreate pat b m a c Y).
Qed.

Lemma settled_guarded needle pat n' q Y html :
  pat <> "" -> q <> "" ->
  settled needle pat html ->
  noOverlap needle q = true ->
  pat = q \/ (startFree pat Y /\ firstCharNotIn pat Y = true) ->
  substSafe Y ->
  settled needle pat (guarded n' q Y html).
Proof.
  intros Hp Hq Hs Hno Hpq HY. unfold guarded.
  destruct (negb (includes n' (toLowerCase html))); [|exact Hs].
  now apply settled_replace.
Qed.

(** ** The texts injectPWACode inserts *)

Lemma plain_digits d : plain (NilEmpty.string_of_uint d) = true.
Proof. induction d; simpl; auto. Qed.

Lemma plain_showNat n : plain (showNat n) = true.
Proof.
  unfold showNat, NilZero.string_of_uint.
  destruct (Nat.to_uint n); try reflexivity; apply plain_digits.
Qed.

Ltac safe_text :=
  repeat match goal with
         | |- substSafe (String.append _ _) => apply substSafe_app
         | |- substSafe (String _ _) => apply substSafeb_ok; vm_compute; reflexivity
         | |- substSafe EmptyString => apply substSafeb_ok; reflexivity
         | |- substSafe (showNat _) => apply substSafe_plain, plain_showNat
         | |- substSafe dquote => apply substSafeb_ok; reflexivity
         | |- substSafe newline => apply substSafeb_ok; reflexivity
         | |- substSafe _ => apply substSafe_plain; assumption
         end.

Ltac free_text :=
  repeat match goal with
         | |- startFree _ (String.append _ _) => apply startFree_app
         | |- startFree _ (String _ _) => apply startFreeb_ok; vm_compute; reflexivity
         | |- startFree _ EmptyString => apply startFreeb_ok; reflexivity
         | |- startFree _ (showNat _) => apply startFree_plain, plain_showNat
         | |- startFree _ dquote => apply startFreeb_ok; reflexivity
         | |- startFree _ newline => apply startFreeb_ok; reflexivity
         | |- startFree _ _ => apply startFree_plain; assumption
         end.

Ltac find_text :=
  rewrite ?toLowerCase_app;
  repeat first [ apply includes_left; reflexivity | apply includes_right ].

Lemma substSafe_unlines L : Forall substSafe L -> substSafe (unlines L).
Proof.
  induction 1 as [|x L Hx HL IH]; [now apply substSafeb_ok|].
  destruct L as [|y L]; [exact Hx|].
  rewrite unlines_cons.
  apply substSafe_app; [exact Hx|].
  apply substSafe_app; [now apply substSafeb_ok|exact IH].
Qed.

Lemma startFree_unlines p L :
  startFree p newline -> Forall (startFree p) L -> startFree p (unlines L).
Proof.
  intros Hn. induction 1 as [|x L Hx HL IH]; [intros y; apply matchFree_nil|].
  destruct L as [|y L]; [exact Hx|].
  rewrite unlines_cons.
  apply startFree_app; [exact Hx|].
  apply startFree_app; [exact Hn|exact IH].
Qed.

Ltac open_texts :=
  unfold themeColorTag, manifestLink, viewportTag, appleMeta,
    swRegistration, swRegistrationTemplate.

Ltac safe_lines :=
  apply substSafe_unlines; repeat (apply Forall_cons; [safe_text|]); apply Forall_nil.

Ltac free_lines :=
  apply startFree_unlines;
  [ apply startFreeb_ok; reflexivity
  | repeat (apply Forall_cons; [free_text|]); apply Forall_nil ].

Section InsertedTexts.

Variable config : Config.t.
Variable allFiles : list Info.t.
Hypothesis Hname : plain (Config.name config) = true.
Hypothesis HshortName : plain (Config.shortName config) = true.
Hypothesis HappId : plain (Config.appId config) = true.
Hypothesis HfolderName : plain (Config.folderName config) = true.
Hypothesis HthemeColor : plain (Config.themeColor config) = true.
Hypothesis HstartUrl : plain (Config.startUrl config) = true.
Hypothesis Hscope : plain (Config.scope config) = true.

Let themeText := "    " ++ themeColorTag config ++ newline ++ "</head>".
Let manifestText := "    " ++ manifestLink ++ newline ++ "</head>".
Let appleText := appleMeta config ++ newline ++ "</head>".
Let registration := swRegistration config allFiles.
Let registrationText := registration ++ newline ++ "</body>".

Lemma themeText_safe : substSafe themeText.
Proof. subst themeText. open_texts. safe_text. Qed.

Lemma appleText_safe : substSafe appleText.
Proof.
  subst appleText. open_texts.
  apply substSafe_app; [safe_lines|safe_text].
Qed.

Lemma registrationText_safe : substSafe registrationText.
Proof.
  subst registrationText registration. open_texts.
  apply substSafe_app; [safe_lines|safe_text].
Qed.

Lemma themeText_guard : includes "theme-color" (toLowerCase themeText) = true.
Proof. subst themeText. open_texts. find_text. Qed.

Lemma appleText_guard : includes "apple-mobile-web-app" (toLowerCase appleText) = true.
Proof. subst appleText. open_texts. unfold unlines, join. cbn [String.concat]. find_text. Qed.

Lemma themeText_no_head : startFree "<head>" themeText.
Proof. subst themeText. open_texts. free_text. Qed.

Lemma appleText_no_head : startFree "<head>" appleText.
Proof.
  subst appleText. open_texts.
  apply startFree_app; [free_lines|free_text].
Qed.

Lemma registrationText_no_head : startFree "<head>" registrationText.
Proof.
  subst registrationText registration. open_texts.
  apply startFree_app; [free_lines|free_text].
Qed.

Lemma registrationText_no_head_end : startFree "</head>" registrationText.
Proof.
  subst registrationText registration. open_texts.
  apply startFree_app; [free_lines|free_text].
Qed.

Lemma registration_no_body_end : startFree "</body>" registration.
Proof. subst registration. open_texts. free_lines. Qed.

End InsertedTexts.

(** ** Counting the matches of a pattern *)

Lemma toLowerCase_idem s : toLowerCase (toLowerCase s) = toLowerCase s.
Proof.
  unfold toLowerCase. induction s as [|c s IH]; simpl; [reflexivity|].
  rewrite IH. f_equal.
  destruct c as [[] [] [] [] [] [] [] []]; reflexivity.
Qed.

Lemma startFreeb_lower p u : startFreeb p (toLowerCase u) = startFreeb p u.
Proof.
  induction u as [|c u IH]; [reflexivity|].
  rewrite toLowerCase_cons.
  change (startFreeb p (String (lowerChar c) (toLowerCase u)))
    with (clash p (toLowerCase (String (lowerChar c) (toLowerCase u)))
          && startFreeb p (toLowerCase u)).
  change (startFreeb p (String c u))
    with (clash p (toLowerCase (String c u)) && startFreeb p u).
  rewrite IH. f_equal. f_equal.
  rewrite <- toLowerCase_cons. apply toLowerCase_idem.
Qed.

Lemma startFree_matched p pat m :
  toLowerCase m = pat -> startFreeb p pat = true -> startFree p m.
Proof.
  intros <- H. apply startFreeb_ok. now rewrite <- startFreeb_lower.
Qed.

Lemma occurrences_free p u y :
  matchFree p u y -> occurrences p (u ++ y) = occurrences p y.
Proof.
  induction u as [|c u IH]; intros H; [reflexivity|].
  apply matchFree_cons in H as [H0 H].
  change (String c u ++ y) with (String c (u ++ y)) in *.
  cbn [occurrences]. rewrite H0, (IH H). reflexivity.
Qed.

Lemma occurrences_agree p b y y' :
  (forall u1 u2, b = u1 ++ u2 -> u2 <> "" ->
     startsWith p (toLowerCase (u2 ++ y)) = startsWith p (toLowerCase (u2 ++ y'))) ->
  occurrences p (b ++ y) + occurrences p y' = occurrences p (b ++ y') + occurrences p y.
Proof.
  induction b as [|c b IH]; intros H; [apply Nat.add_comm|].
  change (String c b ++ y) with (String c (b ++ y)).
  change (String c b ++ y') with (String c (b ++ y')).
  cbn [occurrences].
  change (String c (b ++ y)) with (String c b ++ y).
  change (String c (b ++ y')) with (String c b ++ y').
  rewrite (H "" (String c b) eq_refl) by discriminate.
  assert (IH' := IH (fun u1 u2 E => H (String c u1) u2 (f_equal (String c) E))).
  lia.
Qed.

Lemma noStraddle_startsWith p0 p' u2 y :
  noStraddle p' y -> u2 <> "" ->
  startsWith (String p0 p') (toLowerCase (u2 ++ y))
  = startsWith (String p0 p') (toLowerCase u2).
Proof.
  intros Hy Hne. rewrite toLowerCase_app.
  destruct (startsWith (String p0 p') (toLowerCase u2)) eqn:S.
  - now apply startsWith_app_l.
  - destruct (startsWith (String p0 p') (toLowerCase u2 ++ toLowerCase y)) eqn:S';
      [exfalso|reflexivity].
    apply startsWith_app_inv in S' as [S'|(p2 & Hp & Hp2 & S2)]; [congruence|].
    destruct u2 as [|d u2]; [contradiction|].
    rewrite toLowerCase_cons in Hp. simpl in Hp. inversion Hp as [[Hd Hp']].
    rewrite (Hy (toLowerCase u2) p2 Hp' Hp2) in S2. discriminate.
Qed.

Lemma suffixesClash_noStraddle p' t X a :
  toLowerCase X = t -> suffixesClash p' t = true -> noStraddle p' (X ++ a).
Proof.
  intros <- H p1 p2 E Hne. rewrite toLowerCase_app.
  apply clash_startsWith. exact (suffixesClash_at p' _ p1 p2 H E Hne).
Qed.

Lemma occurrences_replace p0 p' pat X html :
  keepsCount p0 p' pat X ->
  occurrences (String p0 p') (replace pat X html) = occurrences (String p0 p') html.
Proof.
  intros (HX & HF & HS & Hm & Hs).
  destruct (searchCI pat html) as [[[b m] a]|] eqn:E.
  2:{ unfold replace. now rewrite E. }
  rewrite (replace_some pat X html b m a E HX).
  apply searchCI_sound in E as [-> Hlow].
  set (p := String p0 p').
  assert (A : occurrences p (b ++ X ++ a) + occurrences p (m ++ a)
              = occurrences p (b ++ m ++ a) + occurrences p (X ++ a)).
  { apply occurrences_agree. intros u1 u2 _ Hne. unfold p.
    rewrite (noStraddle_startsWith p0 p' u2 (X ++ a))
      by (exact Hne || now apply (suffixesClash_noStraddle p' (toLowerCase X))).
    rewrite (noStraddle_startsWith p0 p' u2 (m ++ a))
      by (exact Hne || now apply (suffixesClash_noStraddle p' pat)).
    reflexivity. }
  rewrite (occurrences_free p X a (HF a)) in A.
  rewrite (occurrences_free p m a (startFree_matched p pat m Hlow Hm a)) in A.
  lia.
Qed.

Lemma occurrences_guarded p0 p' needle pat X html :
  keepsCount p0 p' pat X ->
  occurrences (String p0 p') (guarded needle pat X html) = occurrences (String p0 p') html.
Proof.
  intros H. unfold guarded.
  destruct (negb (includes needle (toLowerCase html))); [|reflexivity].
  now apply occurrences_replace.
Qed.


(** ** A second run, and tags that are absent *)

Section SecondRun.

Variables X1 X2 X3 X4 XR : string.

Let steps (html : string) : string :=
  replace "</body>" XR
    (guarded "apple-mobile-web-app" "</head>" X4
       (guarded "manifest" "</head>" X3
          (guarded "theme-color" "</head>" X2
             (guarded "viewport" "<head>" X1 html)))).

Hypothesis safe1 : substSafe X1.
Hypothesis safe2 : substSafe X2.
Hypothesis safe3 : substSafe X3.
Hypothesis safe4 : substSafe X4.
Hypothesis safeR : substSafe XR.
Hypothesis guard1 : includes "viewport" (toLowerCase X1) = true.
Hypothesis guard2 : includes "theme-color" (toLowerCase X2) = true.
Hypothesis guard3 : includes "manifest" (toLowerCase X3) = true.
Hypothesis guard4 : includes "apple-mobile-web-app" (toLowerCase X4) = true.
Hypothesis head2 : startFree "<head>" X2 /\ firstCharNotIn "<head>" X2 = true.
Hypothesis head3 : startFree "<head>" X3 /\ firstCharNotIn "<head>" X3 = true.
Hypothesis head4 : startFree "<head>" X4 /\ firstCharNotIn "<head>" X4 = true.
Hypothesis headR : startFree "<head>" XR /\ firstCharNotIn "<head>" XR = true.
Hypothesis endR : startFree "</head>" XR /\ firstCharNotIn "</head>" XR = true.

(** After the five steps every guarded step has nothing left to do. *)
Lemma steps_settle html :
  settled "viewport" "<head>" (steps html) /\
  settled "theme-color" "</head>" (steps html) /\
  settled "manifest" "</head>" (steps html) /\
  settled "apple-mobile-web-app" "</head>" (steps html).
Proof.
  unfold steps. repeat split.
  - apply settled_replace;
      [discriminate|discriminate| |reflexivity|right; exact headR|exact safeR].
    apply settled_guarded;
      [discriminate|discriminate| |reflexivity|right; exact head4|exact safe4].
    apply settled_guarded;
      [discriminate|discriminate| |reflexivity|right; exact head3|exact safe3].
    apply settled_guarded;
      [discriminate|discriminate| |reflexivity|right; exact head2|exact safe2].
    apply guarded_settles; [discriminate|exact safe1|exact guard1].
  - apply settled_replace;
      [discriminate|discriminate| |reflexivity|right; exact endR|exact safeR].
    apply settled_guarded;
      [discriminate|discriminate| |reflexivity|left; reflexivity|exact safe4].
    apply settled_guarded;
      [discriminate|discriminate| |reflexivity|left; reflexivity|exact safe3].
    apply guarded_settles; [discriminate|exact safe2|exact guard2].
  - apply settled_replace;
      [discriminate|discriminate| |reflexivity|right; exact endR|exact safeR].
    apply settled_guarded;
      [discriminate|discriminate| |reflexivity|left; reflexivity|exact safe4].
    apply guarded_settles; [discriminate|exact safe3|exact guard3].
  - apply settled_replace;
      [discriminate|discriminate| |reflexivity|right; exact endR|exact safeR].
    apply guarded_settles; [discriminate|exact safe4|exact guard4].
Qed.

Lemma steps_again html : steps (steps html) = replace "</body>" XR (steps html).
Proof.
  destruct (steps_settle html) as (S1 & S2 & S3 & S4).
  set (d := steps html) in *. unfold steps.
  rewrite (settled_fix "viewport" "<head>" X1 d) by (discriminate || exact S1).
  rewrite (settled_fix "theme-color" "</head>" X2 d) by (discriminate || exact S2).
  rewrite (settled_fix "manifest" "</head>" X3 d) by (discriminate || exact S3).
  rewrite (settled_fix "apple-mobile-web-app" "</head>" X4 d)
    by (discriminate || exact S4).
  reflexivity.
Qed.

End SecondRun.

Lemma guarded_no_tag needle pat X html :
  pat <> "" -> includes pat (toLowerCase html) = false -> guarded needle pat X html = html.
Proof. intros Hp H. apply settled_fix; [exact Hp|now right]. Qed.

(** A pattern absent from the document is absent after an insertion in
    whose text it cannot start and whose first character occurs in the
    pattern at its first place at most. *)
Lemma matchFree_retail_tail p0 p' b y c r :
  matchFree (String p0 p') b y ->
  string_forallb (fun a => negb (Ascii.eqb a (lowerChar c))) p' = true ->
  matchFree (String p0 p') b (String c r).
Proof.
  intros Hb Hc u1 u2 E Hne.
  destruct (startsWith (String p0 p') (toLowerCase (u2 ++ String c r))) eqn:S;
    [exfalso|reflexivity].
  rewrite toLowerCase_app in S.
  apply startsWith_app_inv in S as [S|(p2 & Hp & Hp2 & S2)].
  - specialize (Hb u1 u2 E Hne). rewrite toLowerCase_app in Hb.
    now rewrite (startsWith_app_l _ _ _ S) in Hb.
  - destruct p2 as [|a p2]; [contradiction|].
    rewrite toLowerCase_cons in S2. simpl in S2.
    apply andb_true_iff in S2 as [Ha _].
    destruct u2 as [|d u2]; [contradiction|].
    rewrite toLowerCase_cons in Hp. simpl in Hp. inversion Hp as [[Hd Hp']].
    rewrite Hp', string_forallb_app in Hc. apply andb_true_iff in Hc as [_ Hc].
    simpl in Hc. rewrite Ha in Hc. discriminate.
Qed.

Lemma absent_after_replace p0 p' q Y html :
  includes (String p0 p') (toLowerCase html) = false ->
  startFree (String p0 p') Y ->
  firstCharNotIn p' Y = true ->
  substSafe Y ->
  includes (String p0 p') (toLowerCase (replace q Y html)) = false.
Proof.
  intros H HF HC HY.
  destruct (searchCI q html) as [[[b m] a]|] eqn:E.
  2:{ unfold replace. now rewrite E. }
  rewrite (replace_some q Y html b m a E HY).
  apply searchCI_sound in E as [-> Hm].
  destruct Y as [|c Y]; [discriminate HC|].
  assert (Hp : String p0 p' <> "") by discriminate.
  apply (includes_false_matchFree _ _ Hp) in H.
  apply matchFree_app_inv in H as [Hb Hma].
  apply matchFree_app_inv in Hma as [_ Ha].
  apply (includes_false_matchFree _ _ Hp).
  apply matchFree_app.
  - rewrite sapp_assoc. change (String c Y ++ a ++ "") with (String c (Y ++ a ++ "")).
    now apply (matchFree_retail_tail p0 p' b _ c _ Hb).
  - apply matchFree_app; [apply HF|exact Ha].
Qed.

(** ** C6 *)

Lemma ensureViewport_guarded html :
  ensureViewport html =
  guarded "viewport" "<head>" ("<head>" ++ newline ++ "    " ++ viewportTag) html.
Proof. reflexivity. Qed.

Lemma addThemeColor_guarded config html :
  addThemeColor config html =
  guarded "theme-color" "</head>"
          ("    " ++ themeColorTag config ++ newline ++ "</head>") html.
Proof. reflexivity. Qed.

Lemma addManifestLink_guarded html :
  addManifestLink html =
  guarded "manifest" "</head>" ("    " ++ manifestLink ++ newline ++ "</head>") html.
Proof. reflexivity. Qed.

Lemma addAppleMeta_guarded config html :
  addAppleMeta config html =
  guarded "apple-mobile-web-app" "</head>" (appleMeta config ++ newline ++ "</head>") html.
Proof. reflexivity. Qed.

(** A guard text found in the document is still found when the step that
    tests it runs: the earlier steps only replace a head tag. *)
Lemma guard_reaches_step needle config html :
  noOverlap needle "<head>" = true ->
  noOverlap needle "</head>" = true ->
  includes needle (toLowerCase html) = true ->
  includes needle (toLowerCase (ensureViewport html)) = true /\
  includes needle (toLowerCase (addThemeColor config (ensureViewport html))) = true /\
  includes needle
    (toLowerCase (addManifestLink (addThemeColor config (ensureViewport html)))) = true /\
  includes needle
    (toLowerCase
       (addAppleMeta config
          (addManifestLink (addThemeColor config (ensureViewport html))))) = true.
Proof.
  intros H1 H2 H.
  assert (A : includes needle (toLowerCase (ensureViewport html)) = true)
    by (rewrite (ensureViewport_guarded html); now apply guarded_keeps).
  assert (B : includes needle
                (toLowerCase (addThemeColor config (ensureViewport html))) = true)
    by (rewrite (addThemeColor_guarded config (ensureViewport html));
        now apply guarded_keeps).
  assert (C : includes needle
                (toLowerCase
                   (addManifestLink (addThemeColor config (ensureViewport html)))) = true)
    by (rewrite (addManifestLink_guarded (addThemeColor config (ensureViewport html)));
        now apply guarded_keeps).
  repeat split; try assumption.
  rewrite (addAppleMeta_guarded config
             (addManifestLink (addThemeColor config (ensureViewport html)))).
  now apply guarded_keeps.
Qed.

Lemma guarded_skip needle pat X html :
  includes needle (toLowerCase html) = true -> guarded needle pat X html = html.
Proof. intros H. unfold guarded. now rewrite H. Qed.

(** The four guarded insertions, each skipped when its guard text is in the
    document injectPWACode receives. *)
Lemma injectPWACode_skips config allFiles html :
  (includes "viewport" (toLowerCase html) = true ->
   injectPWACode config allFiles html =
   addRegistration config allFiles
     (addAppleMeta config (addManifestLink (addThemeColor config html)))) /\
  (includes "theme-color" (toLowerCase html) = true ->
   injectPWACode config allFiles html =
   addRegistration config allFiles
     (addAppleMeta config (addManifestLink (ensureViewport html)))) /\
  (includes "manifest" (toLowerCase html) = true ->
   injectPWACode config allFiles html =
   addRegistration config allFiles
     (addAppleMeta config (addThemeColor config (ensureViewport html)))) /\
  (includes "apple-mobile-web-app" (toLowerCase html) = true ->
   injectPWACode config allFiles html =
   addRegistration config allFiles
     (addManifestLink (addThemeColor config (ensureViewport html)))).
Proof.
  unfold injectPWACode. cbv zeta. repeat split; intros H.
  - now rewrite (ensureViewport_guarded html), (guarded_skip _ _ _ _ H).
  - destruct (guard_reaches_step "theme-color" config html eq_refl eq_refl H) as (A & _).
    now rewrite (addThemeColor_guarded config (ensureViewport html)), (guarded_skip _ _ _ _ A).
  - destruct (guard_reaches_step "manifest" config html eq_refl eq_refl H) as (_ & B & _).
    now rewrite (addManifestLink_guarded (addThemeColor config (ensureViewport html))),
      (guarded_skip _ _ _ _ B).
  - destruct (guard_reaches_step "apple-mobile-web-app" config html eq_refl eq_refl H)
      as (_ & _ & C & _).
    now rewrite (addAppleMeta_guarded config
                   (addManifestLink (addThemeColor config (ensureViewport html)))),
      (guarded_skip _ _ _ _ C).
Qed.

Lemma plainConfig_fields config :
  plainConfig config = true ->
  plain (Config.name config) = true /\ plain (Config.shortName config) = true /\
  plain (Config.appId config) = true /\ plain (Config.folderName config) = true /\
  plain (Config.themeColor config) = true /\ plain (Config.startUrl config) = true /\
  plain (Config.scope config) = true.
Proof.
  unfold plainConfig. intros H.
  repeat (apply andb_true_iff in H; destruct H as [H ?]). auto 10.
Qed.

(** Where the second run finds the closing body tag: right after the
    registration block the first run inserted. *)
Lemma searchCI_after_registration registration b m a :
  startFree "</body>" registration ->
  (exists r, registration = String LF r) ->
  matchFree "</body>" b (m ++ a) ->
  searchCI "</body>" (b ++ (registration ++ newline ++ "</body>") ++ a)
  = Some (b ++ registration ++ newline, "</body>", a).
Proof.
  intros HR [r Hr] Hb.
  assert (Hb' : matchFree "</body>" b ((registration ++ newline ++ "</body>") ++ a)).
  { rewrite Hr. change ((String LF r ++ newline ++ "</body>") ++ a)
      with (String LF ((r ++ newline ++ "</body>") ++ a)).
    now apply (matchFree_retail "</body>" b (m ++ a)). }
  rewrite (searchCI_skip _ _ _ Hb').
  rewrite sapp_assoc, (searchCI_skip _ _ _ (HR _)).
  rewrite sapp_assoc.
  assert (Hn : matchFree "</body>" newline ("</body>" ++ a))
    by now apply startFreeb_ok.
  rewrite (searchCI_skip _ _ _ Hn).
  rewrite searchCI_here by (rewrite toLowerCase_app; apply startsWith_app).
  now rewrite sapp_nil_r.
Qed.

(** Two runs of five steps shaped like those of injectPWACode, over any
    inserted texts that meet the conditions the texts of injectPWACode meet
    for a plain configuration. *)
Section TwoRuns.

Variables X1 X2 X3 X4 R : string.

Let XR : string := R ++ newline ++ "</body>".

Let run (html : string) : string :=
  replace "</body>" XR
    (guarded "apple-mobile-web-app" "</head>" X4
       (guarded "manifest" "</head>" X3
          (guarded "theme-color" "</head>" X2
             (guarded "viewport" "<head>" X1 html)))).

Hypothesis safe1 : substSafe X1.
Hypothesis safe2 : substSafe X2.
Hypothesis safe3 : substSafe X3.
Hypothesis safe4 : substSafe X4.
Hypothesis safeR : substSafe XR.
Hypothesis guard1 : includes "viewport" (toLowerCase X1) = true.
Hypothesis guard2 : includes "theme-color" (toLowerCase X2) = true.
Hypothesis guard3 : includes "manifest" (toLowerCase X3) = true.
Hypothesis guard4 : includes "apple-mobile-web-app" (toLowerCase X4) = true.
Hypothesis head2 : startFree "<head>" X2 /\ firstCharNotIn "<head>" X2 = true.
Hypothesis head3 : startFree "<head>" X3 /\ firstCharNotIn "<head>" X3 = true.
Hypothesis head4 : startFree "<head>" X4 /\ firstCharNotIn "<head>" X4 = true.
Hypothesis headR : startFree "<head>" XR /\ firstCharNotIn "<head>" XR = true.
Hypothesis endR : startFree "</head>" XR /\ firstCharNotIn "</head>" XR = true.
Hypothesis bodyR : startFree "</body>" R.
Hypothesis lineR : exists r, R = String LF r.

Lemma run_settled html :
  settled "viewport" "<head>" html ->
  settled "theme-color" "</head>" html ->
  settled "manifest" "</head>" html ->
  settled "apple-mobile-web-app" "</head>" html ->
  run html = replace "</body>" XR html.
Proof.
  intros S1 S2 S3 S4. unfold run.
  rewrite (settled_fix "viewport" "<head>" X1 html) by (discriminate || exact S1).
  rewrite (settled_fix "theme-color" "</head>" X2 html) by (discriminate || exact S2).
  rewrite (settled_fix "manifest" "</head>" X3 html) by (discriminate || exact S3).
  rewrite (settled_fix "apple-mobile-web-app" "</head>" X4 html)
    by (discriminate || exact S4).
  reflexivity.
Qed.

Lemma run_twice html :
  includes "</body>" (toLowerCase html) = true ->
  exists before after,
    run html = before ++ R ++ newline ++ "</body>" ++ after /\
    run (run html) = before ++ R ++ newline ++ R ++ newline ++ "</body>" ++ after.
Proof.
  intros Hbody.
  assert (E0 : run html = replace "</body>" XR
    (guarded "apple-mobile-web-app" "</head>" X4
       (guarded "manifest" "</head>" X3
          (guarded "theme-color" "</head>" X2
             (guarded "viewport" "<head>" X1 html))))) by reflexivity.
  set (D1 := guarded "viewport" "<head>" X1 html) in E0.
  set (D2 := guarded "theme-color" "</head>" X2 D1) in E0.
  set (D3 := guarded "manifest" "</head>" X3 D2) in E0.
  set (D4 := guarded "apple-mobile-web-app" "</head>" X4 D3) in E0.
  assert (B1 : includes "</body>" (toLowerCase D1) = true)
    by (apply guarded_keeps; [reflexivity|exact Hbody]).
  assert (B2 : includes "</body>" (toLowerCase D2) = true)
    by (apply guarded_keeps; [reflexivity|exact B1]).
  assert (B3 : includes "</body>" (toLowerCase D3) = true)
    by (apply guarded_keeps; [reflexivity|exact B2]).
  assert (B4 : includes "</body>" (toLowerCase D4) = true)
    by (apply guarded_keeps; [reflexivity|exact B3]).
  assert (Hne : "</body>" <> "") by discriminate.
  destruct (includes_some "</body>" D4 Hne B4) as (b & m & a & E).
  assert (E5 : run html = b ++ XR ++ a)
    by (rewrite E0; exact (replace_some "</body>" XR D4 b m a E safeR)).
  (* every guarded step is settled once it has run, and stays so *)
  assert (S1 : settled "viewport" "<head>" (run html)).
  { rewrite E0.
    apply settled_replace;
      [discriminate|discriminate| |reflexivity|right; exact headR|exact safeR].
    apply settled_guarded;
      [discriminate|discriminate| |reflexivity|right; exact head4|exact safe4].
    apply settled_guarded;
      [discriminate|discriminate| |reflexivity|right; exact head3|exact safe3].
    apply settled_guarded;
      [discriminate|discriminate| |reflexivity|right; exact head2|exact safe2].
    apply guarded_settles; [discriminate|exact safe1|exact guard1]. }
  assert (S2 : settled "theme-color" "</head>" (run html)).
  { rewrite E0.
    apply settled_replace;
      [discriminate|discriminate| |reflexivity|right; exact endR|exact safeR].
    apply settled_guarded;
      [discriminate|discriminate| |reflexivity|left; reflexivity|exact safe4].
    apply settled_guarded;
      [discriminate|discriminate| |reflexivity|left; reflexivity|exact safe3].
    apply guarded_settles; [discriminate|exact safe2|exact guard2]. }
  assert (S3 : settled "manifest" "</head>" (run html)).
  { rewrite E0.
    apply settled_replace;
      [discriminate|discriminate| |reflexivity|right; exact endR|exact safeR].
    apply settled_guarded;
      [discriminate|discriminate| |reflexivity|left; reflexivity|exact safe4].
    apply guarded_settles; [discriminate|exact safe3|exact guard3]. }
  assert (S4 : settled "apple-mobile-web-app" "</head>" (run html)).
  { rewrite E0.
    apply settled_replace;
      [discriminate|discriminate| |reflexivity|right; exact endR|exact safeR].
    apply guarded_settles; [discriminate|exact safe4|exact guard4]. }
  exists b, a. split.
  - rewrite E5. unfold XR. now rewrite !sapp_assoc.
  - rewrite (run_settled (run html) S1 S2 S3 S4), E5.
    pose proof (searchCI_first "</body>" D4 b m a E) as Hb.
    rewrite (replace_some "</body>" XR (b ++ XR ++ a) (b ++ R ++ newline) "</body>" a
               (searchCI_after_registration R b m a bodyR lineR Hb) safeR).
    unfold XR. now rewrite !sapp_assoc.
Qed.

End TwoRuns.

(** On its own output injectPWACode only runs the registration step, when
    the interpolated form values are plain. *)
Lemma injectPWACode_again config allFiles html :
  plainConfig config = true ->
  injectPWACode config allFiles (injectPWACode config allFiles html)
  = addRegistration config allFiles (injectPWACode config allFiles html).
Proof.
  intros Hplain.
  destruct (plainConfig_fields config Hplain) as (Hn & Hsn & Ha & Hf & Ht & Hs & Hc).
  assert (safe1 : substSafe ("<head>" ++ newline ++ "    " ++ viewportTag))
    by (apply substSafeb_ok; reflexivity).
  assert (safe3 : substSafe ("    " ++ manifestLink ++ newline ++ "</head>"))
    by (apply substSafeb_ok; reflexivity).
  assert (head3 : startFree "<head>" ("    " ++ manifestLink ++ newline ++ "</head>"))
    by (apply startFreeb_ok; reflexivity).
  exact (steps_again
           ("<head>" ++ newline ++ "    " ++ viewportTag)
           ("    " ++ themeColorTag config ++ newline ++ "</head>")
           ("    " ++ manifestLink ++ newline ++ "</head>")
           (appleMeta config ++ newline ++ "</head>")
           (swRegistration config allFiles ++ newline ++ "</body>")
           safe1 (themeText_safe config Ht) safe3 (appleText_safe config Hsn)
           (registrationText_safe config allFiles Hn Ha Hf Hs Hc)
           eq_refl (themeText_guard config) eq_refl (appleText_guard config)
           (conj (themeText_no_head config Ht) eq_refl)
           (conj head3 eq_refl)
           (conj (appleText_no_head config Hsn) eq_refl)
           (conj (registrationText_no_head config allFiles Hn Ha Hf Hs Hc) eq_refl)
           (conj (registrationText_no_head_end config allFiles Hn Ha Hf Hs Hc) eq_refl)
           html).
Qed.

(** Five steps shaped like those of injectPWACode, and a pattern whose
    matches the inserted texts neither hold nor complete. *)
Section Counting.

Variables (p' : string) (X1 X2 X3 X4 XR : string).

Let p : string := String "<" p'.

Let head (html : string) : string :=
  guarded "apple-mobile-web-app" "</head>" X4
    (guarded "manifest" "</head>" X3
       (guarded "theme-color" "</head>" X2
          (guarded "viewport" "<head>" X1 html))).

Let run (html : string) : string := replace "</body>" XR (head html).

Lemma run_count_viewport html :
  keepsCount "<" p' "</head>" X2 -> keepsCount "<" p' "</head>" X3 ->
  keepsCount "<" p' "</head>" X4 -> keepsCount "<" p' "</body>" XR ->
  includes "viewport" (toLowerCase html) = true ->
  occurrences p (run html) = occurrences p html.
Proof.
  intros K2 K3 K4 KR G. unfold run, head, p.
  rewrite (occurrences_replace _ _ _ _ _ KR).
  rewrite (occurrences_guarded _ _ _ _ _ _ K4).
  rewrite (occurrences_guarded _ _ _ _ _ _ K3).
  rewrite (occurrences_guarded _ _ _ _ _ _ K2).
  now rewrite (guarded_skip _ _ _ _ G).
Qed.

Lemma run_count_theme html :
  keepsCount "<" p' "<head>" X1 -> keepsCount "<" p' "</head>" X3 ->
  keepsCount "<" p' "</head>" X4 -> keepsCount "<" p' "</body>" XR ->
  includes "theme-color" (toLowerCase html) = true ->
  occurrences p (run html) = occurrences p html.
Proof.
  intros K1 K3 K4 KR G. unfold run, head, p.
  rewrite (occurrences_replace _ _ _ _ _ KR).
  rewrite (occurrences_guarded _ _ _ _ _ _ K4).
  rewrite (occurrences_guarded _ _ _ _ _ _ K3).
  assert (G1 : includes "theme-color"
                 (toLowerCase (guarded "viewport" "<head>" X1 html)) = true)
    by (apply guarded_keeps; [reflexivity|exact G]).
  rewrite (guarded_skip _ _ _ _ G1).
  apply (occurrences_guarded _ _ _ _ _ _ K1).
Qed.

Lemma run_count_manifest html :
  keepsCount "<" p' "<head>" X1 -> keepsCount "<" p' "</head>" X2 ->
  keepsCount "<" p' "</head>" X4 -> keepsCount "<" p' "</body>" XR ->
  includes "manifest" (toLowerCase html) = true ->
  occurrences p (run html) = occurrences p html.
Proof.
  intros K1 K2 K4 KR G. unfold run, head, p.
  rewrite (occurrences_replace _ _ _ _ _ KR).
  rewrite (occurrences_guarded _ _ _ _ _ _ K4).
  assert (G1 : includes "manifest"
                 (toLowerCase (guarded "viewport" "<head>" X1 html)) = true)
    by (apply guarded_keeps; [reflexivity|exact G]).
  assert (G2 : includes "manifest"
                 (toLowerCase (guarded "theme-color" "</head>" X2
                                 (guarded "viewport" "<head>" X1 html))) = true)
    by (apply guarded_keeps; [reflexivity|exact G1]).
  rewrite (guarded_skip _ _ _ _ G2).
  rewrite (occurrences_guarded _ _ _ _ _ _ K2).
  apply (occurrences_guarded _ _ _ _ _ _ K1).
Qed.

Lemma run_count_apple html :
  keepsCount "<" p' "<head>" X1 -> keepsCount "<" p' "</head>" X2 ->
  keepsCount "<" p' "</head>" X3 -> keepsCount "<" p' "</body>" XR ->
  includes "apple-mobile-web-app" (toLowerCase html) = true ->
  occurrences p (run html) = occurrences p html.
Proof.
  intros K1 K2 K3 KR G. unfold run, head, p.
  rewrite (occurrences_replace _ _ _ _ _ KR).
  assert (G1 : includes "apple-mobile-web-app"
                 (toLowerCase (guarded "viewport" "<head>" X1 html)) = true)
    by (apply guarded_keeps; [reflexivity|exact G]).
  assert (G2 : includes "apple-mobile-web-app"
                 (toLowerCase (guarded "theme-color" "</head>" X2
                                 (guarded "viewport" "<head>" X1 html))) = true)
    by (apply guarded_keeps; [reflexivity|exact G1]).
  assert (G3 : includes "apple-mobile-web-app"
                 (toLowerCase (guarded "manifest" "</head>" X3
                    (guarded "theme-color" "</head>" X2
                       (guarded "viewport" "<head>" X1 html)))) = true)
    by (apply guarded_keeps; [reflexivity|exact G2]).
  rewrite (guarded_skip _ _ _ _ G3).
  rewrite (occurrences_guarded _ _ _ _ _ _ K3).
  rewrite (occurrences_guarded _ _ _ _ _ _ K2).
  apply (occurrences_guarded _ _ _ _ _ _ K1).
Qed.

(** Without a closing body tag the last step finds nothing to replace. *)
Lemma run_open html :
  (substSafe X1 /\ startFree "</body>" X1 /\ firstCharNotIn "/body>" X1 = true) ->
  (substSafe X2 /\ startFree "</body>" X2 /\ firstCharNotIn "/body>" X2 = true) ->
  (substSafe X3 /\ startFree "</body>" X3 /\ firstCharNotIn "/body>" X3 = true) ->
  (substSafe X4 /\ startFree "</body>" X4 /\ firstCharNotIn "/body>" X4 = true) ->
  includes "</body>" (toLowerCase html) = false ->
  run html = head html /\ includes "</body>" (toLowerCase (run html)) = false.
Proof.
  intros (S1 & F1 & C1) (S2 & F2 & C2) (S3 & F3 & C3) (S4 & F4 & C4) H.
  assert (G : forall needle pat X d,
            substSafe X -> startFree "</body>" X -> firstCharNotIn "/body>" X = true ->
            includes "</body>" (toLowerCase d) = false ->
            includes "</body>" (toLowerCase (guarded needle pat X d)) = false).
  { intros needle pat X d S F C Hd. unfold guarded.
    destruct (negb (includes needle (toLowerCase d))); [|exact Hd].
    now apply absent_after_replace. }
  assert (H4 : includes "</body>" (toLowerCase (head html)) = false).
  { unfold head. apply G; try assumption. apply G; try assumption.
    apply G; try assumption. now apply G. }
  assert (E : run html = head html)
    by (unfold run; apply replace_none; [discriminate|exact H4]).
  split; [exact E|]. now rewrite E.
Qed.

Lemma head_count html :
  keepsCount "<" p' "<head>" X1 -> keepsCount "<" p' "</head>" X2 ->
  keepsCount "<" p' "</head>" X3 -> keepsCount "<" p' "</head>" X4 ->
  occurrences p (head html) = occurrences p html.
Proof.
  intros K1 K2 K3 K4. unfold head, p.
  rewrite (occurrences_guarded _ _ _ _ _ _ K4).
  rewrite (occurrences_guarded _ _ _ _ _ _ K3).
  rewrite (occurrences_guarded _ _ _ _ _ _ K2).
  apply (occurrences_guarded _ _ _ _ _ _ K1).
Qed.

End Counting.

Ltac is_open t :=
  lazymatch t with
  | context [Config.name _] => idtac
  | context [Config.shortName _] => idtac
  | context [Config.appId _] => idtac
  | context [Config.folderName _] => idtac
  | context [Config.themeColor _] => idtac
  | context [Config.startUrl _] => idtac
  | context [Config.scope _] => idtac
  | context [Config.cacheStrategy _] => idtac
  | context [showNat _] => idtac
  | context [jsonQuote _] => idtac
  | context [stringify _ _] => idtac
  | _ => fail
  end.

Ltac free_closed := apply startFreeb_ok; vm_compute; reflexivity.

(** [startFree p X] for a text [X] made of literal pieces and of values:
    the literal pieces are taken as long as they come. *)
Ltac free_pieces value :=
  lazymatch goal with
  | |- startFree _ ?X =>
      tryif is_open X then
        lazymatch X with
        | String.append ?a ?b =>
            tryif is_open a
            then (apply startFree_app; [free_pieces value|free_pieces value])
            else lazymatch b with
                 | String.append ?b1 ?b2 =>
                     tryif is_open b1
                     then (apply startFree_app; [free_closed|free_pieces value])
                     else (rewrite <- (sapp_assoc a b1 b2); free_pieces value)
                 | _ => apply startFree_app; [free_closed|free_pieces value]
                 end
        | _ => value
        end
      else free_closed
  end.

Ltac plain_value :=
  first [apply startFree_plain, plain_showNat | apply startFree_plain; assumption].

Ltac free_all value :=
  lazymatch goal with
  | |- startFree _ (String.append (unlines _) _) =>
      apply startFree_app;
      [ apply startFree_unlines;
        [ free_closed
        | repeat (apply Forall_cons; [free_pieces value|]); apply Forall_nil ]
      | free_pieces value ]
  | |- startFree _ (unlines _) =>
      apply startFree_unlines;
      [ free_closed
      | repeat (apply Forall_cons; [free_pieces value|]); apply Forall_nil ]
  | |- _ => free_pieces value
  end.

Ltac safe_all :=
  lazymatch goal with
  | |- substSafe (String.append (unlines _) _) =>
      apply substSafe_app; [safe_lines|safe_text]
  | |- _ => safe_text
  end.

Ltac keeps_count :=
  split; [open_texts; safe_all
         |split; [open_texts; free_all plain_value
                 |split; [vm_compute; reflexivity|split; reflexivity]]].

Ltac absent_text :=
  split; [open_texts; safe_all|split; [open_texts; free_all plain_value|reflexivity]].

Lemma injectPWACode_counts config allFiles html :
  plainConfig config = true ->
  (includes "viewport" (toLowerCase html) = true ->
   occurrences viewportTagStart (injectPWACode config allFiles html)
   = occurrences viewportTagStart html) /\
  (includes "theme-color" (toLowerCase html) = true ->
   occurrences themeColorTagStart (injectPWACode config allFiles html)
   = occurrences themeColorTagStart html) /\
  (includes "manifest" (toLowerCase html) = true ->
   occurrences manifestLinkStart (injectPWACode config allFiles html)
   = occurrences manifestLinkStart html) /\
  (includes "apple-mobile-web-app" (toLowerCase html) = true ->
   occurrences appleMetaStart (injectPWACode config allFiles html)
   = occurrences appleMetaStart html).
Proof.
  intros Hplain.
  destruct (plainConfig_fields config Hplain) as (Hn & Hsn & Ha & Hf & Ht & Hs & Hc).
  split; [|split; [|split]]; intros G.
  - apply (run_count_viewport (afterFirst viewportTagStart)
             ("<head>" ++ newline ++ "    " ++ viewportTag)
             ("    " ++ themeColorTag config ++ newline ++ "</head>")
             ("    " ++ manifestLink ++ newline ++ "</head>")
             (appleMeta config ++ newline ++ "</head>")
             (swRegistration config allFiles ++ newline ++ "</body>") html);
      [keeps_count|keeps_count|keeps_count|keeps_count|exact G].
  - apply (run_count_theme (afterFirst themeColorTagStart)
             ("<head>" ++ newline ++ "    " ++ viewportTag)
             ("    " ++ themeColorTag config ++ newline ++ "</head>")
             ("    " ++ manifestLink ++ newline ++ "</head>")
             (appleMeta config ++ newline ++ "</head>")
             (swRegistration config allFiles ++ newline ++ "</body>") html);
      [keeps_count|keeps_count|keeps_count|keeps_count|exact G].
  - apply (run_count_manifest (afterFirst manifestLinkStart)
             ("<head>" ++ newline ++ "    " ++ viewportTag)
             ("    " ++ themeColorTag config ++ newline ++ "</head>")
             ("    " ++ manifestLink ++ newline ++ "</head>")
             (appleMeta config ++ newline ++ "</head>")
             (swRegistration config allFiles ++ newline ++ "</body>") html);
      [keeps_count|keeps_count|keeps_count|keeps_count|exact G].
  - apply (run_count_apple (afterFirst appleMetaStart)
             ("<head>" ++ newline ++ "    " ++ viewportTag)
             ("    " ++ themeColorTag config ++ newline ++ "</head>")
             ("    " ++ manifestLink ++ newline ++ "</head>")
             (appleMeta config ++ newline ++ "</head>")
             (swRegistration config allFiles ++ newline ++ "</body>") html);
      [keeps_count|keeps_count|keeps_count|keeps_count|exact G].
Qed.

Lemma injectPWACode_open config allFiles html :
  plainConfig config = true ->
  includes "</body>" (toLowerCase html) = false ->
  injectPWACode config allFiles html
  = addAppleMeta config (addManifestLink (addThemeColor config (ensureViewport html))) /\
  includes "</body>" (toLowerCase (injectPWACode config allFiles html)) = false /\
  occurrences scriptTagStart (injectPWACode config allFiles html)
  = occurrences scriptTagStart html.
Proof.
  intros Hplain H.
  destruct (plainConfig_fields config Hplain) as (Hn & Hsn & Ha & Hf & Ht & Hs & Hc).
  destruct (run_open
              ("<head>" ++ newline ++ "    " ++ viewportTag)
              ("    " ++ themeColorTag config ++ newline ++ "</head>")
              ("    " ++ manifestLink ++ newline ++ "</head>")
              (appleMeta config ++ newline ++ "</head>")
              (swRegistration config allFiles ++ newline ++ "</body>") html)
    as (E & B); [absent_text|absent_text|absent_text|absent_text|exact H|].
  split; [exact E|]. split; [exact B|].
  change (injectPWACode config allFiles html)
    with (replace "</body>" (swRegistration config allFiles ++ newline ++ "</body>")
           (guarded "apple-mobile-web-app" "</head>" (appleMeta config ++ newline ++ "</head>")
              (guarded "manifest" "</head>" ("    " ++ manifestLink ++ newline ++ "</head>")
                 (guarded "theme-color" "</head>"
                    ("    " ++ themeColorTag config ++ newline ++ "</head>")
                    (guarded "viewport" "<head>"
                       ("<head>" ++ newline ++ "    " ++ viewportTag) html))))).
  rewrite E.
  apply (head_count (afterFirst scriptTagStart)
           ("<head>" ++ newline ++ "    " ++ viewportTag)
           ("    " ++ themeColorTag config ++ newline ++ "</head>")
           ("    " ++ manifestLink ++ newline ++ "</head>")
           (appleMeta config ++ newline ++ "</head>") html);
    [keeps_count|keeps_count|keeps_count|keeps_count].
Qed.


(** A root document without a closing body tag: injectPWACode inserts the
    head tags and no registration block, and a second run changes nothing. *)
Lemma injectPWACode_open_page_no_registration :
  validateHTML openPage = true /\
  plainConfig demoConfig = true /\
  includes "serviceWorker" (injectPWACode demoConfig demoFiles openPage) = false /\
  includes (swRegistration demoConfig demoFiles)
           (injectPWACode demoConfig demoFiles
              (injectPWACode demoConfig demoFiles openPage)) = false /\
  injectPWACode demoConfig demoFiles (injectPWACode demoConfig demoFiles openPage)
  = injectPWACode demoConfig demoFiles openPage.
Proof. vm_compute. repeat split. Qed.

(** C6, as amended.  For every document [html] that injectPWACode receives:
    each of the four head insertions (viewport, theme-color, manifest link,
    Apple meta tags) is skipped when its guard text ([viewport],
    [theme-color], [manifest], [apple-mobile-web-app]) occurs in [html],
    case-insensitively, so the result is that of the other steps alone;
    and the registration step, which has no guard text but replaces the
    first closing body tag, leaves a document without one as it is.

    When the interpolated form values are plain (no dollar sign, no opening
    angle bracket), more holds.  A step that is skipped adds no tag of its
    kind through the other steps either: the number of places where the
    start of that tag occurs is the same in the result as in [html].  A
    document without a closing body tag gets the head insertions only: the
    result has no closing body tag and no more script elements than
    [html], and a second run changes nothing.  A document with a closing
    body tag gets the registration block right before the first such tag,
    and a second run, on the output of the first, puts a second copy of
    the block right after the first one. *)
Theorem injectPWACode_guards_and_registration
    (config : Config.t) (allFiles : list Info.t) (html : string) :
  (includes "viewport" (toLowerCase html) = true ->
   injectPWACode config allFiles html =
   addRegistration config allFiles
     (addAppleMeta config (addManifestLink (addThemeColor config html)))) /\
  (includes "theme-color" (toLowerCase html) = true ->
   injectPWACode config allFiles html =
   addRegistration config allFiles
     (addAppleMeta config (addManifestLink (ensureViewport html)))) /\
  (includes "manifest" (toLowerCase html) = true ->
   injectPWACode config allFiles html =
   addRegistration config allFiles
     (addAppleMeta config (addThemeColor config (ensureViewport html)))) /\
  (includes "apple-mobile-web-app" (toLowerCase html) = true ->
   injectPWACode config allFiles html =
   addRegistration config allFiles
     (addManifestLink (addThemeColor config (ensureViewport html)))) /\
  (includes "</body>" (toLowerCase html) = false ->
   addRegistration config allFiles html = html) /\
  (plainConfig config = true ->
   (includes "viewport" (toLowerCase html) = true ->
    occurrences viewportTagStart (injectPWACode config allFiles html)
    = occurrences viewportTagStart html) /\
   (includes "theme-color" (toLowerCase html) = true ->
    occurrences themeColorTagStart (injectPWACode config allFiles html)
    = occurrences themeColorTagStart html) /\
   (includes "manifest" (toLowerCase html) = true ->
    occurrences manifestLinkStart (injectPWACode config allFiles html)
    = occurrences manifestLinkStart html) /\
   (includes "apple-mobile-web-app" (toLowerCase html) = true ->
    occurrences appleMetaStart (injectPWACode config allFiles html)
    = occurrences appleMetaStart html) /\
   (includes "</body>" (toLowerCase html) = false ->
    injectPWACode config allFiles html
    = addAppleMeta config (addManifestLink (addThemeColor config (ensureViewport html))) /\
    includes "</body>" (toLowerCase (injectPWACode config allFiles html)) = false /\
    occurrences scriptTagStart (injectPWACode config allFiles html)
    = occurrences scriptTagStart html /\
    injectPWACode config allFiles (injectPWACode config allFiles html)
    = injectPWACode config allFiles html) /\
   (includes "</body>" (toLowerCase html) = true ->
    exists before after,
      injectPWACode config allFiles html =
        before ++ swRegistration config allFiles ++ newline ++ "</body>" ++ after /\
      injectPWACode config allFiles (injectPWACode config allFiles html) =
        before ++ swRegistration config allFiles ++ newline ++
        swRegistration config allFiles ++ newline ++ "</body>" ++ after)).
Proof.
  destruct (injectPWACode_skips config allFiles html) as (A1 & A2 & A3 & A4).
  split; [exact A1|]. split; [exact A2|]. split; [exact A3|]. split; [exact A4|].
  split.
  { intros H. unfold addRegistration. apply replace_none; [discriminate|exact H]. }
  intros Hplain.
  destruct (injectPWACode_counts config allFiles html Hplain) as (C1 & C2 & C3 & C4).
  split; [exact C1|]. split; [exact C2|]. split; [exact C3|]. split; [exact C4|].
  split.
  { intros H.
    destruct (injectPWACode_open config allFiles html Hplain H) as (E & B & S).
    split; [exact E|]. split; [exact B|]. split; [exact S|].
    rewrite (injectPWACode_again config allFiles html Hplain).
    unfold addRegistration. apply replace_none; [discriminate|exact B]. }
  intros Hbody.
  destruct (plainConfig_fields config Hplain) as (Hn & Hsn & Ha & Hf & Ht & Hs & Hc).
  assert (safe1 : substSafe ("<head>" ++ newline ++ "    " ++ viewportTag))
    by (apply substSafeb_ok; reflexivity).
  assert (safe3 : substSafe ("    " ++ manifestLink ++ newline ++ "</head>"))
    by (apply substSafeb_ok; reflexivity).
  assert (head3 : startFree "<head>" ("    " ++ manifestLink ++ newline ++ "</head>"))
    by (apply startFreeb_ok; reflexivity).
  assert (lineR : exists r, swRegistration config allFiles = String LF r)
    by (eexists; reflexivity).
  exact (run_twice
           ("<head>" ++ newline ++ "    " ++ viewportTag)
           ("    " ++ themeColorTag config ++ newline ++ "</head>")
           ("    " ++ manifestLink ++ newline ++ "</head>")
           (appleMeta config ++ newline ++ "</head>")
           (swRegistration config allFiles)
           safe1 (themeText_safe config Ht) safe3 (appleText_safe config Hsn)
           (registrationText_safe config allFiles Hn Ha Hf Hs Hc)
           eq_refl (themeText_guard config) eq_refl (appleText_guard config)
           (conj (themeText_no_head config Ht) eq_refl)
           (conj head3 eq_refl)
           (conj (appleText_no_head config Hsn) eq_refl)
           (conj (registrationText_no_head config allFiles Hn Ha Hf Hs Hc) eq_refl)
           (conj (registrationText_no_head_end config allFiles Hn Ha Hf Hs Hc) eq_refl)
           (registration_no_body_end config allFiles Hn Ha Hf Hs Hc)
           lineR html Hbody).
Qed.

Lemma injectPWACode_guards_and_registration_witness :
  plainConfig demoConfig = true /\
  includes "</body>" (toLowerCase demoPage) = true /\
  (exists before after,
    injectPWACode demoConfig demoFiles demoPage =
      before ++ swRegistration demoConfig demoFiles ++ newline ++ "</body>" ++ after /\
    injectPWACode demoConfig demoFiles (injectPWACode demoConfig demoFiles demoPage) =
      before ++ swRegistration demoConfig demoFiles ++ newline ++
      swRegistration demoConfig demoFiles ++ newline ++ "</body>" ++ after) /\
  includes "theme-color" (toLowerCase themedPage) = true /\
  occurrences themeColorTagStart (injectPWACode demoConfig demoFiles themedPage) = 1.
Proof.
  destruct (injectPWACode_guards_and_registration demoConfig demoFiles demoPage)
    as (_ & _ & _ & _ & _ & H).
  destruct (injectPWACode_guards_and_registration demoConfig demoFiles themedPage)
    as (_ & _ & _ & _ & _ & H').
  split; [reflexivity|]. split; [reflexivity|].
  split; [apply (H eq_refl); reflexivity|].
  split; [reflexivity|].
  destruct (H' eq_refl) as (_ & T & _).
  rewrite (T eq_refl). reflexivity.
Defined.

(** ** Texts without a single quote *)

Lemma quiet_noQuote v : quiet v = true -> noQuote v = true.
Proof.
  unfold quiet, noQuote. induction v as [|c v IH]; [reflexivity|]. simpl.
  intros H. apply andb_true_iff in H as [H1 H2]. rewrite (IH H2).
  repeat (apply andb_true_iff in H1 as [H1 ?]). now rewrite H1.
Qed.

Lemma quiet_singleLine v : quiet v = true -> singleLine v = true.
Proof.
  unfold quiet, singleLine. induction v as [|c v IH]; [reflexivity|]. simpl.
  intros H. apply andb_true_iff in H as [H1 H2]. rewrite (IH H2).
  repeat (apply andb_true_iff in H1 as [H1 ?]).
  match goal with H : negb (Ascii.eqb c LF) = true |- _ => now rewrite H end.
Qed.

Lemma noQuote_app a b : noQuote (a ++ b) = noQuote a && noQuote b.
Proof. apply string_forallb_app. Qed.

Lemma noQuote_digits d : noQuote (NilEmpty.string_of_uint d) = true.
Proof. induction d; simpl; auto. Qed.

Lemma noQuote_showNat n : noQuote (showNat n) = true.
Proof.
  unfold showNat, NilZero.string_of_uint.
  destruct (Nat.to_uint n); try reflexivity; apply noQuote_digits.
Qed.

Lemma noQuote_jsonEscape c : Ascii.eqb c "'" = false -> noQuote (jsonEscape c) = true.
Proof. destruct c as [[] [] [] [] [] [] [] []]; intros H; try reflexivity; discriminate H. Qed.

Lemma noQuote_jsonQuote s : noQuote s = true -> noQuote (jsonQuote s) = true.
Proof.
  intros H. unfold jsonQuote. rewrite !noQuote_app.
  assert (E : noQuote (jsonEscapeAll s) = true).
  { induction s as [|c s IH]; [reflexivity|].
    unfold noQuote in H. simpl in H. apply andb_true_iff in H as [Hc Hs].
    apply negb_true_iff in Hc.
    cbn [jsonEscapeAll]. rewrite noQuote_app, (noQuote_jsonEscape c Hc). now apply IH. }
  now rewrite E.
Qed.

Lemma noQuote_join sep l :
  noQuote sep = true -> Forall (fun x => noQuote x = true) l -> noQuote (join sep l) = true.
Proof.
  intros Hsep. induction 1 as [|x l Hx Hl IH]; [reflexivity|].
  destruct l as [|y l]; [exact Hx|].
  change (join sep (x :: y :: l)) with (x ++ sep ++ join sep (y :: l)).
  rewrite !noQuote_app, Hx, Hsep. exact IH.
Qed.

Lemma noQuote_stringify_strings urls :
  Forall (fun u => noQuote u = true) urls ->
  noQuote (stringify "" (JArray (map JString urls))) = true.
Proof.
  intros H. destruct urls as [|u us]; [reflexivity|].
  cbn [map]. rewrite stringify_array_cons.
  change (JString u :: map JString us) with (map JString (u :: us)).
  rewrite map_stringify_strings, !noQuote_app.
  rewrite noQuote_join; [reflexivity|reflexivity|].
  apply Forall_forall. intros x Hx. apply in_map_iff in Hx as (v & <- & Hv).
  apply noQuote_jsonQuote. rewrite Forall_forall in H. now apply H.
Qed.

Lemma noQuote_urlsToCache config allFiles :
  noQuote (Config.startUrl config) = true ->
  (forall file, In file allFiles -> noQuote (Info.path file) = true) ->
  Forall (fun u => noQuote u = true) (urlsToCacheOf config allFiles).
Proof.
  intros Hs Hp. rewrite urlsToCacheOf_eq.
  repeat (apply Forall_cons; [now rewrite ?noQuote_app, Hs|]).
  apply Forall_app. split.
  - apply Forall_forall. intros x Hx. apply in_map_iff in Hx as (f & <- & Hf).
    now rewrite noQuote_app, Hs, (Hp f Hf).
  - destruct (Config.enableOffline config); [|constructor].
    apply Forall_cons; [now rewrite noQuote_app, Hs|constructor].
Qed.

Lemma lowerChar_not_quote c :
  Ascii.eqb c "'" = false -> Ascii.eqb "'" (lowerChar c) = false.
Proof. destruct c as [[] [] [] [] [] [] [] []]; intros H; try reflexivity; discriminate H. Qed.

Lemma startFree_noQuote p' v : noQuote v = true -> startFree (String "'" p') v.
Proof.
  induction v as [|c v IH]; intros H y; [apply matchFree_nil|].
  unfold noQuote in H. simpl in H. apply andb_true_iff in H as [Hc Hv].
  apply negb_true_iff in Hc.
  apply matchFree_cons. split; [|now apply IH].
  simpl. now rewrite (lowerChar_not_quote c Hc).
Qed.

(** ** The matches of a pattern in a text of several lines *)

Lemma occurrences_none p X : startFree p X -> occurrences p X = 0.
Proof.
  intros H. rewrite <- (sapp_nil_r X), (occurrences_free p X "" (H "")). reflexivity.
Qed.

Lemma noStraddle_nil p' : noStraddle p' "".
Proof. intros p1 p2 _ Hne. destruct p2; [contradiction|reflexivity]. Qed.

Lemma noStraddle_newline p' b :
  singleLine p' = true -> noStraddle p' (newline ++ b).
Proof.
  intros H p1 p2 E Hne. destruct p2 as [|a p2]; [contradiction|].
  subst p'. unfold singleLine in H. rewrite string_forallb_app in H.
  apply andb_true_iff in H as [_ H]. simpl in H. apply andb_true_iff in H as [Ha _].
  apply negb_true_iff in Ha.
  change (toLowerCase (newline ++ b)) with (String LF (toLowerCase b)).
  simpl. now rewrite Ha.
Qed.

(** A pattern without a line break matches inside the lines only. *)
Lemma occurrences_newline q a b :
  q <> "" -> singleLine q = true ->
  occurrences q (a ++ newline ++ b) = occurrences q a + occurrences q b.
Proof.
  intros Hq H. destruct q as [|p0 p']; [contradiction|].
  assert (Hp' : singleLine p' = true)
    by (unfold singleLine in *; simpl in H; now apply andb_true_iff in H).
  assert (H0 : Ascii.eqb p0 LF = false).
  { unfold singleLine in H. simpl in H. apply andb_true_iff in H as [H _].
    now apply negb_true_iff in H. }
  assert (A : occurrences (String p0 p') (a ++ newline ++ b)
              + occurrences (String p0 p') ""
              = occurrences (String p0 p') (a ++ "")
                + occurrences (String p0 p') (newline ++ b)).
  { apply occurrences_agree. intros u1 u2 _ Hne.
    rewrite (noStraddle_startsWith p0 p' u2 (newline ++ b)) by
      (exact Hne || now apply noStraddle_newline).
    rewrite (noStraddle_startsWith p0 p' u2 "") by (exact Hne || apply noStraddle_nil).
    reflexivity. }
  rewrite sapp_nil_r in A.
  change (occurrences (String p0 p') (newline ++ b))
    with ((if startsWith (String p0 p') (String LF (toLowerCase b)) then 1 else 0)
          + occurrences (String p0 p') b) in A.
  simpl startsWith in A. rewrite H0 in A.
  cbn [andb occurrences] in A. lia.
Qed.

Lemma occurrences_unlines_zero q L :
  q <> "" -> singleLine q = true ->
  Forall (fun x => occurrences q x = 0) L ->
  occurrences q (unlines L) = 0.
Proof.
  intros Hq Hp. induction 1 as [|x L Hx HL IH]; [reflexivity|].
  destruct L as [|y L]; [exact Hx|].
  rewrite unlines_cons, (occurrences_newline q _ _ Hq Hp), Hx. exact IH.
Qed.

(** The matches in a text all lie in one of its entries. *)
Lemma occurrences_unlines_one q A c B :
  q <> "" -> singleLine q = true ->
  Forall (fun x => occurrences q x = 0) A ->
  Forall (fun x => occurrences q x = 0) B ->
  occurrences q (unlines (A ++ c :: B)) = occurrences q c.
Proof.
  intros Hq Hp HA HB.
  assert (EB : forall c, occurrences q (unlines (c :: B)) = occurrences q c).
  { intros c'. destruct B as [|b B]; [reflexivity|].
    rewrite unlines_cons, (occurrences_newline q _ _ Hq Hp).
    rewrite (occurrences_unlines_zero q _ Hq Hp HB). lia. }
  induction HA as [|x A Hx HA IH]; [apply EB|].
  change ((x :: A) ++ c :: B)%list with (x :: (A ++ c :: B))%list.
  destruct A as [|a A].
  - change ([] ++ c :: B)%list with (c :: B).
    rewrite unlines_cons, (occurrences_newline q _ _ Hq Hp), Hx. apply EB.
  - change ((a :: A) ++ c :: B)%list with (a :: (A ++ c :: B))%list in *.
    rewrite unlines_cons, (occurrences_newline q _ _ Hq Hp), Hx. exact IH.
Qed.

Lemma occurrences_count p s : occurrences p s = countMatches p (toLowerCase s).
Proof.
  induction s as [|c s IH]; [reflexivity|].
  cbn [occurrences]. rewrite IH. reflexivity.
Qed.

Ltac count_matches := rewrite ?occurrences_count; vm_compute; reflexivity.

(** ** A pattern with a quote, around a value without one *)

Lemma noQuote_lower v : noQuote (toLowerCase v) = noQuote v.
Proof.
  unfold noQuote, toLowerCase. induction v as [|c v IH]; [reflexivity|].
  simpl. rewrite IH. f_equal.
  destruct c as [[] [] [] [] [] [] [] []]; reflexivity.
Qed.

Lemma startsWith_noQuote q t :
  startsWith q t = true -> noQuote t = true -> noQuote q = true.
Proof.
  intros H Ht. apply startsWith_inv in H as [b ->].
  rewrite noQuote_app in Ht. now apply andb_true_iff in Ht.
Qed.

Lemma properPrefix_app u r : r <> "" -> properPrefix u (u ++ r) = true.
Proof.
  intros Hr. induction u as [|a u IH]; simpl.
  - destruct r; [contradiction|reflexivity].
  - now rewrite Ascii.eqb_refl.
Qed.

Lemma endsQuoteFree_ok q l u1 u2 r :
  endsQuoteFree q l = true -> l = u1 ++ u2 -> u2 <> "" -> q = u2 ++ r -> r <> "" ->
  noQuote u2 = true.
Proof.
  revert l. induction u1 as [|c u1 IH]; intros l H El Hu Eq Hr.
  - simpl in El. subst l. destruct u2 as [|a u2]; [contradiction|].
    cbn [endsQuoteFree] in H. apply andb_true_iff in H as [H _].
    now rewrite Eq, (properPrefix_app _ r Hr) in H.
  - subst l. cbn [append endsQuoteFree] in H. apply andb_true_iff in H as [_ H].
    now apply (IH _ H eq_refl).
Qed.

Lemma tailsNeedQuote_ok c : forall seen p l p2,
  tailsNeedQuote seen p l = true -> p = c ++ p2 -> p2 <> "" ->
  startsWith p2 l = true -> seen || negb (noQuote c) = true.
Proof.
  induction c as [|a c IH]; intros seen p l p2 H E Hp S.
  - simpl in E. subst p. destruct p2 as [|b p2]; [contradiction|].
    cbn [tailsNeedQuote] in H. apply andb_true_iff in H as [H _].
    rewrite S in H. now rewrite H.
  - subst p. cbn [append tailsNeedQuote] in H. apply andb_true_iff in H as [_ H].
    specialize (IH _ _ _ _ H eq_refl Hp S).
    unfold noQuote in *. cbn [string_forallb].
    destruct seen; [reflexivity|]. simpl in *.
    destruct (Ascii.eqb a "'"); [reflexivity|exact IH].
Qed.

Lemma startsAfterQuote_ok q l c p2 :
  startsAfterQuote q l = true -> q = c ++ p2 -> c <> "" -> p2 <> "" ->
  startsWith p2 l = true -> noQuote c = false.
Proof.
  intros H E Hc Hp S. destruct c as [|a c]; [contradiction|].
  subst q. cbn [append startsAfterQuote] in H.
  pose proof (tailsNeedQuote_ok c _ _ _ _ H eq_refl Hp S) as K.
  unfold noQuote in *. cbn [string_forallb].
  destruct (Ascii.eqb a "'"); [reflexivity|]. simpl in *.
  now apply negb_true_iff in K.
Qed.

(** The matches of a pattern that holds a quote, in a text made of a
    literal, a value without a quote and a literal: they lie in the
    literals. *)
Lemma occurrences_around q l1 v l2 :
  noQuote q = false -> noQuote v = true ->
  endsQuoteFree q (toLowerCase l1) = true ->
  startsAfterQuote q (toLowerCase l2) = true ->
  occurrences q (l1 ++ v ++ l2) = occurrences q l1 + occurrences q l2.
Proof.
  intros Hq Hv H1 H2.
  assert (F2 : matchFree q v l2).
  { intros u1 u2 E Hne.
    destruct (startsWith q (toLowerCase (u2 ++ l2))) eqn:S; [exfalso|reflexivity].
    assert (Hu : noQuote (toLowerCase u2) = true).
    { rewrite noQuote_lower. rewrite E, noQuote_app in Hv.
      now apply andb_true_iff in Hv. }
    rewrite toLowerCase_app in S.
    apply startsWith_app_inv in S as [S|(q2 & Eq & Hq2 & S2)].
    - rewrite (startsWith_noQuote _ _ S Hu) in Hq. discriminate.
    - assert (Hc : toLowerCase u2 <> "") by (destruct u2; [contradiction|discriminate]).
      rewrite (startsAfterQuote_ok q _ _ q2 H2 Eq Hc Hq2 S2) in Hu. discriminate. }
  assert (F1 : forall u1 u2, l1 = u1 ++ u2 -> u2 <> "" ->
             startsWith q (toLowerCase (u2 ++ v ++ l2))
             = startsWith q (toLowerCase (u2 ++ ""))).
  { intros u1 u2 E Hne. rewrite sapp_nil_r.
    destruct (startsWith q (toLowerCase u2)) eqn:S0.
    - rewrite toLowerCase_app. now apply startsWith_app_l.
    - destruct (startsWith q (toLowerCase (u2 ++ v ++ l2))) eqn:S; [exfalso|reflexivity].
      rewrite toLowerCase_app in S.
      apply startsWith_app_inv in S as [S|(q2 & Eq & Hq2 & S2)]; [congruence|].
      assert (Hc : toLowerCase u2 <> "") by (destruct u2; [contradiction|discriminate]).
      assert (Hu : noQuote (toLowerCase u2) = true).
      { apply (endsQuoteFree_ok q (toLowerCase l1) (toLowerCase u1) _ q2 H1);
          [now rewrite E, toLowerCase_app|exact Hc|exact Eq|exact Hq2]. }
      rewrite toLowerCase_app in S2.
      apply startsWith_app_inv in S2 as [S2|(q3 & Eq3 & Hq3 & S3)].
      + assert (Hq2' : noQuote q2 = true)
          by (apply (startsWith_noQuote _ _ S2); now rewrite noQuote_lower).
        rewrite Eq, noQuote_app, Hu, Hq2' in Hq. discriminate.
      + assert (Hc' : toLowerCase u2 ++ toLowerCase v <> "")
          by (destruct (toLowerCase u2); [contradiction|discriminate]).
        assert (Eq' : q = (toLowerCase u2 ++ toLowerCase v) ++ q3)
          by (now rewrite sapp_assoc, <- Eq3).
        pose proof (startsAfterQuote_ok q _ _ q3 H2 Eq' Hc' Hq3 S3) as K.
        rewrite noQuote_app, Hu, noQuote_lower, Hv in K. discriminate. }
  pose proof (occurrences_agree q l1 (v ++ l2) "" F1) as A.
  rewrite sapp_nil_r, (occurrences_free q v l2 F2) in A.
  cbn [occurrences] in A. lia.
Qed.

Lemma occurrences_before q l1 v :
  noQuote q = false -> noQuote v = true ->
  endsQuoteFree q (toLowerCase l1) = true ->
  occurrences q (l1 ++ v) = occurrences q l1.
Proof.
  intros Hq Hv H1.
  rewrite <- (sapp_nil_r v), (occurrences_around q l1 v "" Hq Hv H1).
  - cbn [occurrences]. lia.
  - destruct q as [|a q]; [reflexivity|]. cbn [startsAfterQuote toLowerCase string_map].
    generalize (Ascii.eqb a "'"). clear. induction q as [|b q IH]; intros seen; [reflexivity|].
    cbn [tailsNeedQuote startsWith]. apply IH.
Qed.

Lemma occurrences_noQuote q X :
  noQuote q = false -> noQuote X = true -> occurrences q X = 0.
Proof.
  intros Hq. induction X as [|c X IH]; intros HX; [reflexivity|].
  cbn [occurrences].
  destruct (startsWith q (toLowerCase (String c X))) eqn:S.
  - apply startsWith_noQuote in S; [congruence|now rewrite noQuote_lower].
  - apply IH. unfold noQuote in *. simpl in HX. now apply andb_true_iff in HX.
Qed.

(** ** The listeners of the service worker *)

Ltac quote_value := first [assumption | apply noQuote_showNat].

(** [occurrences q X = 0] for an entry [X] of a template: one of the
    entries settled beforehand, a literal, or a value without a quote
    between literals. *)
Ltac zero_entry :=
  lazymatch goal with
  | |- occurrences _ ?X = 0 =>
      lazymatch X with
      | context [lookupStrategy] =>
          lazymatch goal with H : occurrences _ (_ ++ lookupStrategy _ _) = 0 |- _ => exact H end
      | context [generateNotificationHandlers] =>
          lazymatch goal with
          | H : occurrences _ (if _ then generateNotificationHandlers _ else _) = 0 |- _ =>
              exact H
          end
      | context [stringify] =>
          lazymatch goal with H : occurrences _ (_ ++ stringify _ _ ++ _) = 0 |- _ => exact H end
      | context [Config.enableOffline] =>
          lazymatch goal with
          | H : occurrences _ (_ ++ (if Config.enableOffline _ then _ else _) ++ _) = 0 |- _ =>
              exact H
          end
      | _ =>
          tryif is_open X
          then (rewrite ?sapp_assoc;
                lazymatch goal with
                | |- occurrences ?q (?l1 ++ ?v ++ ?l2) = 0 =>
                    rewrite (occurrences_around q l1 v l2);
                    [ count_matches | reflexivity | quote_value
                    | vm_compute; reflexivity | vm_compute; reflexivity ]
                | |- occurrences ?q (?l1 ++ ?v) = 0 =>
                    rewrite (occurrences_before q l1 v);
                    [ count_matches | reflexivity | quote_value
                    | vm_compute; reflexivity ]
                end)
          else count_matches
      end
  end.

Ltac zero_entries :=
  repeat (apply Forall_cons; [zero_entry|]); apply Forall_nil.

Section EventNames.

Variables (config : Config.t) (allFiles : list Info.t).
Variables (key : string) (generator : Config.t -> string).
Hypothesis Hin : In (key, generator) strategyGenerators.
Hypothesis Hkey : Config.cacheStrategy config = key.
Hypothesis Hname : noQuote (Config.name config) = true.
Hypothesis Hfolder : noQuote (Config.folderName config) = true.
Hypothesis Hstart : noQuote (Config.startUrl config) = true.
Hypothesis Hscope : noQuote (Config.scope config) = true.
Hypothesis Hpaths : forall file, In file allFiles -> noQuote (Info.path file) = true.

Let T := serviceWorkerTemplate config allFiles.

Lemma strategyKey_noQuote : noQuote (Config.cacheStrategy config) = true.
Proof.
  rewrite Hkey. simpl in Hin.
  destruct Hin as [H|[H|[H|[]]]]; inversion H; reflexivity.
Qed.

Lemma precache_no_listener q :
  noQuote q = false ->
  occurrences q ("const urlsToCache = "
                   ++ stringify "" (JArray (map JString (urlsToCacheOf config allFiles)))
                   ++ ";") = 0.
Proof.
  intros Hq. apply occurrences_noQuote; [exact Hq|].
  rewrite !noQuote_app, noQuote_stringify_strings; [reflexivity|].
  now apply noQuote_urlsToCache.
Qed.

Lemma strategy_no_listener event :
  In event ["install"; "activate"; "fetch"; "sync"; "push"; "notificationclick"] ->
  occurrences (listenerStart event)
    ("    " ++ lookupStrategy (Config.cacheStrategy config) (cacheStrategies config)) = 0.
Proof.
  intros He. rewrite Hkey, (strategyGenerators_lookup key generator config Hin).
  clear -Hin He. simpl in Hin, He.
  destruct Hin as [H|[H|[H|[]]]]; inversion H; subst;
    unfold generateCacheFirstStrategy, cacheFirstTemplate,
      generateNetworkFirstStrategy, networkFirstTemplate,
      generateStaleWhileRevalidateStrategy, staleWhileRevalidateTemplate;
    destruct (Config.enableOffline config);
    repeat (destruct He as [<-|He]; [count_matches|]); contradiction.
Qed.

Lemma offlineUrl_no_listener q :
  noQuote q = false ->
  endsQuoteFree q (toLowerCase "const OFFLINE_URL = '") = true ->
  startsAfterQuote q (toLowerCase "offline.html';") = true ->
  occurrences q "const OFFLINE_URL = '" = 0 ->
  occurrences q "offline.html';" = 0 ->
  occurrences q "const OFFLINE_URL = '';" = 0 ->
  occurrences q
    ("const OFFLINE_URL = '"
       ++ (if Config.enableOffline config
           then Config.startUrl config ++ "offline.html" else "")
       ++ "';") = 0.
Proof.
  intros Hq H1 H2 Z1 Z2 Z3.
  destruct (Config.enableOffline config); [|exact Z3].
  rewrite sapp_assoc.
  rewrite (occurrences_around q _ (Config.startUrl config) ("offline.html" ++ "';")
             Hq Hstart H1 H2).
  change ("offline.html" ++ "';") with "offline.html';". now rewrite Z1, Z2.
Qed.

Ltac no_listeners :=
  pose proof strategyKey_noQuote as Hstrategy;
  lazymatch goal with
  | |- Forall (fun x => occurrences ?q x = 0) _ =>
      let H11 := fresh "H11" in
      let H9 := fresh "H9" in
      pose proof (precache_no_listener q eq_refl) as H11;
      assert (H9 : occurrences q
                     ("const OFFLINE_URL = '"
                        ++ (if Config.enableOffline config
                            then Config.startUrl config ++ "offline.html" else "")
                        ++ "';") = 0)
        by (apply offlineUrl_no_listener;
            [reflexivity|vm_compute; reflexivity|vm_compute; reflexivity
            |count_matches|count_matches|count_matches])
  end;
  subst T;
  cbv beta iota zeta delta [firstn skipn serviceWorkerTemplate cacheNameOf
                              notificationTemplate];
  zero_entries.

Lemma notifications_no_listener event :
  In event ["install"; "activate"; "fetch"; "sync"] ->
  occurrences (listenerStart event)
    (if Config.enableNotifications config
     then generateNotificationHandlers config else "") = 0.
Proof.
  intros He. destruct (Config.enableNotifications config); [|reflexivity].
  unfold generateNotificationHandlers. simpl in He.
  repeat (destruct He as [<-|He];
          [apply occurrences_unlines_zero; [discriminate|reflexivity|];
           cbv beta iota zeta delta [notificationTemplate]; zero_entries|]).
  contradiction.
Qed.

Ltac listener_in_template i event :=
  let H52 := fresh "H52" in
  let H55 := fresh "H55" in
  pose proof (strategy_no_listener event ltac:(simpl; auto 10)) as H52;
  pose proof (notifications_no_listener event ltac:(simpl; auto 10)) as H55;
  unfold generateServiceWorker;
  change (serviceWorkerTemplate config allFiles)
    with (firstn i T ++ nth i T "" :: skipn (S i) T)%list;
  rewrite (occurrences_unlines_one (listenerStart event)
             (firstn i T) (nth i T "") (skipn (S i) T) ltac:(discriminate) eq_refl);
  [count_matches|no_listeners|no_listeners].

Lemma listener_count_install :
  occurrences (listenerStart "install") (generateServiceWorker config allFiles) = 1.
Proof. listener_in_template 14 "install". Qed.

Lemma listener_count_activate :
  occurrences (listenerStart "activate") (generateServiceWorker config allFiles) = 1.
Proof. listener_in_template 34 "activate". Qed.

Lemma listener_count_fetch :
  occurrences (listenerStart "fetch") (generateServiceWorker config allFiles) = 1.
Proof. listener_in_template 51 "fetch". Qed.

Lemma listener_count_sync :
  occurrences (listenerStart "sync") (generateServiceWorker config allFiles) = 1.
Proof. listener_in_template 58 "sync". Qed.

Ltac listener_in_notifications i event :=
  let H52 := fresh "H52" in
  pose proof (strategy_no_listener event ltac:(simpl; auto 10)) as H52;
  unfold generateServiceWorker;
  change (serviceWorkerTemplate config allFiles)
    with (firstn 55 T ++ nth 55 T "" :: skipn 56 T)%list;
  rewrite (occurrences_unlines_one (listenerStart event)
             (firstn 55 T) (nth 55 T "") (skipn 56 T) ltac:(discriminate) eq_refl);
  [ change (nth 55 T "")
      with (if Config.enableNotifications config
            then generateNotificationHandlers config else "");
    destruct (Config.enableNotifications config); [|reflexivity];
    unfold generateNotificationHandlers;
    change (notificationTemplate config)
      with (firstn i (notificationTemplate config)
              ++ nth i (notificationTemplate config) ""
              :: skipn (S i) (notificationTemplate config))%list;
    rewrite (occurrences_unlines_one (listenerStart event)
               (firstn i (notificationTemplate config))
               (nth i (notificationTemplate config) "")
               (skipn (S i) (notificationTemplate config)) ltac:(discriminate) eq_refl);
    [ count_matches
    | cbv beta iota zeta delta [firstn skipn notificationTemplate]; zero_entries
    | cbv beta iota zeta delta [firstn skipn notificationTemplate]; zero_entries ]
  | no_listeners | no_listeners ].

Lemma listener_count_push :
  occurrences (listenerStart "push") (generateServiceWorker config allFiles)
  = if Config.enableNotifications config then 1 else 0.
Proof. listener_in_notifications 2 "push". Qed.

Lemma listener_count_notificationclick :
  occurrences (listenerStart "notificationclick") (generateServiceWorker config allFiles)
  = if Config.enableNotifications config then 1 else 0.
Proof. listener_in_notifications 24 "notificationclick". Qed.

End EventNames.

(** ** C1 *)

(** The form values are interpolated as they are.  With this name, which
    is one line of text, the service worker of the cache-first strategy
    has the text of the fetch listener four times: once in the template's
    own line, and once for each place of the name, two of them statements
    of the script. *)
Lemma generateServiceWorker_quoted_name_adds_listeners :
  Config.cacheStrategy quotedConfig = "cache-first" /\
  singleLine (Config.name quotedConfig) = true /\
  occurrences (listenerStart "fetch") (generateServiceWorker quotedConfig []) = 4 /\
  In ("    console.log('[Service Worker] Installing for x'); "
        ++ "self.addEventListener('fetch', event => {}); console.log('...');")
     (lines (generateServiceWorker quotedConfig [])).
Proof.
  split; [reflexivity|]. split; [reflexivity|].
  split; [rewrite occurrences_count; vm_compute; reflexivity|].
  vm_compute. tauto.
Qed.

(** C1, as amended.  Let the cacheStrategy be one of the three keys, let
    the name, the folder name, the start URL and the scope be quiet (no
    single quote, backslash, asterisk or line break: the value stays
    inside the string or the comment the template puts it in), and let no
    uploaded path hold a single quote.  Then the text that
    generateServiceWorker returns registers a fetch listener in one place
    only: the text [addEventListener('fetch'] occurs exactly once in it, in
    whatever case of letters, and so does the line of the template that
    registers the listener.  That line is followed by the text of the
    selected generator and the closing [});].  The line [event.respondWith(]
    occurs once; the statement that opens the response of a strategy is a
    line of the text for the selected strategy only; the text of the
    selected generator occurs in the service worker, the text of neither
    other generator does. *)
Theorem generateServiceWorker_one_strategy
  (config : Config.t) (allFiles : list Info.t)
  (key : string) (generator : Config.t -> string) :
  In (key, generator) strategyGenerators ->
  Config.cacheStrategy config = key ->
  quiet (Config.name config) = true ->
  quiet (Config.folderName config) = true ->
  quiet (Config.startUrl config) = true ->
  quiet (Config.scope config) = true ->
  (forall file, In file allFiles -> noQuote (Info.path file) = true) ->
  let text := generateServiceWorker config allFiles in
  nth_error (serviceWorkerTemplate config allFiles) 51 = Some fetchListenerLine /\
  nth_error (serviceWorkerTemplate config allFiles) 52 = Some ("    " ++ generator config) /\
  occurrences (listenerStart "fetch") text = 1 /\
  countLines fetchListenerLine text = 1 /\
  (exists before after,
     text = before ++ newline ++ fetchListenerLine ++ newline
              ++ "    " ++ generator config ++ newline ++ "});" ++ newline ++ after) /\
  (exists before after,
     lines text =
     (before ++ fetchListenerLine :: lines ("    " ++ generator config)
             ++ "});" :: after)%list) /\
  countLines "    event.respondWith(" text = 1 /\
  (forall key' marker',
     assoc key' strategyMarkers = Some marker' ->
     countLines marker' text = if String.eqb key' key then 1 else 0) /\
  includes (generator config) text = true /\
  (forall key' generator',
     In (key', generator') strategyGenerators -> key' <> key ->
     includes (generator' config) text = false).
Proof.
  intros Hin Hkey Qn Qf Qs Qc Hpaths text.
  pose proof (quiet_singleLine _ Qn) as Hn. pose proof (quiet_singleLine _ Qf) as Hf.
  pose proof (quiet_singleLine _ Qs) as Hs. pose proof (quiet_singleLine _ Qc) as Hc.
  assert (Hk : singleLine (Config.cacheStrategy config) = true).
  { rewrite Hkey. simpl in Hin.
    destruct Hin as [H|[H|[H|[]]]]; inversion H; reflexivity. }
  assert (Hslot : nth 52 (serviceWorkerTemplate config allFiles) ""
                  = "    " ++ generator config).
  { change (nth 52 (serviceWorkerTemplate config allFiles) "")
      with ("    " ++ lookupStrategy (Config.cacheStrategy config) (cacheStrategies config)).
    now rewrite Hkey, (strategyGenerators_lookup key generator config Hin). }
  destruct (countLines_strategy_lines key generator config allFiles
              Hin Hkey Hn Hf Hs Hc) as [Hone Hmarks].
  split; [reflexivity|].
  split.
  { change (nth_error (serviceWorkerTemplate config allFiles) 52)
      with (Some (nth 52 (serviceWorkerTemplate config allFiles) "")).
    now rewrite Hslot. }
  split.
  { exact (listener_count_fetch config allFiles key generator Hin Hkey
             (quiet_noQuote _ Qn) (quiet_noQuote _ Qf) (quiet_noQuote _ Qs)
             (quiet_noQuote _ Qc) Hpaths). }
  split; [exact Hone|].
  split.
  { subst text. unfold generateServiceWorker.
    set (T := serviceWorkerTemplate config allFiles) in *.
    exists (unlines (firstn 51 T)), (unlines (skipn 54 T)).
    assert (E : T = (firstn 51 T ++ fetchListenerLine :: nth 52 T "" :: "});" :: skipn 54 T)%list)
      by reflexivity.
    rewrite E at 1. rewrite Hslot.
    rewrite unlines_app_cons by discriminate.
    destruct (firstn 51 T) eqn:F; [discriminate F|].
    assert (E54 : skipn 54 T <> []) by discriminate.
    destruct (skipn 54 T) eqn:G; [contradiction|].
    rewrite !unlines_cons. now rewrite !sapp_assoc. }
  split.
  { subst text.
    rewrite (lines_generateServiceWorker config allFiles Hn Hk Hf Hs Hc).
    cbv zeta. rewrite Hslot.
    set (T := serviceWorkerTemplate config allFiles).
    exists (firstn 11 T ++ lines (nth 11 T "") ++ firstn 39 (skipn 12 T))%list,
           ("" :: lines (nth 55 T "") ++ skipn 56 T)%list.
    change (firstn 40 (skipn 12 T))
      with (firstn 39 (skipn 12 T) ++ [fetchListenerLine])%list.
    change (firstn 2 (skipn 53 T)) with ["});"; ""].
    rewrite <- !app_assoc. reflexivity. }
  split.
  { subst text.
    rewrite countLines_serviceWorker by (assumption || reflexivity).
    cbv zeta. rewrite Hslot. clear -Hin. simpl in Hin.
    destruct Hin as [H|[H|[H|[]]]]; inversion H; subst;
      destruct config as [name shortName appId folderName description themeColor
                            backgroundColor startUrl scope display orientation
                            cacheStrategy enableOffline enableNotifications];
      destruct enableOffline, enableNotifications; vm_compute; reflexivity. }
  split; [exact Hmarks|].
  split.
  { subst text. destruct (strategy_slot config allFiles) as (a & b & ->).
    rewrite Hkey, (strategyGenerators_lookup key generator config Hin).
    apply includes_app. }
  intros key' generator' Hin' Hne.
  destruct (includes (generator' config) text) eqn:E; [exfalso|reflexivity].
  apply includes_inv in E as (a & b & E).
  destruct (strategyGenerators_marker key' generator' Hin') as [marker' Hm].
  destruct (strategy_marker_line key' generator' marker' config Hin' Hm)
    as (Hsingle & p & q & Hg).
  assert (Hline : In marker' (lines text)).
  { rewrite E, Hg. now apply middle_line_survives. }
  apply countIn_present in Hline.
  apply Hline. fold (countLines marker' text). subst text.
  rewrite (Hmarks key' marker' Hm).
  destruct (String.eqb key' key) eqn:Ek; [|reflexivity].
  apply String.eqb_eq in Ek. contradiction.
Qed.

Lemma generateServiceWorker_one_strategy_witness :
  occurrences (listenerStart "fetch") (generateServiceWorker demoConfig demoFiles) = 1 /\
  countLines fetchListenerLine (generateServiceWorker demoConfig demoFiles) = 1 /\
  includes (generateCacheFirstStrategy demoConfig)
           (generateServiceWorker demoConfig demoFiles) = true /\
  includes (generateNetworkFirstStrategy demoConfig)
           (generateServiceWorker demoConfig demoFiles) = false /\
  includes (generateStaleWhileRevalidateStrategy demoConfig)
           (generateServiceWorker demoConfig demoFiles) = false.
Proof.
  destruct (generateServiceWorker_one_strategy demoConfig demoFiles
              "cache-first" generateCacheFirstStrategy)
    as (_ & _ & Hocc & Hone & _ & _ & _ & _ & Hsel & Hothers);
    try reflexivity; [simpl; auto|intros file [<-|[]]; reflexivity|].
  split; [exact Hocc|]. split; [exact Hone|]. split; [exact Hsel|]. split.
  - apply (Hothers "network-first"); [simpl; auto|discriminate].
  - apply (Hothers "stale-while-revalidate"); [simpl; auto|discriminate].
Defined.


(** ** The archive of downloadAll *)

Lemma zipGet_zipFile_same name data zip :
  zipGet name (zipFile name data zip) = Some data.
Proof.
  unfold zipGet. induction zip as [|[n d] rest IH]; cbn [zipFile assoc].
  - now rewrite String.eqb_refl.
  - destruct (String.eqb n name) eqn:E; cbn [assoc]; rewrite E; [reflexivity|exact IH].
Qed.

Lemma zipGet_zipFile_other name data zip other :
  name <> other -> zipGet other (zipFile name data zip) = zipGet other zip.
Proof.
  intros Hne. unfold zipGet.
  induction zip as [|[n d] rest IH]; cbn [zipFile assoc].
  - apply String.eqb_neq in Hne. now rewrite Hne.
  - destruct (String.eqb n name) eqn:E; cbn [assoc].
    + apply String.eqb_eq in E. subst n.
      apply String.eqb_neq in Hne. now rewrite Hne.
    + now rewrite IH.
Qed.

Lemma zipGet_zipFile name data zip other :
  zipGet other (zipFile name data zip) =
  if String.eqb name other then Some data else zipGet other zip.
Proof.
  destruct (String.eqb_spec name other) as [->|Hne].
  - apply zipGet_zipFile_same.
  - now apply zipGet_zipFile_other.
Qed.

Lemma addUserFile_zipFile st gen zip file :
  addUserFile st gen zip file = zipFile (Info.path file) (userData st gen file) zip.
Proof.
  unfold addUserFile, userData.
  destruct (String.eqb_spec (Info.path file) "index.html") as [->|_]; [reflexivity|].
  now destruct (match Files.js st with Some js => _ | None => false end).
Qed.

Lemma addIcon_zipFile zip entry :
  addIcon zip entry = zipFile ("icons/" ++ fst entry) (IconBlob (snd entry)) zip.
Proof. reflexivity. Qed.

(** A loop of writes: a name holds what the last write to it put there, or,
    when no write of the loop names it, what it held before. *)
Section Writes.

Context {E : Type} (key : E -> string) (value : E -> Data).
Context (step : Archive -> E -> Archive).
Hypothesis step_zipFile : forall zip e, step zip e = zipFile (key e) (value e) zip.

Lemma zipGet_loop_other name entries zip :
  ~ In name (map key entries) ->
  zipGet name (fold_left step entries zip) = zipGet name zip.
Proof.
  revert zip. induction entries as [|e entries IH]; intros zip Hn; [reflexivity|].
  cbn [fold_left]. rewrite IH by (intros H; apply Hn; now right).
  rewrite step_zipFile. apply zipGet_zipFile_other.
  intros H. apply Hn. now left.
Qed.

Lemma zipGet_loop_written e entries zip :
  NoDup (map key entries) -> In e entries ->
  zipGet (key e) (fold_left step entries zip) = Some (value e).
Proof.
  revert zip. induction entries as [|x entries IH]; intros zip Hnd Hin; [contradiction|].
  cbn [map] in Hnd. inversion Hnd as [|? ? Hx Hnd']; subst.
  cbn [fold_left]. destruct Hin as [->|Hin].
  - rewrite (zipGet_loop_other (key e) entries _ Hx), step_zipFile.
    apply zipGet_zipFile_same.
  - now apply IH.
Qed.

Lemma zipGet_loop_names name entries zip :
  isSome (zipGet name (fold_left step entries zip)) = true <->
  In name (map key entries) \/ isSome (zipGet name zip) = true.
Proof.
  revert zip. induction entries as [|e entries IH]; intros zip; cbn [fold_left map].
  - split; [now right|now intros [[]|H]].
  - rewrite IH, step_zipFile, zipGet_zipFile. cbn [In].
    destruct (String.eqb_spec (key e) name) as [->|Hne]; cbn [isSome].
    + tauto.
    + split; [tauto|]. intros [[H|H]|H]; [contradiction|now left|now right].
Qed.

End Writes.

Lemma icon_paths_NoDup (icons : list (string * string)) :
  NoDup (map fst icons) ->
  NoDup (map (fun entry : string * string => "icons/" ++ fst entry) icons).
Proof.
  induction icons as [|e icons IH]; cbn [map]; intros H; [constructor|].
  inversion H as [|? ? Hn Hnd]; subst. constructor; [|now apply IH].
  intros Hin. apply in_map_iff in Hin as (x & Hx & Hin).
  apply Hn. injection Hx as Hx. rewrite <- Hx. now apply in_map.
Qed.

Lemma generatedPaths_In gen name :
  In name (generatedPaths gen) <->
  name = "manifest.json" \/ name = "sw.js" \/
  (truthy (Generated.offline gen) = true /\ name = "offline.html") \/
  In name (map (fun entry : string * string => "icons/" ++ fst entry) (iconEntries gen)) \/
  name = "README.md".
Proof.
  unfold generatedPaths. rewrite !in_app_iff. cbn [In].
  destruct (truthy (Generated.offline gen)); cbn [In]; intuition congruence.
Qed.

(** The archive before the generated files are written. *)
Lemma downloadAll_steps config st gen readme :
  archiveOf config st gen readme =
  zipFile "README.md" (Text readme)
    (fold_left addIcon (iconEntries gen)
       ((if truthy (Generated.offline gen)
         then zipFile "offline.html" (dataOf (Generated.offline gen))
         else fun zip => zip)
          (zipFile "sw.js" (dataOf (Generated.serviceWorker gen))
             (zipFile "manifest.json" (dataOf (Generated.manifest gen))
                (fold_left (addUserFile st gen) (Files.allFiles st) []))))).
Proof.
  unfold archiveOf, downloadAll, iconEntries. cbn [fst].
  destruct (Generated.icons gen), (truthy (Generated.offline gen)); reflexivity.
Qed.

(** A name downloadAll does not write after the loop holds what the loop
    over the uploaded files left there. *)
Lemma downloadAll_frame config st gen readme name :
  ~ In name (generatedPaths gen) ->
  zipGet name (archiveOf config st gen readme) =
  zipGet name (fold_left (addUserFile st gen) (Files.allFiles st) []).
Proof.
  intros H. rewrite generatedPaths_In in H.
  rewrite downloadAll_steps.
  rewrite zipGet_zipFile_other by (intros <-; tauto).
  rewrite (zipGet_loop_other _ _ addIcon addIcon_zipFile) by tauto.
  assert (Hoff : forall zip,
    zipGet name ((if truthy (Generated.offline gen)
                  then zipFile "offline.html" (dataOf (Generated.offline gen))
                  else fun zip => zip) zip) = zipGet name zip).
  { intros zip. destruct (truthy (Generated.offline gen)); [|reflexivity].
    apply zipGet_zipFile_other. intros <-. tauto. }
  rewrite Hoff.
  rewrite !zipGet_zipFile_other by (intros <-; tauto).
  reflexivity.
Qed.

Lemma not_icon_path name (icons : list (string * string)) :
  startsWith "icons/" name = false ->
  ~ In name (map (fun entry : string * string => "icons/" ++ fst entry) icons).
Proof.
  intros H Hin. apply in_map_iff in Hin as (x & <- & _).
  now rewrite startsWith_app in H.
Qed.

(** The files downloadAll writes after the loop are in the archive as
    written. *)
Lemma downloadAll_generated config st gen readme :
  NoDup (map fst (iconEntries gen)) ->
  let zip := archiveOf config st gen readme in
  zipGet "manifest.json" zip = Some (dataOf (Generated.manifest gen)) /\
  zipGet "sw.js" zip = Some (dataOf (Generated.serviceWorker gen)) /\
  (truthy (Generated.offline gen) = true ->
   zipGet "offline.html" zip = Some (dataOf (Generated.offline gen))) /\
  (forall entry, In entry (iconEntries gen) ->
     zipGet ("icons/" ++ fst entry) zip = Some (IconBlob (snd entry))) /\
  zipGet "README.md" zip = Some (Text readme).
Proof.
  intros Hnd zip. subst zip. rewrite downloadAll_steps.
  assert (Hoff : forall name zip, name <> "offline.html" ->
    zipGet name ((if truthy (Generated.offline gen)
                  then zipFile "offline.html" (dataOf (Generated.offline gen))
                  else fun zip => zip) zip) = zipGet name zip).
  { intros name zip Hne. destruct (truthy (Generated.offline gen)); [|reflexivity].
    apply zipGet_zipFile_other. congruence. }
  repeat match goal with |- _ /\ _ => split end.
  - rewrite zipGet_zipFile_other by discriminate.
    rewrite (zipGet_loop_other _ _ addIcon addIcon_zipFile)
      by (apply not_icon_path; reflexivity).
    rewrite Hoff by discriminate.
    rewrite zipGet_zipFile_other by discriminate.
    apply zipGet_zipFile_same.
  - rewrite zipGet_zipFile_other by discriminate.
    rewrite (zipGet_loop_other _ _ addIcon addIcon_zipFile)
      by (apply not_icon_path; reflexivity).
    rewrite Hoff by discriminate.
    apply zipGet_zipFile_same.
  - intros Ht.
    rewrite zipGet_zipFile_other by discriminate.
    rewrite (zipGet_loop_other _ _ addIcon addIcon_zipFile)
      by (apply not_icon_path; reflexivity).
    rewrite Ht. apply zipGet_zipFile_same.
  - intros entry Hin.
    rewrite zipGet_zipFile_other by discriminate.
    apply (zipGet_loop_written (fun e : string * string => "icons/" ++ fst e)
             (fun e => IconBlob (snd e)) addIcon addIcon_zipFile entry);
      [now apply icon_paths_NoDup|exact Hin].
  - apply zipGet_zipFile_same.
Qed.

(** The loop over the uploaded files, on a name of the list. *)
Lemma user_loop_written st gen file :
  NoDup (map Info.path (Files.allFiles st)) ->
  In file (Files.allFiles st) ->
  zipGet (Info.path file) (fold_left (addUserFile st gen) (Files.allFiles st) [])
  = Some (userData st gen file).
Proof.
  apply (zipGet_loop_written Info.path (userData st gen) (addUserFile st gen)
           (addUserFile_zipFile st gen)).
Qed.

Lemma user_loop_names st gen name :
  isSome (zipGet name (fold_left (addUserFile st gen) (Files.allFiles st) [])) = true <->
  In name (map Info.path (Files.allFiles st)).
Proof.
  rewrite (zipGet_loop_names Info.path (userData st gen) (addUserFile st gen)
             (addUserFile_zipFile st gen)).
  cbn. intuition discriminate.
Qed.

(** An uploaded file that owns a generated name is replaced: [sw.js], here
    the primary script, holds the generated service worker and not the
    enhanced script, and [manifest.json] holds the generated manifest and
    not the uploaded bytes. *)
Lemma downloadAll_generated_files_replace_uploads :
  map Info.path (Files.allFiles pwaState)
  = ["index.html"; "sw.js"; "manifest.json"; "css/style.css"] /\
  option_map Ref.path (Files.js pwaState) = Some "sw.js" /\
  Generated.js pwaGenerated = Some "SCRIPT" /\
  zipGet "sw.js" pwaArchive = Some (Text "WORKER") /\
  zipGet "manifest.json" pwaArchive = Some (Text "MANIFEST") /\
  zipGet "css/style.css" pwaArchive
  = Some (UserBlob (File.mk "App/css/style.css" "style.css" "text/css" 7 "body {}")).
Proof. vm_compute. repeat split. Qed.

(** C8, as amended.  For every state of [this.files] whose files have
    distinct relative paths and every [this.generatedFiles] whose icons have
    distinct names, the archive of downloadAll holds exactly the relative
    paths of the uploaded files and the generated names ([manifest.json],
    [sw.js], [offline.html] when an offline page is set, [icons/<name>] for
    every icon, [README.md]).  An uploaded file whose path is not a
    generated name is at its path: [index.html] with the injected HTML, the
    primary script with the enhanced script, any other file with its own
    blob.  Every generated name holds the generated file, also when an
    uploaded file has that path; so without an offline page [offline.html]
    is in the archive only as an uploaded file. *)
Theorem downloadAll_archive
    (config : Config.t) (st : Files.t) (gen : Generated.t) (readme : string) :
  NoDup (map Info.path (Files.allFiles st)) ->
  NoDup (map fst (iconEntries gen)) ->
  (forall name,
     isSome (zipGet name (archiveOf config st gen readme)) = true <->
     In name (map Info.path (Files.allFiles st)) \/ In name (generatedPaths gen)) /\
  (forall file,
     In file (Files.allFiles st) ->
     ~ In (Info.path file) (generatedPaths gen) ->
     zipGet (Info.path file) (archiveOf config st gen readme) =
     Some (if String.eqb (Info.path file) "index.html"
           then dataOf (Generated.html gen)
           else if match Files.js st with
                   | Some js => String.eqb (Info.path file) (Ref.path js)
                   | None => false
                   end
           then dataOf (Generated.js gen)
           else UserBlob (Info.blob file))) /\
  zipGet "manifest.json" (archiveOf config st gen readme)
  = Some (dataOf (Generated.manifest gen)) /\
  zipGet "sw.js" (archiveOf config st gen readme)
  = Some (dataOf (Generated.serviceWorker gen)) /\
  (truthy (Generated.offline gen) = true ->
   zipGet "offline.html" (archiveOf config st gen readme)
   = Some (dataOf (Generated.offline gen))) /\
  (truthy (Generated.offline gen) = false ->
   (isSome (zipGet "offline.html" (archiveOf config st gen readme)) = true <->
    In "offline.html" (map Info.path (Files.allFiles st)))) /\
  (forall entry,
     In entry (iconEntries gen) ->
     zipGet ("icons/" ++ fst entry) (archiveOf config st gen readme)
     = Some (IconBlob (snd entry))) /\
  zipGet "README.md" (archiveOf config st gen readme) = Some (Text readme).
Proof.
  intros Hfiles Hicons.
  destruct (downloadAll_generated config st gen readme Hicons)
    as (Hm & Hs & Ho & Hi & Hr).
  assert (Hnames : forall name,
     isSome (zipGet name (archiveOf config st gen readme)) = true <->
     In name (map Info.path (Files.allFiles st)) \/ In name (generatedPaths gen)).
  { intros name.
    destruct (in_dec string_dec name (generatedPaths gen)) as [Hg|Hg].
    - split; [now right|]. intros _.
      apply generatedPaths_In in Hg as [->|[->|[[Ht ->]|[Hin| ->]]]].
      + now rewrite Hm.
      + now rewrite Hs.
      + now rewrite (Ho Ht).
      + apply in_map_iff in Hin as (entry & <- & Hin). now rewrite (Hi entry Hin).
      + now rewrite Hr.
    - rewrite (downloadAll_frame config st gen readme name Hg), user_loop_names.
      tauto. }
  split; [exact Hnames|]. split.
  { intros file Hin Hg.
    rewrite (downloadAll_frame config st gen readme _ Hg).
    exact (user_loop_written st gen file Hfiles Hin). }
  split; [exact Hm|]. split; [exact Hs|]. split; [exact Ho|]. split.
  { intros Ht. rewrite Hnames, generatedPaths_In, Ht.
    split; [|now left].
    intros [H|[H|[H|[[H _]|[H|H]]]]]; try discriminate; [exact H|].
    exfalso. revert H. apply not_icon_path. reflexivity. }
  split; [exact Hi|exact Hr].
Qed.

Lemma downloadAll_archive_witness :
  NoDup (map Info.path (Files.allFiles pwaState)) /\
  NoDup (map fst (iconEntries pwaGenerated)) /\
  zipGet "index.html" (archiveOf demoConfig pwaState pwaGenerated "README")
  = Some (Text "PAGE") /\
  zipGet "README.md" (archiveOf demoConfig pwaState pwaGenerated "README")
  = Some (Text "README").
Proof.
  assert (H1 : NoDup (map Info.path (Files.allFiles pwaState)))
    by (vm_compute; repeat constructor; cbn [In]; intuition discriminate).
  assert (H2 : NoDup (map fst (iconEntries pwaGenerated)))
    by (vm_compute; repeat constructor; cbn [In]; intuition discriminate).
  split; [exact H1|]. split; [exact H2|].
  destruct (downloadAll_archive demoConfig pwaState pwaGenerated "README" H1 H2)
    as (_ & Hu & _ & _ & _ & _ & _ & Hr).
  split; [|exact Hr].
  apply (Hu (Info.mk "index.html"
               (File.mk "App/index.html" "index.html" "text/html" 15 "<!doctype html>")
               "text/html" 15 "index.html")).
  - vm_compute. left. reflexivity.
  - vm_compute. intuition discriminate.
Defined.

(* ====================================================================== *)
(** * Part III: further properties of the code *)
(* ====================================================================== *)

(** ** sanitizeFolderName: fixed points and what it keeps *)

Lemma nameChar_not_upper_space c :
  isNameChar c = true -> isUpperAZ c = false /\ isSpace c = false.
Proof.
  destruct c as [[] [] [] [] [] [] [] []]; vm_compute; intros H; try discriminate H; auto.
Qed.

Lemma toLowerCase_nameChars s :
  string_forallb isNameChar s = true -> toLowerCase s = s.
Proof.
  unfold toLowerCase. induction s as [|c s IH]; simpl; [reflexivity|].
  intros H. apply andb_true_iff in H as [Hc Hs].
  rewrite (IH Hs). unfold lowerChar.
  now rewrite (proj1 (nameChar_not_upper_space c Hc)).
Qed.

Lemma trimEnd_nameChars s :
  string_forallb isNameChar s = true -> trimEnd s = s.
Proof.
  induction s as [|c s IH]; simpl; [reflexivity|].
  intros H. apply andb_true_iff in H as [Hc Hs].
  rewrite (IH Hs), (proj2 (nameChar_not_upper_space c Hc)).
  now destruct s.
Qed.

Lemma trim_nameChars s :
  string_forallb isNameChar s = true -> trim s = s.
Proof.
  intros H. unfold trim.
  assert (E : trimStart s = s).
  { destruct s as [|c s]; [reflexivity|]. simpl in *.
    apply andb_true_iff in H as [Hc _].
    now rewrite (proj2 (nameChar_not_upper_space c Hc)). }
  rewrite E. now apply trimEnd_nameChars.
Qed.

Lemma replaceRuns_space_nameChars s :
  string_forallb isNameChar s = true -> replaceRuns isSpace "-" false s = s.
Proof.
  induction s as [|c s IH]; simpl; [reflexivity|].
  intros H. apply andb_true_iff in H as [Hc Hs].
  now rewrite (proj2 (nameChar_not_upper_space c Hc)), (IH Hs).
Qed.

Lemma string_filter_all p s :
  string_forallb p s = true -> string_filter p s = s.
Proof.
  induction s as [|c s IH]; simpl; [reflexivity|].
  intros H. apply andb_true_iff in H as [Hc Hs]. now rewrite Hc, (IH Hs).
Qed.

Lemma replaceRuns_hyphen_single b s :
  noHyphenPair s = true -> (b = true -> headIsHyphen s = false) ->
  replaceRuns isHyphen "-" b s = s.
Proof.
  revert b. induction s as [|c s IH]; intros b Hp Hb; simpl; [reflexivity|].
  simpl in Hp. apply andb_true_iff in Hp as [Hc Hs].
  destruct (isHyphen c) eqn:E.
  - simpl in Hc. apply negb_true_iff in Hc.
    destruct b; [specialize (Hb eq_refl); simpl in Hb; congruence|].
    simpl. rewrite (IH true Hs (fun _ => Hc)).
    unfold isHyphen in E. apply Ascii.eqb_eq in E. now subst c.
  - now rewrite (IH false Hs) by discriminate.
Qed.

Lemma dropTrailingHyphen_none s :
  lastIsHyphen s = false -> dropTrailingHyphen s = s.
Proof.
  induction s as [|c s IH]; [reflexivity|].
  destruct s as [|d s]; simpl.
  - now intros ->.
  - intros H. f_equal. apply IH. exact H.
Qed.

Lemma sanitizeFolderName_fixed s :
  string_forallb isNameChar s = true ->
  noHyphenPair s = true -> headIsHyphen s = false -> lastIsHyphen s = false ->
  sanitizeFolderName s = s.
Proof.
  intros Hc Hp Hh Hl. unfold sanitizeFolderName, stripEdgeHyphens.
  rewrite (toLowerCase_nameChars s Hc), (trim_nameChars s Hc),
    (replaceRuns_space_nameChars s Hc), (string_filter_all _ s Hc),
    (replaceRuns_hyphen_single false s Hp) by discriminate.
  assert (E : dropLeadingHyphen s = s).
  { destruct s as [|c s]; [reflexivity|]. simpl in *. now rewrite Hh. }
  rewrite E. now apply dropTrailingHyphen_none.
Qed.

(** sanitizeFolderName changes nothing in a name it has produced: the names
    it leaves as they are are exactly the strings of lowercase letters,
    digits and single hyphens that neither start nor end with a hyphen. *)
Theorem sanitizeFolderName_idempotent (name : string) :
  sanitizeFolderName (sanitizeFolderName name) = sanitizeFolderName name /\
  (sanitizeFolderName name = name <->
   string_forallb isNameChar name = true /\ includes "--" name = false /\
   startsWith "-" name = false /\ endsWith "-" name = false).
Proof.
  assert (Hfix : forall s,
    string_forallb isNameChar s = true /\ includes "--" s = false /\
    startsWith "-" s = false /\ endsWith "-" s = false ->
    sanitizeFolderName s = s).
  { intros s (Hc & Hp & Hh & Hl).
    rewrite noHyphenPair_includes in Hp. apply negb_false_iff in Hp.
    rewrite headIsHyphen_startsWith in Hh. rewrite lastIsHyphen_endsWith in Hl.
    now apply sanitizeFolderName_fixed. }
  split.
  - apply Hfix. exact (sanitizeFolderName_shape name).
  - split; [|apply Hfix].
    intros E. rewrite <- E. exact (sanitizeFolderName_shape name).
Qed.

Lemma nameChar_alnum_or_hyphen c :
  isNameChar c = isAlnum c || isHyphen c.
Proof. reflexivity. Qed.

Lemma alnum_facts c :
  isAlnum c = true -> isSpace c = false /\ isHyphen c = false /\ isNameChar c = true.
Proof.
  destruct c as [[] [] [] [] [] [] [] []]; vm_compute; intros H; try discriminate H; auto.
Qed.

Lemma filter_alnum_trimStart s :
  string_filter isAlnum (trimStart s) = string_filter isAlnum s.
Proof.
  induction s as [|c s IH]; simpl; [reflexivity|].
  destruct (isSpace c) eqn:E; [|reflexivity].
  rewrite IH. destruct (isAlnum c) eqn:A; [|reflexivity].
  apply alnum_facts in A. destruct A as [A _]. congruence.
Qed.

Lemma filter_alnum_trimEnd s :
  string_filter isAlnum (trimEnd s) = string_filter isAlnum s.
Proof.
  induction s as [|c s IH]; simpl; [reflexivity|].
  rewrite <- IH. destruct (trimEnd s) as [|d t]; [|reflexivity].
  destruct (isSpace c) eqn:E; [|reflexivity]. simpl.
  destruct (isAlnum c) eqn:A; [|reflexivity].
  apply alnum_facts in A. destruct A as [A _]. congruence.
Qed.

Lemma filter_alnum_replaceRuns p b s :
  (forall c, isAlnum c = true -> p c = false) ->
  string_filter isAlnum (replaceRuns p "-" b s) = string_filter isAlnum s.
Proof.
  intros Hp. revert b. induction s as [|c s IH]; intros b; simpl; [reflexivity|].
  destruct (p c) eqn:E.
  - assert (A : isAlnum c = false)
      by (destruct (isAlnum c) eqn:A; [rewrite (Hp c A) in E; discriminate|reflexivity]).
    rewrite A. destruct b; simpl; apply IH.
  - simpl. now rewrite IH.
Qed.

Lemma filter_alnum_nameChars s :
  string_filter isAlnum (string_filter isNameChar s) = string_filter isAlnum s.
Proof.
  induction s as [|c s IH]; simpl; [reflexivity|].
  destruct (isNameChar c) eqn:E; simpl; rewrite IH; [reflexivity|].
  destruct (isAlnum c) eqn:A; [|reflexivity].
  apply alnum_facts in A. destruct A as (_ & _ & A). congruence.
Qed.

Lemma filter_alnum_dropLeading s :
  string_filter isAlnum (dropLeadingHyphen s) = string_filter isAlnum s.
Proof.
  destruct s as [|c s]; simpl; [reflexivity|].
  destruct (isHyphen c) eqn:E; [|reflexivity].
  destruct (isAlnum c) eqn:A; [|reflexivity].
  apply alnum_facts in A. destruct A as (_ & A & _). congruence.
Qed.

Lemma filter_alnum_dropTrailing s :
  string_filter isAlnum (dropTrailingHyphen s) = string_filter isAlnum s.
Proof.
  induction s as [|c s IH]; [reflexivity|].
  destruct s as [|d s].
  - simpl. destruct (isHyphen c) eqn:E; [|reflexivity].
    destruct (isAlnum c) eqn:A; [|reflexivity].
    apply alnum_facts in A. destruct A as (_ & A & _). congruence.
  - change (dropTrailingHyphen (String c (String d s)))
      with (String c (dropTrailingHyphen (String d s))).
    cbn [string_filter]. now rewrite IH.
Qed.

Lemma filter_alnum_sanitize name :
  string_filter isAlnum (sanitizeFolderName name)
  = string_filter isAlnum (toLowerCase name).
Proof.
  unfold sanitizeFolderName, stripEdgeHyphens, trim.
  rewrite filter_alnum_dropTrailing, filter_alnum_dropLeading.
  rewrite filter_alnum_replaceRuns by (intros c A; now apply alnum_facts in A).
  rewrite filter_alnum_nameChars.
  rewrite filter_alnum_replaceRuns by (intros c A; now apply alnum_facts in A).
  now rewrite filter_alnum_trimEnd, filter_alnum_trimStart.
Qed.

(** For a name of ASCII characters, sanitizeFolderName keeps the letters and
    digits, lowercased and in order, and puts nothing but hyphens between
    them; so the result is empty exactly when the name has no letter and no
    digit. *)
Theorem sanitizeFolderName_keeps_letters_and_digits (name : string) :
  string_forallb isAscii name = true ->
  string_filter isAlnum (sanitizeFolderName name)
  = string_filter isAlnum (toLowerCase name) /\
  (sanitizeFolderName name = "" <->
   string_filter isAlnum (toLowerCase name) = "").
Proof.
  intros _. split; [apply filter_alnum_sanitize|].
  rewrite <- filter_alnum_sanitize.
  destruct (sanitizeFolderName_shape name) as (Hc & _ & Hh & _).
  destruct (sanitizeFolderName name) as [|c s]; [tauto|].
  split; [discriminate|]. intros E. exfalso.
  cbn [string_forallb] in Hc. apply andb_true_iff in Hc as [Hc _].
  cbn [string_filter] in E.
  destruct (isAlnum c) eqn:A; [discriminate|].
  change (isAlnum c || isHyphen c = true) in Hc. rewrite A in Hc. simpl in Hc.
  rewrite headIsHyphen_startsWith in Hh. simpl in Hh. congruence.
Qed.

Lemma sanitizeFolderName_keeps_letters_and_digits_witness :
  string_filter isAlnum (sanitizeFolderName "My  App_2 (v3)!") = "myapp2v3" /\
  (sanitizeFolderName "?!" = "" <-> string_filter isAlnum (toLowerCase "?!") = "").
Proof.
  split.
  - rewrite (proj1 (sanitizeFolderName_keeps_letters_and_digits "My  App_2 (v3)!" eq_refl)).
    reflexivity.
  - exact (proj2 (sanitizeFolderName_keeps_letters_and_digits "?!" eq_refl)).
Defined.

(** ** Paths: the folder name and the relative path *)

Lemma join_cons sep x y l : join sep (x :: y :: l) = x ++ sep ++ join sep (y :: l).
Proof. reflexivity. Qed.

(** [s.split(c).join(c)] is [s]. *)
Lemma join_split sep s : join (String sep "") (split sep s) = s.
Proof.
  induction s as [|c s IH]; [reflexivity|]. simpl split.
  destruct (Ascii.eqb_spec c sep) as [->|Hne];
    (destruct (split sep s) as [|h t] eqn:E; [now apply split_nonempty in E|]);
    rewrite <- IH; [reflexivity|].
  now destruct t.
Qed.

Lemma includes_char_false c s :
  includes (String c "") s = false ->
  string_forallb (fun x => negb (Ascii.eqb x c)) s = true.
Proof.
  induction s as [|d s IH]; [reflexivity|].
  rewrite includes_cons. intros H. apply orb_false_iff in H as [H1 H2].
  simpl in H1. rewrite andb_true_r in H1.
  simpl. rewrite (IH H2), andb_true_r, Ascii.eqb_sym. now rewrite H1.
Qed.

Lemma split_no_sep c s :
  includes (String c "") s = false -> split c s = [s].
Proof. intros H. now apply split_without_sep, includes_char_false. Qed.

Lemma split_folder_rest folder rest :
  includes "/" folder = false ->
  split "/" (folder ++ "/" ++ rest) = folder :: split "/" rest.
Proof.
  intros H. change (folder ++ "/" ++ rest) with (folder ++ String "/" rest).
  now rewrite split_app_sep, (split_no_sep "/" folder H).
Qed.

(** The relative path of a file is what follows the first slash of its
    path; a path without a slash gives the empty relative path, so such a
    file is no root document even when it is named [index.html]. *)
Theorem getRelativePath_after_first_slash (file : File.t) :
  let fullPath := orElse (File.webkitRelativePath file) (File.name file) in
  (forall folder rest,
     fullPath = folder ++ "/" ++ rest -> includes "/" folder = false ->
     getRelativePath file = rest) /\
  (includes "/" fullPath = false ->
   getRelativePath file = "" /\ isRootDocument file = false /\
   isStylesheet file = false /\ isScript file = false).
Proof.
  intros fullPath. split.
  - intros folder rest E H. unfold getRelativePath. fold fullPath.
    rewrite E, (split_folder_rest folder rest H). cbn [tl].
    apply (join_split "/").
  - intros H.
    assert (E : getRelativePath file = "").
    { unfold getRelativePath. fold fullPath. now rewrite (split_no_sep "/" fullPath H). }
    unfold isRootDocument, isStylesheet, isScript. rewrite E. auto.
Qed.

Lemma getRelativePath_after_first_slash_witness :
  getRelativePath (File.mk "Shop/css/main.css" "main.css" "text/css" 10 "") = "css/main.css" /\
  isRootDocument (File.mk "" "index.html" "text/html" 15 "<!doctype html>") = false.
Proof.
  split.
  - apply (proj1 (getRelativePath_after_first_slash
                    (File.mk "Shop/css/main.css" "main.css" "text/css" 10 ""))
             "Shop" "css/main.css"); reflexivity.
  - apply (proj2 (getRelativePath_after_first_slash
                    (File.mk "" "index.html" "text/html" 15 "<!doctype html>"))).
    reflexivity.
Defined.

(** ** processAllFiles and handleFolderUpload: what the state holds *)

Lemma processFile_frame st file :
  let st' := processFile st file in
  Files.allFiles st' =
    (Files.allFiles st ++
     [Info.mk (getRelativePath file) file
        (orElse (File.type file) (guessFileType (getRelativePath file)))
        (File.size file) (File.name file)])%list /\
  Files.folderName st' = Files.folderName st /\
  Files.sanitizedName st' = Files.sanitizedName st /\
  Files.totalSize st' = Files.totalSize st /\
  Files.icon st' = Files.icon st.
Proof.
  unfold processFile. cbv zeta.
  repeat match goal with
         | |- context [if ?b then _ else _] => destruct b
         end; repeat split; reflexivity.
Qed.

Lemma fold_processFile_frame files : forall st,
  let st' := fold_left processFile files st in
  map Info.blob (Files.allFiles st') = (map Info.blob (Files.allFiles st) ++ files)%list /\
  map Info.path (Files.allFiles st')
  = (map Info.path (Files.allFiles st) ++ map getRelativePath files)%list /\
  map Info.size (Files.allFiles st')
  = (map Info.size (Files.allFiles st) ++ map File.size files)%list /\
  Files.folderName st' = Files.folderName st /\
  Files.sanitizedName st' = Files.sanitizedName st /\
  Files.totalSize st' = Files.totalSize st /\
  Files.icon st' = Files.icon st.
Proof.
  induction files as [|f files IH]; intros st; cbn [fold_left map].
  - rewrite !app_nil_r. repeat split.
  - destruct (IH (processFile st f)) as (A & B & C & D & E & F & G).
    destruct (processFile_frame st f) as (A' & D' & E' & F' & G').
    cbv zeta in *. rewrite A' in A, B, C. rewrite !map_app in A, B, C.
    cbn [map Info.blob Info.path Info.size] in A, B, C.
    rewrite <- !app_assoc in A, B, C. cbn [app] in A, B, C.
    repeat split; congruence.
Qed.

(** processAllFiles replaces the file list by one record for each file of
    the upload, in the order of the upload, and leaves the folder name, the
    sanitized name, the total size and the icon as they were. *)
Theorem processAllFiles_records (st : Files.t) (files : list File.t) :
  let st' := processAllFiles st files in
  map Info.blob (Files.allFiles st') = files /\
  map Info.path (Files.allFiles st') = map getRelativePath files /\
  map Info.size (Files.allFiles st') = map File.size files /\
  length (Files.allFiles st') = length files /\
  Files.folderName st' = Files.folderName st /\
  Files.sanitizedName st' = Files.sanitizedName st /\
  Files.totalSize st' = Files.totalSize st /\
  Files.icon st' = Files.icon st.
Proof.
  unfold processAllFiles.
  destruct (fold_processFile_frame files (Files.setAllFiles st []))
    as (A & B & C & D & E & F & G).
  cbv zeta in *. cbn [Files.setAllFiles Files.allFiles map app] in A, B, C.
  split; [exact A|]. split; [exact B|]. split; [exact C|].
  split; [rewrite <- A at 2; now rewrite length_map|].
  repeat split; assumption.
Qed.

(** How handleFolderUpload ends, and with what state.  An empty selection
    changes nothing.  The catch branch leaves the empty record: the icon
    uploaded before is dropped with the rest.  The success branch leaves a
    root document that passes validateHTML, one record per file, the first
    path segment of the first file as folder name with its sanitized form,
    and a total size of at most 100 MiB; the icon is kept; and the folder
    tree was displayed. *)
Theorem handleFolderUpload_outcomes
  (displayFolderTree : list File.t -> bool) (st : Files.t) (files : list File.t) :
  let '(st', _, outcome) := handleFolderUpload displayFolderTree st files in
  match outcome with
  | Ignored => files = [] /\ st' = st
  | Failed _ => files <> [] /\ st' = Files.empty /\ Files.icon st' = None
  | Loaded =>
      displayFolderTree files = true /\
      (exists first rest, files = first :: rest /\
         Files.folderName st'
         = Some (hd "" (split "/" (orElse (File.webkitRelativePath first)
                                           (File.name first))))) /\
      Files.sanitizedName st' = option_map sanitizeFolderName (Files.folderName st') /\
      map Info.blob (Files.allFiles st') = files /\
      map Info.path (Files.allFiles st') = map getRelativePath files /\
      Files.totalSize st' = sumSizes files /\
      (Files.totalSize st' <= maxSize)%N /\
      (exists root, Files.index st' = Some root /\
                    validateHTML (Ref.content root) = true) /\
      Files.icon st' = Files.icon st
  end.
Proof.
  unfold handleFolderUpload.
  destruct files as [|first rest]; [now split|].
  cbv zeta.
  set (folderName := hd "" (split "/" (orElse (File.webkitRelativePath first)
                                              (File.name first)))).
  set (total := sumSizes (first :: rest)).
  set (st0 := Files.setFolder st folderName (sanitizeFolderName folderName) total).
  destruct (N.ltb_spec maxSize total) as [Hbig|Hok];
    [split; [discriminate|now split]|].
  destruct (processAllFiles_records st0 (first :: rest))
    as (A & B & _ & _ & D & E & F & G).
  cbv zeta in *.
  unfold validateFolderStructure.
  destruct (Files.index (processAllFiles st0 (first :: rest))) as [root|] eqn:Hidx;
    [|split; [discriminate|now split]].
  destruct (validateHTML (Ref.content root)) eqn:Hv;
    [|split; [discriminate|now split]].
  destruct (displayFolderTree (first :: rest)) eqn:Hd;
    [|split; [discriminate|now split]].
  split; [reflexivity|].
  split; [exists first, rest; split; [reflexivity|]; now rewrite D|].
  split; [now rewrite E, D|].
  split; [exact A|]. split; [exact B|].
  split; [now rewrite F|]. split; [now rewrite F|].
  split; [exists root; now split|]. now rewrite G.
Qed.

(** ** injectPWACode: documents without the tags, and a second run *)



(** On its own output injectPWACode skips the four head insertions and only
    runs the registration step, when the interpolated form values are
    plain. *)
Theorem injectPWACode_second_run
    (config : Config.t) (allFiles : list Info.t) (html : string) :
  plainConfig config = true ->
  injectPWACode config allFiles (injectPWACode config allFiles html)
  = addRegistration config allFiles (injectPWACode config allFiles html).
Proof.
  intros Hplain.
  destruct (plainConfig_fields config Hplain) as (Hn & Hsn & Ha & Hf & Ht & Hs & Hc).
  assert (safe1 : substSafe ("<head>" ++ newline ++ "    " ++ viewportTag))
    by (apply substSafeb_ok; reflexivity).
  assert (safe3 : substSafe ("    " ++ manifestLink ++ newline ++ "</head>"))
    by (apply substSafeb_ok; reflexivity).
  assert (head3 : startFree "<head>" ("    " ++ manifestLink ++ newline ++ "</head>"))
    by (apply startFreeb_ok; reflexivity).
  exact (steps_again
           ("<head>" ++ newline ++ "    " ++ viewportTag)
           ("    " ++ themeColorTag config ++ newline ++ "</head>")
           ("    " ++ manifestLink ++ newline ++ "</head>")
           (appleMeta config ++ newline ++ "</head>")
           (swRegistration config allFiles ++ newline ++ "</body>")
           safe1 (themeText_safe config Ht) safe3 (appleText_safe config Hsn)
           (registrationText_safe config allFiles Hn Ha Hf Hs Hc)
           eq_refl (themeText_guard config) eq_refl (appleText_guard config)
           (conj (themeText_no_head config Ht) eq_refl)
           (conj head3 eq_refl)
           (conj (appleText_no_head config Hsn) eq_refl)
           (conj (registrationText_no_head config allFiles Hn Ha Hf Hs Hc) eq_refl)
           (conj (registrationText_no_head_end config allFiles Hn Ha Hf Hs Hc) eq_refl)
           html).
Qed.

Lemma injectPWACode_second_run_witness :
  injectPWACode demoConfig demoFiles (injectPWACode demoConfig demoFiles openPage)
  = addRegistration demoConfig demoFiles (injectPWACode demoConfig demoFiles openPage).
Proof. apply injectPWACode_second_run. reflexivity. Defined.

(** A document in which a tag does not occur keeps injectPWACode from the
    insertions made at that tag, whatever the configuration: without an
    opening head tag no viewport tag is inserted; without a closing head
    tag neither the theme colour, nor the manifest link, nor the Apple tags
    are inserted, also when the viewport tag is; and a document with none
    of the three tags comes back unchanged. *)
Theorem injectPWACode_missing_tags
    (config : Config.t) (allFiles : list Info.t) (html : string) :
  (includes "<head>" (toLowerCase html) = false ->
   injectPWACode config allFiles html =
   addRegistration config allFiles
     (addAppleMeta config (addManifestLink (addThemeColor config html)))) /\
  (includes "</head>" (toLowerCase html) = false ->
   injectPWACode config allFiles html =
   addRegistration config allFiles (ensureViewport html)) /\
  (includes "<head>" (toLowerCase html) = false ->
   includes "</head>" (toLowerCase html) = false ->
   includes "</body>" (toLowerCase html) = false ->
   injectPWACode config allFiles html = html).
Proof.
  assert (H1 : includes "<head>" (toLowerCase html) = false -> ensureViewport html = html).
  { intros H. rewrite (ensureViewport_guarded html).
    apply guarded_no_tag; [discriminate|exact H]. }
  assert (H2 : forall d, includes "</head>" (toLowerCase d) = false ->
               addAppleMeta config (addManifestLink (addThemeColor config d)) = d).
  { intros d H.
    rewrite (addThemeColor_guarded config d),
      (guarded_no_tag "theme-color" "</head>" _ d) by (discriminate || exact H).
    rewrite (addManifestLink_guarded d),
      (guarded_no_tag "manifest" "</head>" _ d) by (discriminate || exact H).
    rewrite (addAppleMeta_guarded config d).
    apply guarded_no_tag; [discriminate|exact H]. }
  assert (H3 : includes "</head>" (toLowerCase html) = false ->
               includes "</head>" (toLowerCase (ensureViewport html)) = false).
  { intros H. unfold ensureViewport.
    destruct (negb (includes "viewport" (toLowerCase html))); [|exact H].
    apply absent_after_replace;
      [exact H|apply startFreeb_ok; reflexivity|reflexivity
      |apply substSafeb_ok; reflexivity]. }
  unfold injectPWACode. cbv zeta.
  split; [intros H; now rewrite (H1 H)|].
  split; [intros Hb; now rewrite (H2 (ensureViewport html) (H3 Hb))|].
  intros Ha Hb Hc. rewrite (H1 Ha), (H2 html Hb).
  unfold addRegistration. apply replace_none; [discriminate|exact Hc].
Qed.

(** ** generatePWA and downloadAll together *)

Lemma archiveOf_names config st gen readme name :
  NoDup (map fst (iconEntries gen)) ->
  isSome (zipGet name (archiveOf config st gen readme)) = true <->
  In name (map Info.path (Files.allFiles st)) \/ In name (generatedPaths gen).
Proof.
  intros Hicons.
  destruct (downloadAll_generated config st gen readme Hicons)
    as (Hm & Hs & Ho & Hi & Hr).
  destruct (in_dec string_dec name (generatedPaths gen)) as [Hg|Hg].
  - split; [now right|]. intros _.
    apply generatedPaths_In in Hg as [->|[->|[[Ht ->]|[Hin| ->]]]].
    + now rewrite Hm.
    + now rewrite Hs.
    + now rewrite (Ho Ht).
    + apply in_map_iff in Hin as (entry & <- & Hin). now rewrite (Hi entry Hin).
    + now rewrite Hr.
  - rewrite (downloadAll_frame config st gen readme name Hg), user_loop_names.
    tauto.
Qed.

Lemma generateIcons_names png :
  map fst (generateIcons png) = map iconName iconSizes.
Proof. reflexivity. Qed.

Lemma iconNames_NoDup : NoDup (map iconName iconSizes).
Proof. vm_compute. repeat constructor; cbn [In]; intuition discriminate. Qed.

Lemma generatePWA_done config st png gen root :
  Files.index st = Some root ->
  let gen' := fst (generatePWA config st png gen) in
  snd (generatePWA config st png gen) = true /\
  Generated.manifest gen' = Some (generateManifest config) /\
  Generated.serviceWorker gen' = Some (generateServiceWorker config (Files.allFiles st)) /\
  Generated.html gen'
  = Some (injectPWACode config (Files.allFiles st) (Ref.content root)) /\
  Generated.js gen' = (if isSome (Files.js st) then Some (enhanceJavaScript config st)
                       else Generated.js gen) /\
  Generated.offline gen' = (if Config.enableOffline config
                            then Some (generateOfflinePage config)
                            else Generated.offline gen) /\
  iconEntries gen' = generateIcons png.
Proof. intros H. unfold generatePWA. rewrite H. cbn. repeat split. Qed.

Lemma offlinePage_truthy config : truthy (Some (generateOfflinePage config)) = true.
Proof. reflexivity. Qed.

(** After a run of generatePWA that reached its end, the archive of
    downloadAll holds the generated manifest, and every icon that manifest
    lists is in the archive: for each of the eight sizes, the entry of the
    manifest for that size gives the path [icons/icon-<size>x<size>.png]
    as its [src] (a line of the manifest text), and the archive holds at
    that path the blob generated for that very size; so it does for the
    icon the Apple tags of the page point to.  This holds also when the
    uploaded folder has files at these paths. *)
Theorem manifest_icons_in_archive
    (config : Config.t) (st : Files.t) (png : nat -> string) (gen : Generated.t)
    (readme : string) (root : Ref.t) :
  Files.index st = Some root ->
  let gen' := fst (generatePWA config st png gen) in
  let zip := archiveOf config st gen' readme in
  zipGet "manifest.json" zip = Some (Text (generateManifest config)) /\
  member "icons" (manifestObject config) = Some (JArray (map iconEntry iconSizes)) /\
  (forall size, In size iconSizes ->
     let src := "icons/icon-" ++ showNat size ++ "x" ++ showNat size ++ ".png" in
     stringMember "src" (iconEntry size) = Some src /\
     stringMember "sizes" (iconEntry size) = Some (showNat size ++ "x" ++ showNat size) /\
     In (memberLine "      " "src" src ++ ",") (lines (generateManifest config)) /\
     zipGet src zip = Some (IconBlob (png size))) /\
  zipGet "icons/icon-192x192.png" zip = Some (IconBlob (png 192)).
Proof.
  intros Hroot gen' zip.
  destruct (generatePWA_done config st png gen root Hroot) as (_ & Hm & _ & _ & _ & _ & Hi).
  fold gen' in Hi, Hm.
  assert (Hnd : NoDup (map fst (iconEntries gen')))
    by (rewrite Hi, generateIcons_names; apply iconNames_NoDup).
  destruct (downloadAll_generated config st gen' readme Hnd) as (Hman & _ & _ & Hicon & _).
  rewrite Hi in Hicon. rewrite Hm in Hman.
  assert (Hsize : forall size, In size iconSizes ->
    zipGet ("icons/" ++ iconName size) zip = Some (IconBlob (png size))).
  { intros size Hin.
    apply (Hicon (iconName size, png size)).
    unfold generateIcons. apply in_map_iff. now exists size. }
  split; [exact Hman|]. split; [reflexivity|]. split.
  - intros size Hin. cbv zeta.
    split; [reflexivity|]. split; [reflexivity|]. split.
    + rewrite lines_generateManifest. apply in_or_app. right.
      unfold iconSizes in Hin.
      repeat (destruct Hin as [<-|Hin]); try contradiction; vm_compute; tauto.
    + exact (Hsize size Hin).
  - apply (Hsize 192). unfold iconSizes. cbn [In]. auto 10.
Qed.

Lemma manifest_icons_in_archive_witness :
  zipGet "icons/icon-512x512.png"
    (archiveOf demoConfig pwaState (fst (generatePWA demoConfig pwaState demoPng pwaGenerated))
       "README")
  = Some (IconBlob (demoPng 512)).
Proof.
  destruct (manifest_icons_in_archive demoConfig pwaState demoPng pwaGenerated "README"
              (Ref.mk "index.html" "<!doctype html>"
                 (File.mk "App/index.html" "index.html" "text/html" 15 "<!doctype html>"))
              eq_refl)
    as (_ & _ & H & _).
  exact (proj2 (proj2 (proj2 (H 512 ltac:(unfold iconSizes; cbn [In]; auto 10))))).
Defined.

(** After a run of generatePWA that reached its end, for a folder that has
    its [index.html] among the uploaded files, every URL of the precache
    list other than the start URL itself is the start URL followed by the
    path of a file of the archive. *)
Theorem precache_urls_in_archive
    (config : Config.t) (st : Files.t) (png : nat -> string) (gen : Generated.t)
    (readme : string) (root : Ref.t) :
  Files.index st = Some root ->
  In "index.html" (map Info.path (Files.allFiles st)) ->
  let gen' := fst (generatePWA config st png gen) in
  forall url,
    In url (urlsToCacheOf config (Files.allFiles st)) ->
    url = Config.startUrl config \/
    exists path,
      url = Config.startUrl config ++ path /\
      isSome (zipGet path (archiveOf config st gen' readme)) = true.
Proof.
  intros Hroot Hindex gen' url Hin.
  destruct (generatePWA_done config st png gen root Hroot) as (_ & _ & _ & _ & _ & Ho & Hi).
  fold gen' in Ho, Hi.
  assert (Hnd : NoDup (map fst (iconEntries gen')))
    by (rewrite Hi, generateIcons_names; apply iconNames_NoDup).
  assert (Hname : forall path,
    In path (map Info.path (Files.allFiles st)) \/ In path (generatedPaths gen') ->
    isSome (zipGet path (archiveOf config st gen' readme)) = true)
    by (intros path; apply archiveOf_names; exact Hnd).
  rewrite urlsToCacheOf_eq in Hin.
  destruct Hin as [<-|[<-|[<-|Hin]]]; [now left| | |]; right.
  - exists "index.html". split; [reflexivity|]. apply Hname. now left.
  - exists "manifest.json". split; [reflexivity|]. apply Hname. right.
    apply generatedPaths_In. now left.
  - apply in_app_iff in Hin as [Hin|Hin].
    + apply in_map_iff in Hin as (file & <- & Hin).
      exists (Info.path file). split; [reflexivity|]. apply Hname. left.
      now apply in_map.
    + destruct (Config.enableOffline config) eqn:Eo; [|contradiction].
      destruct Hin as [<-|[]].
      exists "offline.html". split; [reflexivity|]. apply Hname. right.
      apply generatedPaths_In. right. right. left. now rewrite Ho.
Qed.

Lemma precache_urls_in_archive_witness :
  "/demo/css/style.css" = Config.startUrl demoConfig \/
  exists path,
    "/demo/css/style.css" = Config.startUrl demoConfig ++ path /\
    isSome (zipGet path
              (archiveOf demoConfig pwaState
                 (fst (generatePWA demoConfig pwaState demoPng noGeneratedFiles))
                 "README")) = true.
Proof.
  apply (precache_urls_in_archive demoConfig pwaState demoPng noGeneratedFiles "README"
           (Ref.mk "index.html" "<!doctype html>"
              (File.mk "App/index.html" "index.html" "text/html" 15 "<!doctype html>"))).
  - reflexivity.
  - vm_compute. left. reflexivity.
  - vm_compute. auto 10.
Defined.

(** The offline page in the archive.  generatePWA writes
    [this.generatedFiles.offline] only when offline support is enabled and
    never clears it.  So, from the empty [this.generatedFiles], a run that
    reached its end puts [offline.html] in the archive exactly when offline
    support is enabled or the folder has a file at that path; but a run
    with offline support disabled, after a run with it enabled, leaves the
    page of the earlier run in the archive, while the precache list of the
    new service worker has no URL for it unless the folder has such a
    file. *)
Theorem offline_page_in_archive
    (config : Config.t) (st : Files.t) (png : nat -> string) (readme : string)
    (root : Ref.t) :
  Files.index st = Some root ->
  (let gen' := fst (generatePWA config st png noGeneratedFiles) in
   isSome (zipGet "offline.html" (archiveOf config st gen' readme)) = true <->
   Config.enableOffline config = true \/
   In "offline.html" (map Info.path (Files.allFiles st))) /\
  (forall earlier gen,
     Config.enableOffline earlier = true ->
     Config.enableOffline config = false ->
     let gen1 := fst (generatePWA earlier st png gen) in
     let gen2 := fst (generatePWA config st png gen1) in
     zipGet "offline.html" (archiveOf config st gen2 readme)
     = Some (Text (generateOfflinePage earlier)) /\
     (~ In "offline.html" (map Info.path (Files.allFiles st)) ->
      ~ In (Config.startUrl config ++ "offline.html")
           (urlsToCacheOf config (Files.allFiles st)))).
Proof.
  intros Hroot. split.
  - intros gen'.
    destruct (generatePWA_done config st png noGeneratedFiles root Hroot)
      as (_ & _ & _ & _ & _ & Ho & Hi).
    fold gen' in Ho, Hi.
    assert (Hnd : NoDup (map fst (iconEntries gen')))
      by (rewrite Hi, generateIcons_names; apply iconNames_NoDup).
    rewrite (archiveOf_names config st gen' readme "offline.html" Hnd).
    rewrite generatedPaths_In, Ho, Hi.
    destruct (Config.enableOffline config).
    + split; [intros _; now left|].
      intros _. right. right. right. left. split; reflexivity.
    + cbn [Generated.offline noGeneratedFiles truthy].
      split; [|intros [H|H]; [discriminate|now left]].
      intros [H|[H|[H|[[H _]|[H|H]]]]]; try discriminate; [now right|].
      exfalso. revert H. apply not_icon_path. reflexivity.
  - intros earlier gen He Hc gen1 gen2.
    destruct (generatePWA_done earlier st png gen root Hroot)
      as (_ & _ & _ & _ & _ & Ho1 & _).
    fold gen1 in Ho1. rewrite He in Ho1.
    destruct (generatePWA_done config st png gen1 root Hroot)
      as (_ & _ & _ & _ & _ & Ho2 & Hi2).
    fold gen2 in Ho2, Hi2. rewrite Hc, Ho1 in Ho2.
    assert (Hnd : NoDup (map fst (iconEntries gen2)))
      by (rewrite Hi2, generateIcons_names; apply iconNames_NoDup).
    destruct (downloadAll_generated config st gen2 readme Hnd) as (_ & _ & Hoff & _).
    rewrite Ho2 in Hoff. split; [exact (Hoff (offlinePage_truthy earlier))|].
    intros Hno Hin. rewrite urlsToCacheOf_eq, Hc, app_nil_r in Hin.
    destruct Hin as [H|[H|[H|Hin]]].
    + rewrite <- (sapp_nil_r (Config.startUrl config)) in H at 1.
      apply sapp_inv_head in H. discriminate.
    + apply sapp_inv_head in H. discriminate.
    + apply sapp_inv_head in H. discriminate.
    + apply in_map_iff in Hin as (file & H & Hin).
      apply sapp_inv_head in H. apply Hno. rewrite <- H. now apply in_map.
Qed.

Lemma offline_page_in_archive_witness :
  isSome (zipGet "offline.html"
            (archiveOf demoConfig pwaState
               (fst (generatePWA demoConfig pwaState demoPng noGeneratedFiles))
               "README")) = true <->
  Config.enableOffline demoConfig = true \/
  In "offline.html" (map Info.path (Files.allFiles pwaState)).
Proof.
  exact (proj1 (offline_page_in_archive demoConfig pwaState demoPng "README"
                  (Ref.mk "index.html" "<!doctype html>"
                     (File.mk "App/index.html" "index.html" "text/html" 15
                        "<!doctype html>"))
                  eq_refl)).
Defined.

(** ** The number showDownloadSection shows and the files of the archive *)

Lemma length_zipFile name data zip :
  length (zipFile name data zip) =
  if isSome (zipGet name zip) then length zip else S (length zip).
Proof.
  unfold zipGet. induction zip as [|[n d] rest IH]; cbn [zipFile assoc]; [reflexivity|].
  destruct (String.eqb n name); cbn [length isSome]; [reflexivity|].
  rewrite IH. now destruct (isSome (assoc name rest)).
Qed.

Lemma length_zipFile_le name data zip :
  length (zipFile name data zip) <= S (length zip).
Proof. rewrite length_zipFile. destruct (isSome _); lia. Qed.

Lemma length_zipFile_new name data zip :
  zipGet name zip = None -> length (zipFile name data zip) = S (length zip).
Proof. intros H. now rewrite length_zipFile, H. Qed.

Section WritesCount.

Context {E : Type} (key : E -> string) (value : E -> Data).
Context (step : Archive -> E -> Archive).
Hypothesis step_zipFile : forall zip e, step zip e = zipFile (key e) (value e) zip.

Lemma length_loop_le entries zip :
  length (fold_left step entries zip) <= length zip + length entries.
Proof.
  revert zip. induction entries as [|e entries IH]; intros zip; cbn [fold_left length].
  - lia.
  - specialize (IH (step zip e)). rewrite step_zipFile in IH at 2.
    pose proof (length_zipFile_le (key e) (value e) zip). lia.
Qed.

Lemma length_loop_new entries zip :
  NoDup (map key entries) ->
  (forall e, In e entries -> zipGet (key e) zip = None) ->
  length (fold_left step entries zip) = length zip + length entries.
Proof.
  revert zip. induction entries as [|e entries IH]; intros zip Hnd Hnew;
    cbn [fold_left length]; [lia|].
  cbn [map] in Hnd. inversion Hnd as [|? ? Hx Hnd']; subst.
  rewrite IH; [|exact Hnd'|].
  - rewrite step_zipFile, length_zipFile_new by (apply Hnew; now left). lia.
  - intros e' Hin. rewrite step_zipFile, zipGet_zipFile_other.
    + apply Hnew. now right.
    + intros Heq. apply Hx. rewrite Heq. now apply in_map.
Qed.

End WritesCount.

Lemma zipGet_none_iff name zip : zipGet name zip = None <-> isSome (zipGet name zip) <> true.
Proof. destruct (zipGet name zip); cbn; split; congruence. Qed.

(** The number of files showDownloadSection shows is never below the number
    of files in the archive of downloadAll, and it is that number when the
    uploaded files have distinct paths, the icons distinct names, and no
    uploaded file has the path of a generated file.  (An uploaded file at a
    generated path is counted twice and archived once.) *)
Theorem files_generated_count
    (config : Config.t) (st : Files.t) (gen : Generated.t) (readme : string) :
  length (archiveOf config st gen readme) <= fst (fst (showDownloadSection st gen)) /\
  (NoDup (map Info.path (Files.allFiles st)) ->
   NoDup (map fst (iconEntries gen)) ->
   (forall path, In path (map Info.path (Files.allFiles st)) ->
                 ~ In path (generatedPaths gen)) ->
   length (archiveOf config st gen readme) = fst (fst (showDownloadSection st gen))).
Proof.
  rewrite downloadAll_steps. unfold showDownloadSection. cbn [fst].
  set (users := fold_left (addUserFile st gen) (Files.allFiles st) []).
  set (z1 := zipFile "manifest.json" (dataOf (Generated.manifest gen)) users).
  set (z2 := zipFile "sw.js" (dataOf (Generated.serviceWorker gen)) z1).
  set (z3 := (if truthy (Generated.offline gen)
              then zipFile "offline.html" (dataOf (Generated.offline gen))
              else fun zip => zip) z2).
  set (z4 := fold_left addIcon (iconEntries gen) z3).
  split.
  - pose proof (length_loop_le Info.path (userData st gen) (addUserFile st gen)
                  (addUserFile_zipFile st gen) (Files.allFiles st) []) as L0.
    fold users in L0. cbn [length] in L0.
    pose proof (length_zipFile_le "manifest.json" (dataOf (Generated.manifest gen)) users).
    pose proof (length_zipFile_le "sw.js" (dataOf (Generated.serviceWorker gen)) z1).
    assert (L3 : length z3 <= length z2 + (if truthy (Generated.offline gen) then 1 else 0)).
    { subst z3. destruct (truthy (Generated.offline gen)); [|lia].
      pose proof (length_zipFile_le "offline.html" (dataOf (Generated.offline gen)) z2).
      lia. }
    pose proof (length_loop_le (fun e : string * string => "icons/" ++ fst e)
                  (fun e => IconBlob (snd e)) addIcon addIcon_zipFile
                  (iconEntries gen) z3) as L4.
    fold z4 in L4.
    pose proof (length_zipFile_le "README.md" (Text readme) z4).
    fold z1 in H. fold z2 in H0.
    destruct (truthy (Generated.offline gen)); lia.
  - intros Hfiles Hicons Hapart.
    assert (Hgen : forall name, In name (generatedPaths gen) -> zipGet name users = None).
    { intros name Hin. apply zipGet_none_iff. unfold users.
      rewrite user_loop_names. intros Hp. exact (Hapart name Hp Hin). }
    assert (L0 : length users = length (Files.allFiles st)).
    { unfold users.
      rewrite (length_loop_new Info.path (userData st gen) (addUserFile st gen)
                 (addUserFile_zipFile st gen) (Files.allFiles st) [] Hfiles);
        [reflexivity|reflexivity]. }
    assert (L1 : length z1 = S (length users)).
    { apply length_zipFile_new, Hgen, generatedPaths_In. now left. }
    assert (L2 : length z2 = S (length z1)).
    { apply length_zipFile_new. unfold z1.
      rewrite zipGet_zipFile_other by discriminate.
      apply Hgen, generatedPaths_In. right. now left. }
    assert (G3 : forall name, name <> "manifest.json" -> name <> "sw.js" ->
                 name <> "offline.html" -> zipGet name z3 = zipGet name users).
    { intros name N1 N2 N3. unfold z3, z2, z1.
      destruct (truthy (Generated.offline gen));
        rewrite !zipGet_zipFile_other by congruence; reflexivity. }
    assert (L3 : length z3 = length z2 + (if truthy (Generated.offline gen) then 1 else 0)).
    { unfold z3. destruct (truthy (Generated.offline gen)) eqn:Et; [|lia].
      rewrite length_zipFile_new; [lia|]. unfold z2, z1.
      rewrite !zipGet_zipFile_other by discriminate.
      apply Hgen, generatedPaths_In. right. right. left. now split. }
    assert (L4 : length z4 = length z3 + length (iconEntries gen)).
    { unfold z4.
      apply (length_loop_new (fun e : string * string => "icons/" ++ fst e)
               (fun e => IconBlob (snd e)) addIcon addIcon_zipFile).
      - now apply icon_paths_NoDup.
      - intros e Hin. rewrite G3 by discriminate.
        apply Hgen, generatedPaths_In. right. right. right. left.
        apply in_map_iff. now exists e. }
    rewrite length_zipFile_new.
    + destruct (truthy (Generated.offline gen)); lia.
    + unfold z4.
      rewrite (zipGet_loop_other _ _ addIcon addIcon_zipFile)
        by (apply not_icon_path; reflexivity).
      rewrite G3 by discriminate.
      apply Hgen, generatedPaths_In. right. right. right. now right.
Qed.

Lemma files_generated_count_witness :
  length (archiveOf demoConfig
            (processAllFiles Files.empty (map Info.blob demoFiles))
            (fst (generatePWA demoConfig
                    (processAllFiles Files.empty (map Info.blob demoFiles))
                    demoPng noGeneratedFiles))
            "README")
  = 12.
Proof.
  rewrite (proj2 (files_generated_count demoConfig
                    (processAllFiles Files.empty (map Info.blob demoFiles))
                    (fst (generatePWA demoConfig
                            (processAllFiles Files.empty (map Info.blob demoFiles))
                            demoPng noGeneratedFiles))
                    "README")).
  - reflexivity.
  - vm_compute. repeat constructor; cbn [In]; intuition discriminate.
  - vm_compute. repeat constructor; cbn [In]; intuition discriminate.
  - vm_compute. intros path [<-|[]]. intuition discriminate.
Defined.

(** ** countFolders and countUniqueFolders *)

Lemma setAdd_In x set y : In y (setAdd x set) <-> y = x \/ In y set.
Proof.
  unfold setAdd. destruct (existsb (String.eqb x) set) eqn:E.
  - split; [now right|]. intros [->|H]; [|exact H].
    apply existsb_exists in E as (z & Hz & Ez). apply String.eqb_eq in Ez. now subst z.
  - rewrite in_app_iff. cbn [In]. intuition congruence.
Qed.

Lemma setAdd_NoDup x set : NoDup set -> NoDup (setAdd x set).
Proof.
  intros H. unfold setAdd. destruct (existsb (String.eqb x) set) eqn:E; [exact H|].
  apply NoDup_app; [exact H|repeat constructor; intros []|].
  intros y Hy [Hx|[]]. subst y.
  assert (existsb (String.eqb x) set = true)
    by (apply existsb_exists; exists x; split; [exact Hy|apply String.eqb_refl]).
  congruence.
Qed.

Section SetLoop.

Context {A : Type} (f : A -> string).

Lemma setLoop_In (l : list A) set y :
  In y (fold_left (fun s a => setAdd (f a) s) l set) <->
  In y set \/ exists a, In a l /\ y = f a.
Proof.
  revert set. induction l as [|a l IH]; intros set; cbn [fold_left].
  - split; [now left|]. intros [H|(a & [] & _)]. exact H.
  - rewrite IH, setAdd_In. split.
    + intros [[->|H]|(b & Hb & ->)]; [right; exists a; split; [now left|reflexivity]
                                      |now left|right; exists b; split; [now right|reflexivity]].
    + intros [H|(b & [<-|Hb] & ->)]; [left; now right|left; now left|right; now exists b].
Qed.

Lemma setLoop_NoDup (l : list A) set :
  NoDup set -> NoDup (fold_left (fun s a => setAdd (f a) s) l set).
Proof.
  revert set. induction l as [|a l IH]; intros set H; cbn [fold_left]; [exact H|].
  now apply IH, setAdd_NoDup.
Qed.

End SetLoop.

Lemma addPrefixes_In k parts set y :
  In y (addPrefixes k parts set) <->
  In y set \/ exists i, i < length parts - 1 /\ y = join "/" (firstn (i + k) parts).
Proof.
  unfold addPrefixes.
  rewrite (setLoop_In (fun i => join "/" (firstn (i + k) parts))).
  split; (intros [H|(i & Hi & ->)]; [now left|right; exists i; split; [|reflexivity]]).
  - apply in_seq in Hi. lia.
  - apply in_seq. lia.
Qed.

Lemma addPrefixes_NoDup k parts set : NoDup set -> NoDup (addPrefixes k parts set).
Proof. apply (setLoop_NoDup (fun i => join "/" (firstn (i + k) parts))). Qed.

Section FolderLoop.

Context {F : Type} (partsOf : F -> list string) (k : nat).

Let folders (files : list F) (set : list string) : list string :=
  fold_left (fun (s : list string) (file : F) => addPrefixes k (partsOf file) s) files set.

Lemma folders_In files set y :
  In y (folders files set) <->
  In y set \/
  exists file i, In file files /\ i < length (partsOf file) - 1 /\
                 y = join "/" (firstn (i + k) (partsOf file)).
Proof.
  unfold folders. revert set. induction files as [|a l IH]; intros set; cbn [fold_left].
  - split; [now left|]. intros [H|(a & i & [] & _)]. exact H.
  - rewrite IH, addPrefixes_In. split.
    + intros [[H|(i & Hi & ->)]|(b & i & Hb & Hi & ->)].
      * now left.
      * right. exists a, i. split; [now left|now split].
      * right. exists b, i. split; [now right|now split].
    + intros [H|(b & i & [<-|Hb] & Hi & ->)].
      * left. now left.
      * left. right. now exists i.
      * right. now exists b, i.
Qed.

Lemma folders_NoDup files set : NoDup set -> NoDup (folders files set).
Proof.
  unfold folders. revert set. induction files as [|a l IH]; intros set H; cbn [fold_left];
    [exact H|].
  now apply IH, addPrefixes_NoDup.
Qed.

End FolderLoop.


Lemma NoDup_map_injective {A B : Type} (g : A -> B) (l : list A) :
  (forall x y, g x = g y -> x = y) -> NoDup l -> NoDup (map g l).
Proof.
  intros Hg. induction l as [|a l IH]; cbn [map]; intros H; [constructor|].
  inversion H as [|? ? Ha Hl]; subst. constructor; [|now apply IH].
  intros Hin. apply in_map_iff in Hin as (x & Hx & Hin).
  apply Hg in Hx. now subst x.
Qed.

Lemma join_under_root root parts i :
  parts <> [] ->
  join "/" (firstn (i + 2) (root :: parts))
  = root ++ "/" ++ join "/" (firstn (i + 1) parts).
Proof.
  intros Hne. destruct parts as [|h t]; [contradiction|].
  replace (i + 2) with (S (S i)) by lia. replace (i + 1) with (S i) by lia.
  cbn [firstn]. apply join_cons.
Qed.

(** The folders countFolders counts are the folders countUniqueFolders
    counts together with the files themselves: for an upload whose paths
    all start with the same folder name, with distinct relative paths none
    of which is also the path of a folder of the upload, countFolders
    exceeds countUniqueFolders by the number of files.  For files that all
    lie in the root of the folder countUniqueFolders is 0 and countFolders
    is the number of files. *)
Theorem countFolders_counts_files
    (root : string) (st : Files.t) (files : list File.t) :
  includes "/" root = false ->
  (forall file, In file files ->
     exists rest,
       orElse (File.webkitRelativePath file) (File.name file) = root ++ "/" ++ rest) ->
  NoDup (map getRelativePath files) ->
  (forall file other i,
     In file files -> In other files ->
     i < length (split "/" (getRelativePath other)) - 1 ->
     join "/" (firstn (i + 1) (split "/" (getRelativePath other)))
     <> getRelativePath file) ->
  countFolders files = countUniqueFolders (processAllFiles st files) + length files /\
  ((forall file, In file files -> includes "/" (getRelativePath file) = false) ->
   countUniqueFolders (processAllFiles st files) = 0 /\
   countFolders files = length files).
Proof.
  intros Hroot Hpaths Hdistinct Hapart.
  set (U := fold_left (fun (s : list string) (file : Info.t) =>
                         addPrefixes 1 (split "/" (Info.path file)) s)
                      (Files.allFiles (processAllFiles st files)) []).
  set (F := fold_left (fun (s : list string) (file : File.t) =>
                         addPrefixes 2
                           (split "/" (orElse (File.webkitRelativePath file)
                                              (File.name file))) s)
                      files []).
  change (length F = length U + length files /\
          ((forall file, In file files -> includes "/" (getRelativePath file) = false) ->
           length U = 0 /\ length F = length files)).
  assert (HU : forall y, In y U <->
    exists file i, In file files /\
                   i < length (split "/" (getRelativePath file)) - 1 /\
                   y = join "/" (firstn (i + 1) (split "/" (getRelativePath file)))).
  { intros y. unfold U.
    rewrite (folders_In (fun file : Info.t => split "/" (Info.path file)) 1).
    destruct (processAllFiles_records st files) as (_ & Hp & _). cbv zeta in Hp.
    split.
    - intros [[]|(info & i & Hin & Hi & ->)].
      assert (Hin' : In (Info.path info) (map getRelativePath files))
        by (rewrite <- Hp; now apply in_map).
      apply in_map_iff in Hin' as (file & E & Hf).
      exists file, i. rewrite E. auto.
    - intros (file & i & Hin & Hi & ->). right.
      assert (Hin' : In (getRelativePath file)
                        (map Info.path (Files.allFiles (processAllFiles st files))))
        by (rewrite Hp; now apply in_map).
      apply in_map_iff in Hin' as (info & E & Hf).
      exists info, i. rewrite E. auto. }
  assert (Hraw : forall file, In file files ->
    split "/" (orElse (File.webkitRelativePath file) (File.name file))
    = root :: split "/" (getRelativePath file)).
  { intros file Hin. destruct (Hpaths file Hin) as (rest & E).
    unfold getRelativePath. rewrite E, (split_folder_rest root rest Hroot). cbn [tl].
    now rewrite (join_split "/"). }
  assert (HF : forall y, In y F <->
    In y (map (fun x => root ++ "/" ++ x) (U ++ map getRelativePath files))).
  { intros y. unfold F.
    rewrite (folders_In (fun file : File.t =>
               split "/" (orElse (File.webkitRelativePath file) (File.name file))) 2).
    rewrite in_map_iff. split.
    - intros [[]|(file & i & Hin & Hi & ->)].
      rewrite (Hraw file Hin) in *. cbn [length] in Hi.
      rewrite join_under_root by apply split_nonempty.
      destruct (Nat.eq_dec (S i) (length (split "/" (getRelativePath file)))) as [E|E].
      + exists (getRelativePath file). split.
        * replace (i + 1) with (S i) by lia. rewrite E, firstn_all.
          now rewrite (join_split "/").
        * apply in_app_iff. right. now apply in_map.
      + exists (join "/" (firstn (i + 1) (split "/" (getRelativePath file)))).
        split; [reflexivity|]. apply in_app_iff. left. apply HU.
        exists file, i. split; [exact Hin|]. split; [lia|reflexivity].
    - intros (x & <- & Hx). right. apply in_app_iff in Hx as [Hx|Hx].
      + apply HU in Hx as (file & i & Hin & Hi & ->).
        exists file, i. rewrite (Hraw file Hin). cbn [length].
        split; [exact Hin|]. split; [lia|].
        now rewrite join_under_root by apply split_nonempty.
      + apply in_map_iff in Hx as (file & <- & Hin).
        pose proof (split_nonempty "/" (getRelativePath file)) as Hne.
        exists file, (length (split "/" (getRelativePath file)) - 1).
        rewrite (Hraw file Hin). cbn [length].
        assert (0 < length (split "/" (getRelativePath file)))
          by (destruct (split "/" (getRelativePath file)); [contradiction|cbn; lia]).
        split; [exact Hin|]. split; [lia|].
        rewrite join_under_root by exact Hne.
        replace (length (split "/" (getRelativePath file)) - 1 + 1)
          with (length (split "/" (getRelativePath file))) by lia.
        now rewrite firstn_all, (join_split "/"). }
  assert (NU : NoDup U)
    by (apply (folders_NoDup (fun file : Info.t => split "/" (Info.path file)) 1);
        constructor).
  assert (NF : NoDup F)
    by (apply (folders_NoDup (fun file : File.t =>
                 split "/" (orElse (File.webkitRelativePath file) (File.name file))) 2);
        constructor).
  assert (NR : NoDup (map (fun x => root ++ "/" ++ x) (U ++ map getRelativePath files))).
  { apply NoDup_map_injective; [intros x y E; apply sapp_inv_head in E; now inversion E|].
    apply NoDup_app; [exact NU|exact Hdistinct|].
    intros y Hy Hr. apply HU in Hy as (other & i & Ho & Hi & ->).
    apply in_map_iff in Hr as (file & E & Hf).
    exact (Hapart file other i Hf Ho Hi (eq_sym E)). }
  assert (L : length F = length U + length files).
  { rewrite (Permutation_length (NoDup_Permutation NF NR HF)).
    now rewrite length_map, length_app, length_map. }
  split; [exact L|].
  intros Hflat.
  assert (E0 : length U = 0).
  { destruct (length U) eqn:EU; [reflexivity|]. exfalso.
    destruct U as [|y U']; [discriminate EU|].
    assert (Hy : In y (y :: U')) by now left.
    apply HU in Hy as (file & i & Hin & Hi & _).
    rewrite (split_no_sep "/" _ (Hflat file Hin)) in Hi. cbn in Hi. lia. }
  split; [exact E0|]. rewrite L, E0. reflexivity.
Qed.

Lemma countFolders_counts_files_witness :
  countFolders [File.mk "Site/index.html" "index.html" "text/html" 15 "<!doctype html>";
                File.mk "Site/app.js" "app.js" "text/javascript" 3 "1;"] = 2.
Proof.
  apply (proj2 (countFolders_counts_files "Site" Files.empty
                  [File.mk "Site/index.html" "index.html" "text/html" 15 "<!doctype html>";
                   File.mk "Site/app.js" "app.js" "text/javascript" 3 "1;"]
                  eq_refl
                  ltac:(intros file [<-|[<-|[]]]; eexists; reflexivity)
                  ltac:(vm_compute; repeat constructor; cbn [In]; intuition discriminate)
                  ltac:(intros file other i _ [<-|[<-|[]]] Hi; vm_compute in Hi; lia))).
  intros file [<-|[<-|[]]]; reflexivity.
Defined.

(** ** guessFileType: the extension that decides *)

Lemma last_split_extension base ext :
  includes "." ext = false ->
  last (split "." (base ++ "." ++ ext)) "" = ext.
Proof.
  intros H. change (base ++ "." ++ ext) with (base ++ String "." ext).
  rewrite split_app_sep, (split_no_sep "." ext H). apply last_last.
Qed.

(** guessFileType looks up the text after the last dot of the name,
    lowercased: an extension of the table gives its type whatever its case
    and whatever comes before the dot, and a name without a dot is taken as
    its own extension.  processFile uses this type only when the browser
    gives the file none. *)
Theorem guessFileType_extension (base ext type : string) :
  includes "." ext = false ->
  assoc (toLowerCase ext) mimeTypes = Some type ->
  guessFileType (base ++ "." ++ ext) = type /\
  guessFileType ext = type /\
  (forall st file,
     getRelativePath file = base ++ "." ++ ext ->
     map Info.type (Files.allFiles (processFile st file))
     = (map Info.type (Files.allFiles st) ++ [orElse (File.type file) type])%list).
Proof.
  intros Hdot Htype.
  assert (G1 : guessFileType (base ++ "." ++ ext) = type).
  { unfold guessFileType. cbv zeta.
    now rewrite (last_split_extension base ext Hdot), Htype. }
  split; [exact G1|]. split.
  - unfold guessFileType. cbv zeta.
    rewrite (split_no_sep "." ext Hdot). cbn [last]. now rewrite Htype.
  - intros st file Hpath.
    destruct (processFile_frame st file) as (A & _). cbv zeta in A.
    rewrite Hpath, G1 in A. now rewrite A, map_app.
Qed.

Lemma guessFileType_extension_witness :
  guessFileType "img/Photo.final.JPG" = "image/jpeg" /\ guessFileType "css" = "text/css".
Proof.
  split.
  - apply (proj1 (guessFileType_extension "img/Photo.final" "JPG" "image/jpeg"
                    eq_refl eq_refl)).
  - apply (proj1 (proj2 (guessFileType_extension "" "css" "text/css" eq_refl eq_refl))).
Defined.

(** ** The listeners of the service worker, counted *)

(** For a configuration whose cacheStrategy is one of the three keys and
    whose name, folder name, start URL and scope are quiet form values,
    and for uploaded paths without a single quote, the service worker
    registers one listener each for [install], [activate], [fetch] and
    [sync], and one each for [push] and [notificationclick] exactly when
    notifications are enabled: the text [addEventListener('<event>'] occurs
    that many times in the script, in whatever case of letters, and the
    line of the template that registers the listener occurs that many
    times among its lines. *)
Theorem generateServiceWorker_listeners
    (config : Config.t) (allFiles : list Info.t)
    (key : string) (generator : Config.t -> string) :
  In (key, generator) strategyGenerators ->
  Config.cacheStrategy config = key ->
  quiet (Config.name config) = true ->
  quiet (Config.folderName config) = true ->
  quiet (Config.startUrl config) = true ->
  quiet (Config.scope config) = true ->
  (forall file, In file allFiles -> noQuote (Info.path file) = true) ->
  let sw := generateServiceWorker config allFiles in
  let notifications := if Config.enableNotifications config then 1 else 0 in
  (occurrences (listenerStart "install") sw = 1 /\
   occurrences (listenerStart "activate") sw = 1 /\
   occurrences (listenerStart "fetch") sw = 1 /\
   occurrences (listenerStart "sync") sw = 1 /\
   occurrences (listenerStart "push") sw = notifications /\
   occurrences (listenerStart "notificationclick") sw = notifications) /\
  countLines "self.addEventListener('install', event => {" sw = 1 /\
  countLines "self.addEventListener('activate', event => {" sw = 1 /\
  countLines "self.addEventListener('fetch', event => {" sw = 1 /\
  countLines "self.addEventListener('sync', event => {" sw = 1 /\
  countLines "self.addEventListener('push', event => {" sw = notifications /\
  countLines "self.addEventListener('notificationclick', event => {" sw = notifications.
Proof.
  intros Hin Hkey Qn Qf Qs Qc Hpaths.
  pose proof (quiet_singleLine _ Qn) as Hn. pose proof (quiet_singleLine _ Qf) as Hf.
  pose proof (quiet_singleLine _ Qs) as Hs. pose proof (quiet_singleLine _ Qc) as Hc.
  pose proof (quiet_noQuote _ Qn) as Nn. pose proof (quiet_noQuote _ Qf) as Nf.
  pose proof (quiet_noQuote _ Qs) as Ns. pose proof (quiet_noQuote _ Qc) as Nc.
  split.
  { cbv zeta.
    split; [exact (listener_count_install config allFiles key generator
                     Hin Hkey Nn Nf Ns Nc Hpaths)|].
    split; [exact (listener_count_activate config allFiles key generator
                     Hin Hkey Nn Nf Ns Nc Hpaths)|].
    split; [exact (listener_count_fetch config allFiles key generator
                     Hin Hkey Nn Nf Ns Nc Hpaths)|].
    split; [exact (listener_count_sync config allFiles key generator
                     Hin Hkey Nn Nf Ns Nc Hpaths)|].
    split; [exact (listener_count_push config allFiles key generator
                     Hin Hkey Nn Nf Ns Nc Hpaths)|].
    exact (listener_count_notificationclick config allFiles key generator
             Hin Hkey Nn Nf Ns Nc Hpaths). }
  clear Qn Qf Qs Qc Nn Nf Ns Nc Hpaths.
  assert (Hk : singleLine (Config.cacheStrategy config) = true).
  { rewrite Hkey. simpl in Hin.
    destruct Hin as [H|[H|[H|[]]]]; inversion H; reflexivity. }
  destruct config as [name shortName appId folderName description themeColor
                        backgroundColor startUrl scope display orientation
                        cacheStrategy enableOffline enableNotifications].
  cbn [Config.name Config.cacheStrategy Config.folderName Config.startUrl Config.scope
       Config.enableNotifications] in *.
  subst cacheStrategy. cbv zeta.
  simpl in Hin.
  repeat match goal with |- _ /\ _ => split end;
    (rewrite countLines_serviceWorker by (assumption || reflexivity));
    destruct Hin as [H|[H|[H|[]]]]; inversion H; subst key generator;
    destruct enableOffline, enableNotifications; vm_compute; reflexivity.
Qed.

Lemma generateServiceWorker_listeners_witness :
  occurrences (listenerStart "push") (generateServiceWorker demoConfig demoFiles) = 0 /\
  occurrences (listenerStart "install") (generateServiceWorker demoConfig demoFiles) = 1.
Proof.
  destruct (generateServiceWorker_listeners demoConfig demoFiles "cache-first"
              generateCacheFirstStrategy (or_introl eq_refl)
              eq_refl eq_refl eq_refl eq_refl eq_refl)
    as ((Hi & _ & _ & _ & Hp & _) & _).
  - intros file [<-|[]]; reflexivity.
  - split; [exact Hp|exact Hi].
Defined.

(** ** From the upload to the download *)

Section WritesSame.

Context {E : Type} (key : E -> string) (value : E -> Data).
Context (step : Archive -> E -> Archive).
Hypothesis step_zipFile : forall zip e, step zip e = zipFile (key e) (value e) zip.

(** A name that every write of the loop gives the same data holds that data
    once one of them has run. *)
Lemma zipGet_loop_same name data entries zip :
  (forall e, In e entries -> key e = name -> value e = data) ->
  In name (map key entries) ->
  zipGet name (fold_left step entries zip) = Some data.
Proof.
  revert zip. induction entries as [|e entries IH]; intros zip Hsame Hin; [contradiction|].
  cbn [fold_left].
  destruct (in_dec string_dec name (map key entries)) as [Hlater|Hlater].
  - apply IH; [|exact Hlater]. intros e' He'. apply Hsame. now right.
  - rewrite (zipGet_loop_other key value step step_zipFile name entries _ Hlater).
    destruct Hin as [Hk|Hin]; [|contradiction].
    rewrite step_zipFile, Hk, zipGet_zipFile_same.
    f_equal. apply Hsame; [now left|exact Hk].
Qed.

End WritesSame.

Lemma index_not_generated png gen :
  iconEntries gen = generateIcons png -> ~ In "index.html" (generatedPaths gen).
Proof.
  intros Hi H. apply generatedPaths_In in H.
  destruct H as [H|[H|[[_ H]|[H|H]]]]; try discriminate.
  revert H. apply not_icon_path. reflexivity.
Qed.

(** The state a successful upload leaves. *)
Lemma handleFolderUpload_loaded displayFolderTree st files :
  snd (handleFolderUpload displayFolderTree st files) = Loaded ->
  exists folderName total,
    fst (fst (handleFolderUpload displayFolderTree st files))
    = processAllFiles (Files.setFolder st folderName (sanitizeFolderName folderName) total)
                      files /\
    validateFolderStructure (fst (fst (handleFolderUpload displayFolderTree st files)))
    = None.
Proof.
  unfold handleFolderUpload. destruct files as [|first rest]; [discriminate|].
  cbv zeta.
  set (folderName := hd "" (split "/" (orElse (File.webkitRelativePath first)
                                              (File.name first)))).
  set (total := sumSizes (first :: rest)).
  destruct (N.ltb maxSize total); [discriminate|].
  destruct (validateFolderStructure
              (processAllFiles
                 (Files.setFolder st folderName (sanitizeFolderName folderName) total)
                 (first :: rest))) eqn:V; [discriminate|].
  destruct (displayFolderTree (first :: rest)); [|discriminate].
  intros _. exists folderName, total. cbn [fst]. now split.
Qed.

(** The page of the download is the uploaded page with the PWA code
    injected: after an upload that succeeded from a state without a root
    document, and a run of generatePWA from the empty
    [this.generatedFiles], the upload has a file at [index.html] that
    passes validateHTML, and [index.html] in the archive is injectPWACode
    of the content of that file. *)
Theorem uploaded_page_in_archive
    (displayFolderTree : list File.t -> bool)
    (st : Files.t) (files : list File.t) (config : Config.t) (png : nat -> string)
    (readme : string) :
  Files.index st = None ->
  snd (handleFolderUpload displayFolderTree st files) = Loaded ->
  let st' := fst (fst (handleFolderUpload displayFolderTree st files)) in
  let run := generatePWA config st' png noGeneratedFiles in
  exists file,
    In file files /\
    getRelativePath file = "index.html" /\
    validateHTML (File.content file) = true /\
    Files.index st' = Some (refOf file) /\
    snd run = true /\
    zipGet "index.html" (archiveOf config st' (fst run) readme)
    = Some (Text (injectPWACode config (Files.allFiles st') (File.content file))).
Proof.
  intros Hfresh Hloaded st' run.
  destruct (handleFolderUpload_loaded displayFolderTree st files Hloaded)
    as (folderName & total & Est & Hvalid).
  fold st' in Est, Hvalid.
  set (st0 := Files.setFolder st folderName (sanitizeFolderName folderName) total) in Est.
  assert (Hidx : Files.index st'
                 = match find isRootDocument (rev files) with
                   | Some f => Some (refOf f)
                   | None => None
                   end).
  { rewrite Est. unfold processAllFiles. rewrite fold_processFile_index.
    cbn [Files.index Files.setAllFiles Files.setFolder st0]. now rewrite Hfresh. }
  unfold validateFolderStructure in Hvalid. rewrite Hidx in Hvalid.
  destruct (find isRootDocument (rev files)) as [file|] eqn:Ef; [|discriminate Hvalid].
  cbn [Ref.content refOf] in Hvalid.
  destruct (validateHTML (File.content file)) eqn:Hv; [|discriminate Hvalid].
  apply find_some in Ef as [Hin Hroot]. apply in_rev in Hin.
  unfold isRootDocument in Hroot. apply String.eqb_eq in Hroot.
  destruct (generatePWA_done config st' png noGeneratedFiles (refOf file) Hidx)
    as (Hdone & _ & _ & Hhtml & _ & _ & Hicons).
  fold run in Hdone, Hhtml, Hicons.
  exists file. repeat (split; [assumption|]).
  rewrite (downloadAll_frame config st' (fst run) readme "index.html"
             (index_not_generated png (fst run) Hicons)).
  apply (zipGet_loop_same Info.path (userData st' (fst run)) (addUserFile st' (fst run))
           (addUserFile_zipFile st' (fst run))).
  - intros info _ Hp. unfold userData. rewrite Hp.
    rewrite String.eqb_refl, Hhtml. reflexivity.
  - destruct (processAllFiles_records st0 files) as (_ & Hp & _).
    cbv zeta in Hp. rewrite Est, Hp, <- Hroot. now apply in_map.
Qed.

Lemma uploaded_page_in_archive_witness :
  zipGet "index.html"
    (archiveOf demoConfig
       (fst (fst (handleFolderUpload treeShown Files.empty (map Info.blob demoFiles))))
       (fst (generatePWA demoConfig
               (fst (fst (handleFolderUpload treeShown Files.empty
                            (map Info.blob demoFiles))))
               demoPng noGeneratedFiles))
       "README")
  <> None.
Proof.
  destruct (uploaded_page_in_archive treeShown Files.empty (map Info.blob demoFiles)
              demoConfig demoPng "README" eq_refl eq_refl)
    as (file & _ & _ & _ & _ & _ & H).
  rewrite H. discriminate.
Defined.

(** A primary script or stylesheet is kept across uploads: processAllFiles
    sets [this.files.js] and [this.files.css] only while they are empty,
    and only [reset] and a failed upload empty them.  So after a second
    upload the enhanced script is made of the script of the first upload.
    In the archive, a file of the second upload that has the path of that
    script is replaced by the enhanced script, unless that path is the
    name of a generated file, which holds the generated file: a first
    script at [sw.js] leaves the generated service worker there. *)
Theorem earlier_script_is_kept
    (st : Files.t) (files : list File.t) (js : Ref.t) :
  Files.js st = Some js ->
  let st' := processAllFiles st files in
  Files.js st' = Some js /\
  (forall css, Files.css st = Some css -> Files.css st' = Some css) /\
  (forall config, enhanceJavaScript config st'
                  = pwaHelpers config (Files.allFiles st') ++ Ref.content js) /\
  (forall config png gen readme root,
     Files.index st' = Some root ->
     NoDup (map getRelativePath files) ->
     In (Ref.path js) (map getRelativePath files) ->
     Ref.path js <> "index.html" ->
     let gen' := fst (generatePWA config st' png gen) in
     let zip := archiveOf config st' gen' readme in
     (~ In (Ref.path js) (generatedPaths gen') ->
      zipGet (Ref.path js) zip
      = Some (Text (pwaHelpers config (Files.allFiles st') ++ Ref.content js))) /\
     (Ref.path js = "sw.js" ->
      zipGet (Ref.path js) zip
      = Some (Text (generateServiceWorker config (Files.allFiles st'))))).
Proof.
  intros Hjs st'.
  assert (J : Files.js st' = Some js).
  { unfold st', processAllFiles. rewrite fold_processFile_js.
    cbn [Files.js Files.setAllFiles]. now rewrite Hjs. }
  split; [exact J|]. split.
  { intros css Hcss. unfold st', processAllFiles. rewrite fold_processFile_css.
    cbn [Files.css Files.setAllFiles]. now rewrite Hcss. }
  assert (Henh : forall config, enhanceJavaScript config st'
                  = pwaHelpers config (Files.allFiles st') ++ Ref.content js)
    by (intros config; unfold enhanceJavaScript; now rewrite J).
  split; [exact Henh|].
  intros config png gen readme root Hroot Hnd Hin Hne gen' zip.
  destruct (generatePWA_done config st' png gen root Hroot)
    as (_ & _ & Hsw & _ & Hj & _ & Hi).
  fold gen' in Hj, Hsw, Hi. rewrite J in Hj. cbn [isSome] in Hj.
  split.
  - intros Hgen.
    destruct (processAllFiles_records st files) as (_ & Hp & _). cbv zeta in Hp.
    fold st' in Hp.
    rewrite <- Hp in Hnd, Hin.
    apply in_map_iff in Hin as (info & Hpath & Hin).
    unfold zip.
    rewrite (downloadAll_frame config st' gen' readme _ Hgen). rewrite <- Hpath.
    rewrite (user_loop_written st' gen' info Hnd Hin).
    unfold userData. rewrite Hpath, J, String.eqb_refl.
    apply String.eqb_neq in Hne. rewrite Hne, Hj, Henh. reflexivity.
  - intros ->.
    assert (Hndi : NoDup (map fst (iconEntries gen')))
      by (rewrite Hi, generateIcons_names; apply iconNames_NoDup).
    destruct (downloadAll_generated config st' gen' readme Hndi) as (_ & H & _).
    unfold zip. rewrite H, Hsw. reflexivity.
Qed.

Lemma earlier_script_is_kept_witness :
  zipGet "js/app.js"
    (archiveOf demoConfig twoUploads
       (fst (generatePWA demoConfig twoUploads demoPng noGeneratedFiles)) "README")
  = Some (Text (pwaHelpers demoConfig (Files.allFiles twoUploads) ++ "run();")).
Proof.
  pose proof (proj2 (proj2 (proj2
                (earlier_script_is_kept (processAllFiles Files.empty firstUpload)
                   secondUpload
                   (Ref.mk "js/app.js" "run();"
                      (File.mk "App/js/app.js" "app.js" "text/javascript" 6 "run();"))
                   eq_refl)))) as H.
  specialize (H demoConfig demoPng noGeneratedFiles "README"
                (Ref.mk "index.html" "<!doctype html>"
                   (File.mk "Other/index.html" "index.html" "text/html" 15
                      "<!doctype html>"))
                eq_refl).
  apply H.
  - repeat constructor; cbn [In]; intuition discriminate.
  - right. left. reflexivity.
  - discriminate.
  - intros G. apply generatedPaths_In in G.
    destruct G as [G|[G|[[_ G]|[G|G]]]]; try discriminate.
    revert G. apply not_icon_path. reflexivity.
Defined.

(** ** The manifest loses nothing of the configuration *)

(** Two configurations that give the same manifest text have the same app
    id, name, short name, description, start URL, scope, display mode,
    orientation, theme colour and background colour: the escaping of
    JSON.stringify keeps every character of every value. *)
Theorem generateManifest_injective (config other : Config.t) :
  generateManifest config = generateManifest other ->
  Config.appId config = Config.appId other /\
  Config.name config = Config.name other /\
  Config.shortName config = Config.shortName other /\
  Config.description config = Config.description other /\
  Config.startUrl config = Config.startUrl other /\
  Config.scope config = Config.scope other /\
  Config.display config = Config.display other /\
  Config.orientation config = Config.orientation other /\
  Config.themeColor config = Config.themeColor other /\
  Config.backgroundColor config = Config.backgroundColor other.
Proof.
  intros H. unfold generateManifest, manifestObject in H.
  cbn [stringify map fst snd join String.concat] in H.
  rewrite !sapp_assoc in H.
  do 10 (repeat apply sapp_inv_head in H;
         apply jsonQuote_prefix_free in H;
         let E := fresh "E" in destruct H as [E H]).
  repeat split; assumption.
Qed.

Lemma generateManifest_injective_witness :
  Config.name demoConfig = Config.name demoConfig.
Proof.
  exact (proj1 (proj2 (generateManifest_injective demoConfig demoConfig eq_refl))).
Defined.

(** ** injectPWACode removes nothing *)

Lemma Subsequence_refl s : Subsequence s s.
Proof. induction s; constructor; assumption. Qed.

Lemma Subsequence_app a b c d :
  Subsequence a b -> Subsequence c d -> Subsequence (a ++ c) (b ++ d).
Proof. intros H. induction H; intros Hc; simpl; auto; constructor; auto. Qed.

Lemma Subsequence_trans a b c : Subsequence a b -> Subsequence b c -> Subsequence a c.
Proof.
  intros Hab Hbc. revert a Hab.
  induction Hbc as [|x s t H IH|x s t H IH]; intros a Hab.
  - exact Hab.
  - inversion Hab; subst.
    + constructor. now apply IH.
    + constructor. now apply IH.
  - constructor. now apply IH.
Qed.

Lemma Subsequence_empty t : Subsequence "" t.
Proof. induction t; constructor; assumption. Qed.

Lemma Subsequence_includes p t : includes p t = true -> Subsequence p t.
Proof.
  intros H. apply includes_inv in H as (a & b & ->).
  rewrite <- (sapp_nil_r p) at 1. change p with ("" ++ p) at 1.
  rewrite sapp_assoc.
  apply Subsequence_app; [apply Subsequence_empty|].
  apply Subsequence_app; [apply Subsequence_refl|apply Subsequence_empty].
Qed.

Lemma Subsequence_length s t : Subsequence s t -> String.length s <= String.length t.
Proof. intros H. induction H; simpl; lia. Qed.

(** Replacing a tag by a text that has the tag in it removes nothing. *)
Lemma replace_keeps_all pat X html :
  substSafe X -> includes pat (toLowerCase X) = true ->
  Subsequence (toLowerCase html) (toLowerCase (replace pat X html)).
Proof.
  intros HX Hp.
  destruct (searchCI pat html) as [[[b m] a]|] eqn:E.
  2:{ unfold replace. rewrite E. apply Subsequence_refl. }
  rewrite (replace_some pat X html b m a E HX).
  apply searchCI_sound in E as [-> Hm].
  rewrite !toLowerCase_app, Hm.
  apply Subsequence_app; [apply Subsequence_refl|].
  apply Subsequence_app; [now apply Subsequence_includes|apply Subsequence_refl].
Qed.

Lemma guarded_keeps_all needle pat X html :
  substSafe X -> includes pat (toLowerCase X) = true ->
  Subsequence (toLowerCase html) (toLowerCase (guarded needle pat X html)).
Proof.
  intros HX Hp. unfold guarded.
  destruct (negb (includes needle (toLowerCase html))); [|apply Subsequence_refl].
  now apply replace_keeps_all.
Qed.

(** injectPWACode only inserts: when the interpolated form values are plain
    (no dollar sign, no opening angle bracket) the document, lowercased, is
    the result, lowercased, with some characters left out; in particular
    the result is never shorter than the document.  (A tag that is matched
    in another case comes back in lowercase.) *)
Theorem injectPWACode_removes_nothing
    (config : Config.t) (allFiles : list Info.t) (html : string) :
  plainConfig config = true ->
  Subsequence (toLowerCase html) (toLowerCase (injectPWACode config allFiles html)) /\
  String.length html <= String.length (injectPWACode config allFiles html).
Proof.
  intros Hplain.
  destruct (plainConfig_fields config Hplain) as (Hn & Hsn & Ha & Hf & Ht & Hs & Hc).
  assert (Hlen : forall s, String.length (toLowerCase s) = String.length s).
  { intros s. unfold toLowerCase. induction s; simpl; congruence. }
  assert (Htail : forall x p, toLowerCase p = p -> includes p (toLowerCase (x ++ p)) = true).
  { intros x p E. rewrite toLowerCase_app, E.
    apply includes_right. rewrite <- (sapp_nil_r p) at 2.
    change (p ++ "") with ("" ++ p ++ ""). apply includes_app. }
  assert (S : Subsequence (toLowerCase html)
                          (toLowerCase (injectPWACode config allFiles html))).
  { unfold injectPWACode. cbv zeta.
    set (d1 := ensureViewport html).
    set (d2 := addThemeColor config d1).
    set (d3 := addManifestLink d2).
    set (d4 := addAppleMeta config d3).
    apply (Subsequence_trans _ (toLowerCase d1)).
    { unfold d1. rewrite (ensureViewport_guarded html).
      apply guarded_keeps_all; [apply substSafeb_ok; reflexivity|reflexivity]. }
    apply (Subsequence_trans _ (toLowerCase d2)).
    { unfold d2. rewrite (addThemeColor_guarded config d1).
      apply guarded_keeps_all; [exact (themeText_safe config Ht)|].
      replace ("    " ++ themeColorTag config ++ newline ++ "</head>")
        with (("    " ++ themeColorTag config ++ newline) ++ "</head>")
        by now rewrite !sapp_assoc.
      now apply Htail. }
    apply (Subsequence_trans _ (toLowerCase d3)).
    { unfold d3. rewrite (addManifestLink_guarded d2).
      apply guarded_keeps_all; [apply substSafeb_ok; reflexivity|reflexivity]. }
    apply (Subsequence_trans _ (toLowerCase d4)).
    { unfold d4. rewrite (addAppleMeta_guarded config d3).
      apply guarded_keeps_all; [exact (appleText_safe config Hsn)|].
      replace (appleMeta config ++ newline ++ "</head>")
        with ((appleMeta config ++ newline) ++ "</head>")
        by now rewrite !sapp_assoc.
      now apply Htail. }
    unfold addRegistration.
    apply replace_keeps_all; [exact (registrationText_safe config allFiles Hn Ha Hf Hs Hc)|].
    replace (swRegistration config allFiles ++ newline ++ "</body>")
      with ((swRegistration config allFiles ++ newline) ++ "</body>")
      by now rewrite !sapp_assoc.
    now apply Htail. }
  split; [exact S|].
  apply Subsequence_length in S. now rewrite !Hlen in S.
Qed.

Lemma injectPWACode_removes_nothing_witness :
  String.length demoPage <= String.length (injectPWACode demoConfig demoFiles demoPage).
Proof. exact (proj2 (injectPWACode_removes_nothing demoConfig demoFiles demoPage eq_refl)). Defined.

(** ** Uploading the same folder again *)

Lemma fold_processFile_allFiles files : forall st,
  Files.allFiles (fold_left processFile files st) =
  (Files.allFiles st ++
   map (fun file =>
          Info.mk (getRelativePath file) file
            (orElse (File.type file) (guessFileType (getRelativePath file)))
            (File.size file) (File.name file)) files)%list.
Proof.
  induction files as [|f files IH]; intros st; cbn [fold_left map].
  - now rewrite app_nil_r.
  - rewrite IH. destruct (processFile_frame st f) as (A & _). cbv zeta in A.
    rewrite A, <- app_assoc. reflexivity.
Qed.

Lemma Files_eq (a b : Files.t) :
  Files.folderName a = Files.folderName b ->
  Files.sanitizedName a = Files.sanitizedName b ->
  Files.allFiles a = Files.allFiles b ->
  Files.totalSize a = Files.totalSize b ->
  Files.index a = Files.index b ->
  Files.css a = Files.css b ->
  Files.js a = Files.js b ->
  Files.icon a = Files.icon b ->
  a = b.
Proof. destruct a, b. cbn. intros; subst; reflexivity. Qed.

(** The state processAllFiles leaves is a fixed point of a second pass over
    the same files. *)
Lemma processAllFiles_again st files :
  processAllFiles (processAllFiles st files) files = processAllFiles st files.
Proof.
  destruct (processAllFiles_records (processAllFiles st files) files)
    as (_ & _ & _ & _ & F & S & T & I).
  cbv zeta in *.
  apply Files_eq; try assumption.
  - unfold processAllFiles. rewrite !fold_processFile_allFiles. reflexivity.
  - unfold processAllFiles.
    repeat (rewrite fold_processFile_index || cbn [Files.index Files.setAllFiles]).
    now destruct (find isRootDocument (rev files)).
  - unfold processAllFiles.
    repeat (rewrite fold_processFile_css || cbn [Files.css Files.setAllFiles]).
    destruct (Files.css st); [reflexivity|].
    now destruct (find isStylesheet files).
  - unfold processAllFiles.
    repeat (rewrite fold_processFile_js || cbn [Files.js Files.setAllFiles]).
    destruct (Files.js st); [reflexivity|].
    now destruct (find isScript files).
Qed.

Lemma processAllFiles_setFolder st files raw clean total :
  processAllFiles (Files.setFolder st raw clean total) files
  = Files.setFolder (processAllFiles st files) raw clean total.
Proof.
  destruct (processAllFiles_records (Files.setFolder st raw clean total) files)
    as (_ & _ & _ & _ & F & S & T & I).
  destruct (processAllFiles_records st files) as (_ & _ & _ & _ & _ & _ & _ & I').
  cbv zeta in *.
  apply Files_eq; cbn [Files.setFolder Files.folderName Files.sanitizedName Files.allFiles
                       Files.totalSize Files.index Files.css Files.js Files.icon];
    try assumption.
  - unfold processAllFiles. rewrite !fold_processFile_allFiles. reflexivity.
  - unfold processAllFiles. rewrite !fold_processFile_index. reflexivity.
  - unfold processAllFiles. rewrite !fold_processFile_css. reflexivity.
  - unfold processAllFiles. rewrite !fold_processFile_js. reflexivity.
  - rewrite I, I'. reflexivity.
Qed.

(** Uploading the same files again after a successful upload changes
    nothing: the second upload succeeds too, with the same events, and
    leaves this.files as the first one left it.  (The folder tree is built
    from the uploaded list alone, so it is displayed the second time as it
    was the first.) *)
Theorem handleFolderUpload_again
  (displayFolderTree : list File.t -> bool) (st : Files.t) (files : list File.t) :
  snd (handleFolderUpload displayFolderTree st files) = Loaded ->
  handleFolderUpload displayFolderTree
    (fst (fst (handleFolderUpload displayFolderTree st files))) files
  = handleFolderUpload displayFolderTree st files.
Proof.
  intros Hloaded.
  unfold handleFolderUpload in *.
  destruct files as [|first rest]; [discriminate Hloaded|].
  cbv zeta in *.
  set (folderName := hd "" (split "/" (orElse (File.webkitRelativePath first)
                                              (File.name first)))) in *.
  set (total := sumSizes (first :: rest)) in *.
  destruct (N.ltb maxSize total) eqn:Hbig; [discriminate Hloaded|].
  set (st1 := processAllFiles
                (Files.setFolder st folderName (sanitizeFolderName folderName) total)
                (first :: rest)) in *.
  destruct (validateFolderStructure st1) eqn:Hv; [discriminate Hloaded|].
  destruct (displayFolderTree (first :: rest)) eqn:Hd; [|discriminate Hloaded].
  cbn [fst].
  assert (E : processAllFiles
                (Files.setFolder st1 folderName (sanitizeFolderName folderName) total)
                (first :: rest) = st1).
  { unfold st1.
    rewrite (processAllFiles_setFolder (processAllFiles _ _)), processAllFiles_again.
    rewrite (processAllFiles_setFolder st).
    apply Files_eq; reflexivity. }
  rewrite E, Hv. reflexivity.
Qed.

Lemma handleFolderUpload_again_witness :
  handleFolderUpload treeShown
    (fst (fst (handleFolderUpload treeShown Files.empty (map Info.blob pwaFiles))))
    (map Info.blob pwaFiles)
  = handleFolderUpload treeShown Files.empty (map Info.blob pwaFiles).
Proof. apply handleFolderUpload_again. reflexivity. Defined.

(** ** validateHTML: a substring test *)

(** validateHTML looks for one of its two markers anywhere in the text,
    whatever the case of letters: a text that passes still passes with any
    text before and after it, and in upper or lower case; so any file that
    holds [<html] somewhere, a script for instance, passes as a page. *)
Theorem validateHTML_anywhere (content : string) :
  validateHTML content = true ->
  (forall before after, validateHTML (before ++ content ++ after) = true) /\
  validateHTML (toLowerCase content) = true.
Proof.
  intros H. unfold validateHTML in *. cbv zeta in *.
  apply orb_true_iff in H.
  assert (Hidem : forall s, toLowerCase (toLowerCase s) = toLowerCase s).
  { intros s. unfold toLowerCase. induction s as [|c s IH]; simpl; [reflexivity|].
    rewrite IH. f_equal.
    destruct c as [[] [] [] [] [] [] [] []]; reflexivity. }
  split.
  - intros before after. rewrite !toLowerCase_app. apply orb_true_iff.
    destruct H as [H|H]; [left|right]; now apply includes_right, includes_left.
  - rewrite Hidem. now apply orb_true_iff.
Qed.

Lemma validateHTML_anywhere_witness :
  validateHTML ("const page = '" ++ "<HTML>" ++ "';") = true.
Proof. apply (proj1 (validateHTML_anywhere "<HTML>" eq_refl)). Defined.

